(** * Ventas: control de ventas de buzos, verified against its specification

    A shallow embedding of [Ventas.py] (record construction, input
    validation, date parsing, the daily / weekly summaries, the data file,
    the listing, the export and the menu) together with the properties its
    specification states about it and further properties of the code.

    Modelling conventions.
    - A Python [float] is an IEEE-754 binary64 number: [spec_float] with
      precision 53 and exponent bound 1024, with the operations of
      [SpecFloat] (round to nearest, ties to even).
    - A Python [int] is a [Z].
    - A Python [str] is a [string], the bytes of its UTF-8 text; text is
      classified as ASCII (digits [0-9], the ASCII white space characters,
      the letters [A-Z] for [lower]) and bytes outside ASCII are carried
      along unchanged.  On ASCII text ([isascii]) these are the functions
      of Python; a statement that depends on how other characters are
      classified assumes ASCII text.
    - Raised exceptions are results [Raise e]. *)

From Stdlib Require Import ZArith List String Ascii Bool Lia.
From Stdlib Require Import Floats.SpecFloat.
Import ListNotations.

Local Open Scope string_scope.
Local Open Scope list_scope.
Local Open Scope Z_scope.

(** ** Exceptions *)

Inductive exn : Type :=
| KeyError
| ValueError
| OverflowError
| EOFError.

Inductive result (A : Type) : Type :=
| Ok (a : A)
| Raise (e : exn).

Arguments Ok {A} a.
Arguments Raise {A} e.

Definition rbind {A B : Type} (r : result A) (k : A -> result B) : result B :=
  match r with
  | Ok a => k a
  | Raise e => Raise e
  end.

Declare Scope result_scope.
Delimit Scope result_scope with result.
Notation "'do' x <- r ; k" := (rbind r (fun x => k))
  (at level 10, x name, r at level 100, k at level 200) : result_scope.

(** ** Python floats *)

Module PyFloat.

Definition prec : Z := 53.
Definition emax : Z := 1024.

Definition float : Type := spec_float.

Definition fadd : float -> float -> float := SFadd prec emax.
Definition fsub : float -> float -> float := SFsub prec emax.
Definition fmul : float -> float -> float := SFmul prec emax.
Definition flt : float -> float -> bool := SFltb.
Definition fle : float -> float -> bool := SFleb.
Definition fgt (x y : float) : bool := SFltb y x.


(** The quotient [a / b] of two positive integers, correctly rounded. *)
Definition of_ratio (s : bool) (a b : positive) : float :=
  let '(q, e, l) := SFdiv_core_binary prec emax (Zpos a) 0 (Zpos b) 0 in
  binary_round_aux prec emax s q e l.

(** The float nearest to an integer. *)
Definition of_Z (n : Z) : float := binary_normalize prec emax n 0 false.

(** The decimal literal [m * 10^(-k)], as the interpreter reads it. *)
Definition dec (m : Z) (k : positive) : float :=
  match m with
  | Z0 => S754_zero false
  | Zpos a => of_ratio false a (Pos.pow 10 k)
  | Zneg a => of_ratio true a (Pos.pow 10 k)
  end.

Definition zero : float := S754_zero false.

(** Conversion of an [int] operand in mixed arithmetic: correctly rounded,
    [OverflowError] when the integer is too large for a float. *)
Definition float_of_int (n : Z) : result float :=
  match of_Z n with
  | S754_infinity _ => Raise OverflowError
  | f => Ok f
  end.

(** [int * float]. *)
Definition int_mul (n : Z) (x : float) : result float :=
  (do a <- float_of_int n; Ok (fmul a x))%result.

(** Nearest integer to [a / b], ties to the even one ([0 <= a], [0 < b]). *)
Definition div_half_even (a b : Z) : Z :=
  let q := a / b in
  match 2 * (a mod b) ?= b with
  | Lt => q
  | Gt => q + 1
  | Eq => if Z.even q then q else q + 1
  end.

(** The integer nearest to [100 * m * 2^e], ties to even. *)
Definition hundredths (m : positive) (e : Z) : Z :=
  match e with
  | Zneg p => div_half_even (Zpos m * 100) (Z.pow 2 (Zpos p))
  | _ => Zpos m * 100 * Z.pow 2 e
  end.

(** [round(x, 2)], as the interpreter computes it: the exact value of [x]
    is rounded to two decimals, ties to even, keeping the sign, and the
    decimal obtained is read back as the nearest float; infinities and NaN
    are returned as they are. *)
Definition round2 (x : float) : float :=
  match x with
  | S754_finite s m e =>
      match hundredths m e with
      | Zpos n => of_ratio s n 100
      | _ => S754_zero s
      end
  | _ => x
  end.

End PyFloat.

Import PyFloat.

(** ** Python strings *)

Module PyStr.

Definition in_range (lo hi c : ascii) : bool :=
  (N_of_ascii lo <=? N_of_ascii c)%N && (N_of_ascii c <=? N_of_ascii hi)%N.

(** [str.isspace] on ASCII: tab, line feed, vertical tab, form feed,
    carriage return, the four separators 28..31 and the space. *)
Definition is_space (c : ascii) : bool :=
  let n := N_of_ascii c in
  ((9 <=? n)%N && (n <=? 13)%N) || ((28 <=? n)%N && (n <=? 32)%N).

Definition is_digit (c : ascii) : bool := in_range "0" "9" c.

Definition digit_val (c : ascii) : Z := Z.of_N (N_of_ascii c) - 48.

Definition lower_char (c : ascii) : ascii :=
  if in_range "A" "Z" c then ascii_of_N (N_of_ascii c + 32) else c.

Fixpoint lower (s : string) : string :=
  match s with
  | EmptyString => EmptyString
  | String c r => String (lower_char c) (lower r)
  end.

Fixpoint lstrip (s : string) : string :=
  match s with
  | EmptyString => EmptyString
  | String c r => if is_space c then lstrip r else s
  end.

Fixpoint rstrip (s : string) : string :=
  match s with
  | EmptyString => EmptyString
  | String c r =>
      match rstrip r with
      | EmptyString => if is_space c then EmptyString else String c EmptyString
      | r' => String c r'
      end
  end.

Definition strip (s : string) : string := rstrip (lstrip s).

End PyStr.

Import PyStr.

(** ** Python dates and times *)

Module PyDatetime.

Record date : Type := mkDate {
  d_year : Z;
  d_month : Z;
  d_day : Z
}.

Record datetime : Type := mkDatetime {
  year : Z;
  month : Z;
  day : Z;
  hour : Z;
  minute : Z;
  second : Z;
  microsecond : Z
}.

(** [datetime.date()] *)
Definition date_of (dt : datetime) : date :=
  mkDate (year dt) (month dt) (day dt).

(** [==] on dates *)
Definition date_eqb (a b : date) : bool :=
  (d_year a =? d_year b) && (d_month a =? d_month b) && (d_day a =? d_day b).

Definition is_leap (y : Z) : bool :=
  (y mod 4 =? 0) && (negb (y mod 100 =? 0) || (y mod 400 =? 0)).

Definition days_in_month (y m : Z) : Z :=
  match m with
  | 2 => if is_leap y then 29 else 28
  | 4 | 6 | 9 | 11 => 30
  | _ => 31
  end.

(** Number of days before January 1st of year [y]. *)
Definition days_before_year (y : Z) : Z :=
  let y := y - 1 in
  y * 365 + y / 4 - y / 100 + y / 400.

(** Number of days in year [y] before the first day of month [m]. *)
Definition days_before_month (y m : Z) : Z :=
  nth (Z.to_nat m) [-1; 0; 31; 59; 90; 120; 151; 181; 212; 243; 273; 304; 334] 0
  + (if (2 <? m) && is_leap y then 1 else 0).

(** Proleptic Gregorian ordinal: 0001-01-01 is day 1. *)
Definition ymd2ord (y m d : Z) : Z :=
  days_before_year y + days_before_month y m + d.

(** Ordinal of the Monday that starts ISO week 1 of year [y]. *)
Definition isoweek1monday (y : Z) : Z :=
  let THURSDAY := 3 in
  let firstday := ymd2ord y 1 1 in
  let firstweekday := (firstday + 6) mod 7 in
  let week1monday := firstday - firstweekday in
  if THURSDAY <? firstweekday then week1monday + 7 else week1monday.

(** [datetime.isocalendar()]: ISO year, ISO week number, ISO weekday. *)
Definition isocalendar (dt : datetime) : Z * Z * Z :=
  let y := year dt in
  let week1monday := isoweek1monday y in
  let today := ymd2ord y (month dt) (day dt) in
  let week := (today - week1monday) / 7 in
  let wday := (today - week1monday) mod 7 in
  if week <? 0 then
    let y' := y - 1 in
    let week1monday' := isoweek1monday y' in
    (y', (today - week1monday') / 7 + 1, (today - week1monday') mod 7 + 1)
  else if (52 <=? week) && (isoweek1monday (y + 1) <=? today) then
    (y + 1, 1, wday + 1)
  else
    (y, week + 1, wday + 1).

(** The checks of the [date] and [datetime] constructors. *)
Definition valid_date (y m d : Z) : bool :=
  (1 <=? y) && (y <=? 9999) && (1 <=? m) && (m <=? 12)
  && (1 <=? d) && (d <=? days_in_month y m).

Definition valid_time (h mi s : Z) : bool :=
  (0 <=? h) && (h <=? 23) && (0 <=? mi) && (mi <=? 59)
  && (0 <=? s) && (s <=? 59).

Definition valid_datetime (dt : datetime) : bool :=
  valid_date (year dt) (month dt) (day dt)
  && valid_time (hour dt) (minute dt) (second dt)
  && (0 <=? microsecond dt) && (microsecond dt <=? 999999).

(** *** [strptime]

    The format is turned into a pattern: a run of white space matches one
    or more white space characters, a directive matches its field, any
    other character matches itself.  Alternatives of a field are tried in
    the order of the library's regular expressions, and the first complete
    match of the pattern is the one taken; text left over after it is an
    error.  The directives modelled are [%Y %m %d %H %M %S] and [%%]. *)

Definition parser (A : Type) : Type := string -> list (A * string).

Definition alt {A : Type} (p q : parser A) : parser A :=
  fun s => p s ++ q s.

Definition one (f : ascii -> bool) : parser Z :=
  fun s =>
    match s with
    | String c r => if f c then [(digit_val c, r)] else []
    | EmptyString => []
    end.

Definition two (f g : ascii -> bool) : parser Z :=
  fun s =>
    match s with
    | String c (String c' r) =>
        if f c && g c' then [(10 * digit_val c + digit_val c', r)] else []
    | _ => []
    end.

Definition is_char (a c : ascii) : bool := Ascii.eqb a c.

(** [\d\d\d\d] *)
Definition field_Y : parser Z :=
  fun s =>
    match s with
    | String a (String b (String c (String d r))) =>
        if is_digit a && is_digit b && is_digit c && is_digit d
        then [(1000 * digit_val a + 100 * digit_val b
               + 10 * digit_val c + digit_val d, r)]
        else []
    | _ => []
    end.

(** [1[0-2]|0[1-9]|[1-9]] *)
Definition field_m : parser Z :=
  alt (two (is_char "1") (in_range "0" "2"))
    (alt (two (is_char "0") (in_range "1" "9")) (one (in_range "1" "9"))).

(** [3[0-1]|[1-2]\d|0[1-9]|[1-9]| [1-9]] *)
Definition field_d : parser Z :=
  alt (two (is_char "3") (in_range "0" "1"))
    (alt (two (in_range "1" "2") is_digit)
      (alt (two (is_char "0") (in_range "1" "9"))
        (alt (one (in_range "1" "9"))
          (fun s =>
             match s with
             | String c r => if is_char " " c then one (in_range "1" "9") r else []
             | EmptyString => []
             end)))).

(** [2[0-3]|[0-1]\d|\d] *)
Definition field_H : parser Z :=
  alt (two (is_char "2") (in_range "0" "3"))
    (alt (two (in_range "0" "1") is_digit) (one is_digit)).

(** [[0-5]\d|\d] *)
Definition field_M : parser Z :=
  alt (two (in_range "0" "5") is_digit) (one is_digit).

(** [6[0-1]|[0-5]\d|\d] *)
Definition field_S : parser Z :=
  alt (two (is_char "6") (in_range "0" "1"))
    (alt (two (in_range "0" "5") is_digit) (one is_digit)).

(** [\s+], longest run first. *)
Fixpoint spaces1 (s : string) : list string :=
  match s with
  | String c r => if is_space c then spaces1 r ++ [r] else []
  | EmptyString => []
  end.

Inductive token : Type :=
| TSpaces
| TDirective (c : ascii)
| TLiteral (c : ascii)
| TStray.

Fixpoint tokenize (fmt : string) : list token :=
  match fmt with
  | EmptyString => []
  | String c r =>
      if is_char "%" c then
        match r with
        | String d r' => TDirective d :: tokenize r'
        | EmptyString => [TStray]
        end
      else if is_space c then
        match tokenize r with
        | TSpaces :: _ as ts => ts
        | ts => TSpaces :: ts
        end
      else TLiteral c :: tokenize r
  end.

(** The fields found so far; a field absent from the format keeps its
    default (1900-01-01 00:00:00). *)
Definition found_default : datetime := mkDatetime 1900 1 1 0 0 0 0.

Definition set_field (d : ascii) (v : Z) (f : datetime) : datetime :=
  if is_char "Y" d then mkDatetime v (month f) (day f) (hour f) (minute f) (second f) 0
  else if is_char "m" d then mkDatetime (year f) v (day f) (hour f) (minute f) (second f) 0
  else if is_char "d" d then mkDatetime (year f) (month f) v (hour f) (minute f) (second f) 0
  else if is_char "H" d then mkDatetime (year f) (month f) (day f) v (minute f) (second f) 0
  else if is_char "M" d then mkDatetime (year f) (month f) (day f) (hour f) v (second f) 0
  else mkDatetime (year f) (month f) (day f) (hour f) (minute f) v 0.

Definition field_of (d : ascii) : option (parser Z) :=
  if is_char "Y" d then Some field_Y
  else if is_char "m" d then Some field_m
  else if is_char "d" d then Some field_d
  else if is_char "H" d then Some field_H
  else if is_char "M" d then Some field_M
  else if is_char "S" d then Some field_S
  else None.

(** All the matches of the pattern at the start of [s], in the order in
    which a backtracking matcher finds them, each with the text left. *)
Fixpoint matches (ts : list token) (f : datetime) (s : string)
    : list (datetime * string) :=
  match ts with
  | [] => [(f, s)]
  | TSpaces :: ts' => flat_map (matches ts' f) (spaces1 s)
  | TLiteral c :: ts' =>
      match s with
      | String c' r =>
          if is_char (lower_char c) (lower_char c') then matches ts' f r else []
      | EmptyString => []
      end
  | TDirective d :: ts' =>
      if is_char "%" d then
        match s with
        | String c' r => if is_char "%" c' then matches ts' f r else []
        | EmptyString => []
        end
      else
        match field_of d with
        | Some p => flat_map (fun vr => matches ts' (set_field d (fst vr) f) (snd vr)) (p s)
        | None => []
        end
  | TStray :: _ => []
  end.

(** [datetime.strptime(s, fmt)]; every failure is a [ValueError]. *)
Definition strptime (s fmt : string) : result datetime :=
  match matches (tokenize fmt) found_default s with
  | (f, EmptyString) :: _ => if valid_datetime f then Ok f else Raise ValueError
  | _ => Raise ValueError
  end.

(** *** [strftime] for the directives above

    Numbers are written zero-padded, the year with four digits (for a year
    below 1000 the C library of some platforms writes fewer). *)

Definition digit_char (n : Z) : ascii := ascii_of_N (Z.to_N (48 + n mod 10)).

Definition pad2 (n : Z) : string :=
  String (digit_char (n / 10)) (String (digit_char n) EmptyString).

Definition pad4 (n : Z) : string :=
  String (digit_char (n / 1000)) (String (digit_char (n / 100)) (pad2 n)).

Definition show_field (d : ascii) (dt : datetime) : string :=
  if is_char "Y" d then pad4 (year dt)
  else if is_char "m" d then pad2 (month dt)
  else if is_char "d" d then pad2 (day dt)
  else if is_char "H" d then pad2 (hour dt)
  else if is_char "M" d then pad2 (minute dt)
  else if is_char "S" d then pad2 (second dt)
  else String d EmptyString.

Fixpoint strftime (dt : datetime) (fmt : string) : string :=
  match fmt with
  | EmptyString => EmptyString
  | String c r =>
      if is_char "%" c then
        match r with
        | String d r' => (show_field d dt ++ strftime dt r')%string
        | EmptyString => String c EmptyString
        end
      else String c (strftime dt r)
  end.

End PyDatetime.

Import PyDatetime.

(** ** The cost table and the derived fields *)

Definition COSTS : list (string * float) :=
  [ ("hombre", of_Z 35); ("mujer", of_Z 30); ("niño", of_Z 22) ].

Fixpoint dict_get {V : Type} (d : list (string * V)) (k : string) : option V :=
  match d with
  | [] => None
  | (k', v) :: d' => if String.eqb k' k then Some v else dict_get d' k
  end.

Definition VALID_TYPES : list string := map fst COSTS.

Definition in_keys (k : string) (ks : list string) : bool :=
  existsb (String.eqb k) ks.

(** [COSTS[tipo]] *)
Definition cost_of (tipo : string) : result float :=
  match dict_get COSTS tipo with
  | Some c => Ok c
  | None => Raise KeyError
  end.

Record fields : Type := mkFields {
  f_costo_unit : float;
  f_total : float;
  f_inversion : float;
  f_ganancia : float;
  f_alert : bool
}.

Definition compute_fields (tipo : string) (cantidad : Z)
    (precio_unitario : float) : result fields :=
  (do costo_unit <- cost_of tipo;
   do total <- int_mul cantidad precio_unitario;
   do inversion <- int_mul cantidad costo_unit;
   let ganancia := fsub total inversion in
   let alert := flt precio_unitario costo_unit in
   Ok (mkFields costo_unit (round2 total) (round2 inversion)
         (round2 ganancia) alert))%result.

(** ** Sale records and the ledger *)

(** A stored record: the keys of the dictionary built by [add_sale]. *)
Record sale : Type := mkSale {
  datetime_ : string;
  tipo : string;
  color : string;
  cantidad : Z;
  precio_unitario : float;
  costo_unitario : float;
  total : float;
  inversion_recuperada : float;
  ganancia : float;
  alerta_precio : bool
}.

Definition ledger : Type := list sale.

(** ** Date parsing *)

Definition FORMATS : list string :=
  [ "%Y-%m-%d %H:%M"; "%Y-%m-%d %H:%M:%S"; "%Y-%m-%d" ].

(** The [for fmt in ...] loop: a [ValueError] moves on to the next format. *)
Fixpoint try_formats (s : string) (fmts : list string) : result datetime :=
  match fmts with
  | [] => Raise ValueError
  | fmt :: rest =>
      match strptime s fmt with
      | Ok d =>
          if String.eqb fmt "%Y-%m-%d"
          then Ok (mkDatetime (year d) (month d) (day d) 0 0 0 0)
          else Ok d
      | Raise ValueError => try_formats s rest
      | Raise e => Raise e
      end
  end.

(** [now] is the value of [datetime.now()] at the call. *)
Definition parse_datetime (now : datetime) (s : string) : result datetime :=
  if in_keys (lower (strip s)) ["now"; ""] then Ok now
  else try_formats s FORMATS.

(** ** Summaries *)

(** [tipo_ganancias[k] += v] on a [defaultdict(float)]: keys keep the order
    in which they were first inserted; a missing key starts from [0.0]. *)
Fixpoint dict_add (d : list (string * float)) (k : string) (v : float)
    : list (string * float) :=
  match d with
  | [] => [(k, fadd zero v)]
  | (k', x) :: d' =>
      if String.eqb k' k then (k', fadd x v) :: d'
      else (k', x) :: dict_add d' k v
  end.

(** [max(d, key=lambda k: d[k])]: the keys are visited in order and a key
    replaces the current one only when its value is strictly greater. *)
Fixpoint max_loop (items : list (string * float)) (maxitem : string)
    (maxval : float) : string :=
  match items with
  | [] => maxitem
  | (k, v) :: rest =>
      if fgt v maxval then max_loop rest k v else max_loop rest maxitem maxval
  end.

Definition max_key (d : list (string * float)) : option string :=
  match d with
  | [] => None
  | (k, v) :: rest => Some (max_loop rest k v)
  end.

Record accum : Type := mkAccum {
  total_vendido : float;
  ganancia_acum : float;
  tipo_ganancias : list (string * float)
}.

Definition accum0 : accum := mkAccum zero zero [].

Definition add_to (a : accum) (s : sale) : accum :=
  mkAccum (fadd (total_vendido a) (total s))
          (fadd (ganancia_acum a) (ganancia s))
          (dict_add (tipo_ganancias a) (tipo s) (ganancia s)).

Definition sale_time (s : sale) : result datetime :=
  strptime (datetime_ s) "%Y-%m-%d %H:%M:%S".

(** The loop shared, word for word, by [daily_summary] and
    [weekly_summary]; [selected] is the test of the [if]. *)
Fixpoint summary_loop (selected : datetime -> bool) (sales : ledger)
    (a : accum) : result accum :=
  match sales with
  | [] => Ok a
  | s :: rest =>
      (do dt <- sale_time s;
       summary_loop selected rest (if selected dt then add_to a s else a))%result
  end.

Record summary : Type := mkSummary {
  sum_total : float;
  sum_ganancia : float;
  tipo_mas_rentable : option string;
  by_type : list (string * float)
}.

Definition finish (a : accum) : summary :=
  mkSummary (round2 (total_vendido a)) (round2 (ganancia_acum a))
            (max_key (tipo_ganancias a)) (tipo_ganancias a).

Definition same_day (dt : date) (d : datetime) : bool :=
  date_eqb (date_of d) dt.

Definition same_week (year week : Z) (d : datetime) : bool :=
  let '(y, w, _) := isocalendar d in (y =? year) && (w =? week).

Definition daily_summary (sales : ledger) (dt : date) : result summary :=
  (do a <- summary_loop (same_day dt) sales accum0; Ok (finish a))%result.

Definition weekly_summary (sales : ledger) (year week : Z) : result summary :=
  (do a <- summary_loop (same_week year week) sales accum0; Ok (finish a))%result.

(** ** The interactive registration of a sale *)

(** What [add_sale] writes on the terminal, one constructor per [print] (or
    prompt) of the source. *)
Inductive printed : Type :=
| PPrompt (s : string)          (* the prompt of an [input] *)
| PError (e : exn)              (* 'Error:', e *)
| PTipoInvalido                 (* 'Tipo inválido. Debe ser uno de:' ... *)
| PCantidadNoPositiva           (* 'Cantidad debe ser positiva' *)
| PCantidadInvalida             (* 'Cantidad inválida' *)
| PPrecioNegativo               (* 'Precio no puede ser negativo' *)
| PPrecioInvalido               (* 'Precio inválido' *)
| PVentaRegistrada (r : sale)   (* 'Venta registrada:' and the record *)
| PAlerta                       (* the warning of a price below cost *)
| PDatosEjemplo.                (* 'Datos de ejemplo añadidos' *)

(** The state the functions act on: the lines still to be read, what has
    been printed, the list [sales] shared with the caller, and the contents
    of [ventas.json] ([None] while the file does not exist). *)
Record world : Type := mkWorld {
  stdin : list string;
  stdout : list printed;
  sales : ledger;
  data_file : option ledger
}.

Definition M (A : Type) : Type := world -> result A * world.

Definition ret {A : Type} (a : A) : M A := fun w => (Ok a, w).

Definition bind {A B : Type} (m : M A) (k : A -> M B) : M B :=
  fun w =>
    match m w with
    | (Ok a, w') => k a w'
    | (Raise e, w') => (Raise e, w')
    end.

Declare Scope io_scope.
Delimit Scope io_scope with io.
Notation "x <- m ;; k" := (bind m (fun x => k))
  (at level 61, m at next level, right associativity) : io_scope.
Notation "m ;; k" := (bind m (fun _ => k))
  (at level 61, right associativity) : io_scope.

Definition lift {A : Type} (r : result A) : M A := fun w => (r, w).

(** [try: ... except ...]: the outcome of the body, as a value. *)
Definition attempt {A : Type} (m : M A) : M (result A) :=
  fun w => let (r, w') := m w in (Ok r, w').

Definition print (p : printed) : M unit :=
  fun w => (Ok tt, mkWorld (stdin w) (stdout w ++ [p]) (sales w) (data_file w)).

(** [input(prompt)]: [EOFError] when no line is left. *)
Definition input (prompt : string) : M string :=
  fun w =>
    let out := stdout w ++ [PPrompt prompt] in
    match stdin w with
    | [] => (Raise EOFError, mkWorld [] out (sales w) (data_file w))
    | line :: rest => (Ok line, mkWorld rest out (sales w) (data_file w))
    end.

(** [sales.append(record)] *)
Definition append (record : sale) : M unit :=
  fun w => (Ok tt, mkWorld (stdin w) (stdout w) (sales w ++ [record]) (data_file w)).

(** [save_data(sales)]: the file is rewritten with the whole list. *)
Definition save_data : M unit :=
  fun w => (Ok tt, mkWorld (stdin w) (stdout w) (sales w) (Some (sales w))).

Definition make_record (dt : datetime) (t color : string) (cantidad : Z)
    (precio_unitario : float) (f : fields) : sale :=
  mkSale (strftime dt "%Y-%m-%d %H:%M:%S") t color cantidad
         (round2 precio_unitario) (f_costo_unit f) (f_total f)
         (f_inversion f) (f_ganancia f) (f_alert f).

(** The first prompt: Fecha y hora (YYYY-MM-DD HH:MM o "now"):  *)
Definition prompt_fecha : string :=
  let quote := String (ascii_of_N 34) EmptyString in
  ("Fecha y hora (YYYY-MM-DD HH:MM o " ++ quote ++ "now" ++ quote ++ "): ")%string.

Section AddSale.

(** The conversions [int(...)] and [float(...)] of a line of text; [None]
    stands for the [ValueError] they raise on text they do not accept. *)
Variable py_int : string -> option Z.
Variable py_float : string -> option float.

(** The clock: what [datetime.now()] returns. *)
Variable now : datetime.

Definition add_sale : M unit :=
  (r <- attempt (s <- input prompt_fecha ;;
                 lift (parse_datetime now (strip s))) ;;
   match r with
   | Raise e => print (PError e)
   | Ok dt =>
     t0 <- input "Tipo (hombre/mujer/niño): " ;;
     let t := lower (strip t0) in
     if negb (in_keys t VALID_TYPES) then print PTipoInvalido
     else
       color0 <- input "Color: " ;;
       let color := strip color0 in
       c <- input "Cantidad vendida: " ;;
       match py_int (strip c) with
       | None => print PCantidadInvalida
       | Some cantidad =>
         if cantidad <=? 0 then print PCantidadNoPositiva
         else
           p <- input "Precio de venta unitario (Bs): " ;;
           match py_float (strip p) with
           | None => print PPrecioInvalido
           | Some precio_unitario =>
             if flt precio_unitario zero then print PPrecioNegativo
             else
               f <- lift (compute_fields t cantidad precio_unitario) ;;
               let record := make_record dt t color cantidad precio_unitario f in
               append record ;;
               save_data ;;
               print (PVentaRegistrada record) ;;
               if f_alert f then print PAlerta else ret tt
           end
       end
   end)%io.

End AddSale.

(** ** The example data *)

Definition ejemplo : list (string * string * string * Z * float) :=
  [ ("2025-12-29 10:15:00", "hombre", "negro", 3, of_Z 40);
    ("2025-12-29 12:30:00", "mujer", "rojo", 2, of_Z 28);
    ("2025-12-28 09:00:00", "niño", "azul", 4, of_Z 25);
    ("2025-12-30 14:00:00", "hombre", "gris", 1, of_Z 30) ].

Fixpoint demo_loop (es : list (string * string * string * Z * float)) : M unit :=
  match es with
  | [] => ret tt
  | (d, t, c, q, p) :: rest =>
      (f <- lift (compute_fields t q p) ;;
       append (mkSale d t c q p (f_costo_unit f) (f_total f) (f_inversion f)
                      (f_ganancia f) (f_alert f)) ;;
       demo_loop rest)%io
  end.

Definition demo_data : M unit :=
  (demo_loop ejemplo ;; save_data ;; print PDatosEjemplo)%io.

Definition world0 (lines : list string) : world := mkWorld lines [] [] None.

(** ** Definitions used to state the properties *)

(** The profit as the specification words it: the total and the investment
    are rounded first, their difference is rounded again. *)
Definition spec_profit (total_rounded inversion_rounded : float) : float :=
  round2 (fsub total_rounded inversion_rounded).


Ltac cmp_cases :=
  repeat match goal with
  | |- context [Z.compare ?a ?b] => destruct (Z.compare_spec a b)
  | H : context [Z.compare ?a ?b] |- _ => destruct (Z.compare_spec a b)
  end;
  simpl in *; try reflexivity; try discriminate; try lia.

(** A record carries a timestamp in the stored format. *)
Definition timed (s : sale) : Prop := exists d, sale_time s = Ok d.

(** The test of the loop on a record: its timestamp passes [selected]. *)
Definition selects (selected : datetime -> bool) (s : sale) : bool :=
  match sale_time s with
  | Ok d => selected d
  | Raise _ => false
  end.

(** The records of the ledger whose calendar date is [dt]. *)
Definition on_day (dt : date) (sales : ledger) : ledger :=
  filter (selects (same_day dt)) sales.

(** The ISO year and the ISO week number of a timestamp. *)
Definition iso_year (d : datetime) : Z := fst (fst (isocalendar d)).
Definition iso_week (d : datetime) : Z := snd (fst (isocalendar d)).

(** The records of the ledger that fall in ISO week [week] of ISO year
    [year]. *)
Definition in_iso_week (year week : Z) (s : sale) : bool :=
  match sale_time s with
  | Ok d => (iso_year d =? year) && (iso_week d =? week)
  | Raise _ => false
  end.



(** The summary of a list of records, all of them taken. *)
Definition summary_of (rs : list sale) : summary :=
  finish (fold_left add_to rs accum0).

(** A time window of a summary, and the summary over it. *)
Inductive window : Type :=
| Day (dt : date)
| Week (year week : Z).

Definition in_window (w : window) : datetime -> bool :=
  match w with
  | Day dt => same_day dt
  | Week year week => same_week year week
  end.

Definition summarize (w : window) (sales : ledger) : result summary :=
  match w with
  | Day dt => daily_summary sales dt
  | Week year week => weekly_summary sales year week
  end.

Definition empty_summary : summary := mkSummary zero zero None [].

(** The records of the ledger that fall in a window. *)
Definition chosen (w : window) (sales : ledger) : ledger :=
  filter (selects (in_window w)) sales.

(** The ledger left by [demo_data] run on an empty one. *)
Definition demo_sales : ledger := sales (snd (demo_data (world0 []))).



(** A reading of the clock, for the examples. *)
Definition noon : datetime := mkDatetime 2026 1 15 12 0 0 0.



(** [str.isascii()]: every character is below 128.  On such text the
    classification of characters above ([is_space], [is_digit],
    [lower_char]) is the one of Python. *)
Fixpoint isascii (s : string) : bool :=
  match s with
  | EmptyString => true
  | String c r => (N_of_ascii c <? 128)%N && isascii r
  end.


(** The five answers typed in a run of [add_sale]. *)
Definition answers (fecha t c q p : string) (rest : list string) : list string :=
  fecha :: t :: c :: q :: p :: rest.

Definition is_prompt (p : printed) : bool :=
  match p with
  | PPrompt _ => true
  | _ => false
  end.

(** A reading of the quantities and prices typed in the examples. *)
Definition demo_int (s : string) : option Z :=
  if String.eqb s "1000" then Some 1000
  else if String.eqb s "-2" then Some (-2)
  else None.

Definition demo_float (s : string) : option float :=
  if String.eqb s "1.004" then Some (dec 1004 3) else None.

(** Proof steps for the runs of [add_sale]. *)
Ltac run_add_sale :=
  unfold add_sale, bind, attempt, input, lift, print, append, save_data, ret.

Ltac step := cbn [stdin stdout sales data_file negb fst snd].


(** Case analysis on every test of [add_sale], in the order of the run. *)
Ltac add_sale_cases :=
  repeat (step; match goal with
    | |- context [match ?l with [] => _ | _ :: _ => _ end] => destruct l
    | |- context [match parse_datetime ?a ?b with _ => _ end] =>
        destruct (parse_datetime a b) eqn:Hdate
    | |- context [negb (in_keys ?a ?b)] => destruct (in_keys a b) eqn:Ht
    | |- context [match ?f (strip ?a) with Some _ => _ | None => _ end] =>
        destruct (f (strip a))
    | |- context [if ?n <=? 0 then _ else _] => destruct (n <=? 0) eqn:Hn
    | |- context [if flt ?x zero then _ else _] => destruct (flt x zero) eqn:Hx
    | |- context [match compute_fields ?a ?b ?c with _ => _ end] =>
        destruct (compute_fields a b c)
    | |- context [if f_alert ?f then _ else _] => destruct (f_alert f)
    end); step.

(** Two decimal digits in front of a text. *)
Definition two_digits (a b : Z) (r : string) : string :=
  String (digit_char a) (String (digit_char b) r).

(** Case analysis on a decimal digit. *)
Ltac digit_split a Ha :=
  let H := fresh "H" in
  assert (H : a = 0 \/ a = 1 \/ a = 2 \/ a = 3 \/ a = 4 \/ a = 5 \/ a = 6
              \/ a = 7 \/ a = 8 \/ a = 9) by lia;
  clear Ha; repeat destruct H as [H | H]; subst a.

Ltac by_digits :=
  intros a Ha b Hb H r;
  digit_split a Ha; digit_split b Hb; try reflexivity; exfalso; lia.

(** The ordinal of the day of a timestamp. *)
Definition ordinal (d : datetime) : Z := ymd2ord (year d) (month d) (day d).

(** The Monday that starts the week (Monday to Sunday) of a day. *)
Definition week_monday (d : datetime) : Z := ordinal d - (ordinal d + 6) mod 7.

(** The categories of a list of records, each once, in the order in which
    they first occur. *)
Definition first_seen (ks : list string) : list string :=
  fold_left (fun acc k => if in_keys k acc then acc else acc ++ [k]) ks [].

(** A float that is a number: neither an infinity nor NaN. *)
Definition is_finite (x : float) : bool :=
  match x with
  | S754_zero _ | S754_finite _ _ _ => true
  | _ => false
  end.

(** ** Reading the ledger *)

(** [load_data()]: the list stored in the file, the empty list when the
    file does not exist.  The file holds what [save_data] wrote: [json.load]
    gives back the list that [json.dump] was given. *)
Definition load_data : M ledger :=
  fun w =>
    match data_file w with
    | None => (Ok [], w)
    | Some stored => (Ok stored, w)
    end.

(** ** Definitions for the further properties *)

(** The ledger in memory is the one that [load_data] would read. *)
Definition synced (w : world) : Prop :=
  fst (load_data w) = Ok (sales w).

(** A record as [add_sale] lets it in: a category of the table, a positive
    quantity, a price that is not negative, and the cost of its category. *)
Definition well_formed (r : sale) : Prop :=
  in_keys (tipo r) VALID_TYPES = true
  /\ 0 < cantidad r
  /\ flt (precio_unitario r) zero = false
  /\ dict_get COSTS (tipo r) = Some (costo_unitario r).

(** The timestamp as it is stored: without the microseconds. *)
Definition to_seconds (dt : datetime) : datetime :=
  mkDatetime (year dt) (month dt) (day dt) (hour dt) (minute dt) (second dt) 0.

(** A decimal text too long for a float: 1 followed by 309 zeros. *)
Definition huge_text : string :=
  String "1" (fold_right (fun _ s => String "0" s) EmptyString (seq 0 309)).

(** A reading of the answers of the edge cases. *)
Definition edge_int (s : string) : option Z :=
  if String.eqb s huge_text then Some (10 ^ 309)
  else if String.eqb s "2" then Some 2
  else None.

Definition edge_float (s : string) : option float :=
  if String.eqb s "nan" then Some S754_nan
  else if String.eqb s "40" then Some (of_Z 40)
  else None.

(** The record that [add_sale] appends for two "hombre" at the price NaN on
    2025-12-29. *)
Definition nan_record : sale :=
  mkSale "2025-12-29 00:00:00" "hombre" "rojo" 2 S754_nan (of_Z 35) S754_nan
         (of_Z 70) S754_nan false.

(** ** The menu

    [main] and the functions it calls besides [add_sale] and [demo_data].
    The file [ventas.json] holds the list written by [save_data] or, when
    an export was directed at it, the table written by [export_csv]; as for
    [save_data], opening a file for writing is taken to succeed.  What is
    printed is kept as a list of events with their values, not as text. *)

(** [str.split(sep)], [str.count(sep)] and [sep in str] for a separator of
    one character. *)
Fixpoint split (sep : ascii) (s : string) : list string :=
  match s with
  | EmptyString => [EmptyString]
  | String c r =>
      if Ascii.eqb c sep then EmptyString :: split sep r
      else
        match split sep r with
        | p :: ps => String c p :: ps
        | [] => [String c EmptyString]
        end
  end.

Fixpoint count (sep : ascii) (s : string) : Z :=
  match s with
  | EmptyString => 0
  | String c r => (if Ascii.eqb c sep then 1 else 0) + count sep r
  end.

Fixpoint contains (sep : ascii) (s : string) : bool :=
  match s with
  | EmptyString => false
  | String c r => Ascii.eqb c sep || contains sep r
  end.

(** [len(str)]: the number of characters.  In the UTF-8 text of a string
    a character is one byte that is not of the form 10xxxxxx, followed by
    the bytes of that form that continue it. *)
Fixpoint len (s : string) : Z :=
  match s with
  | EmptyString => 0
  | String c r =>
      (if (N.land (N_of_ascii c) 192 =? 128)%N then 0 else 1) + len r
  end.

(** [enumerate(items, start)] *)
Fixpoint enumerate {A : Type} (start : Z) (items : list A) : list (Z * A) :=
  match items with
  | [] => []
  | x :: rest => (start, x) :: enumerate (start + 1) rest
  end.

(** [tipo_mas or "n/a"] *)
Definition or_na (t : option string) : string :=
  match t with
  | Some (String c r) => String c r
  | _ => "n/a"
  end.

Inductive content : Type :=
| Json (stored : ledger)       (* written by [save_data] *)
| Csv (rows : ledger).         (* header and rows written by [export_csv] *)

(** What [main] and the functions it calls print. *)
Inductive shown : Type :=
| SMenu                                          (* the title and the seven options *)
| SAsk (prompt : string)                         (* the prompt of an [input] *)
| SFrom (p : printed)                            (* printed by [add_sale] or [demo_data] *)
| SFechaInvalida                                 (* 'Fecha inválida' *)
| SResumenDiario (d : date) (total ganancia : float) (tipo_mas : string)
| SResumenSemanal (year week : Z) (total ganancia : float) (tipo_mas : string)
| SGananciaPorTipo (d : list (string * float))   (* 'Ganancia por tipo:' and the dictionary *)
| SEntradaInvalida (e : exn)                     (* 'Entrada inválida:' and the exception *)
| SNoHayVentas                                   (* 'No hay ventas registradas' *)
| SVenta (i : Z) (s : sale)                      (* one numbered line of the list *)
| SNoHayDatos                                    (* 'No hay datos para exportar' *)
| SExportado (filename : string)                 (* 'Exportado a' and the name *)
| SSaliendo                                      (* 'Saliendo...' *)
| SOpcionInvalida.                               (* 'Opción inválida' *)

(** The state of a run of [main]: the lines still to be read, what has been
    printed, the list [sales], the contents of [ventas.json] ([None] while
    it does not exist) and the files written by [export_csv], in order. *)
Record session : Type := mkSession {
  m_stdin : list string;
  m_stdout : list shown;
  m_sales : ledger;
  m_data_file : option content;
  m_exported : list (string * ledger)
}.

Definition SM (A : Type) : Type := session -> result A * session.

Definition sret {A : Type} (a : A) : SM A := fun s => (Ok a, s).

Definition sbind {A B : Type} (m : SM A) (k : A -> SM B) : SM B :=
  fun s =>
    match m s with
    | (Ok a, s') => k a s'
    | (Raise e, s') => (Raise e, s')
    end.

Declare Scope menu_scope.
Delimit Scope menu_scope with menu.
Notation "x <- m ;; k" := (sbind m (fun x => k))
  (at level 61, m at next level, right associativity) : menu_scope.
Notation "m ;; k" := (sbind m (fun _ => k))
  (at level 61, right associativity) : menu_scope.

Definition slift {A : Type} (r : result A) : SM A := fun s => (r, s).

Definition sattempt {A : Type} (m : SM A) : SM (result A) :=
  fun s => let (r, s') := m s in (Ok r, s').

Definition show (x : shown) : SM unit :=
  fun s => (Ok tt, mkSession (m_stdin s) (m_stdout s ++ [x]) (m_sales s)
                     (m_data_file s) (m_exported s)).

Definition ask (prompt : string) : SM string :=
  fun s =>
    let out := m_stdout s ++ [SAsk prompt] in
    match m_stdin s with
    | [] => (Raise EOFError, mkSession [] out (m_sales s) (m_data_file s) (m_exported s))
    | line :: rest =>
        (Ok line, mkSession rest out (m_sales s) (m_data_file s) (m_exported s))
    end.

Definition the_sales : SM ledger := fun s => (Ok (m_sales s), s).

(** A call of [add_sale] or [demo_data] on the list [sales]: neither reads
    the file, so the file is the one it wrote, if it wrote one. *)
Definition call (m : M unit) : SM unit :=
  fun s =>
    let (r, w) := m (mkWorld (m_stdin s) [] (m_sales s) None) in
    (r, mkSession (stdin w) (m_stdout s ++ map SFrom (stdout w)) (sales w)
          (match data_file w with
           | Some stored => Some (Json stored)
           | None => m_data_file s
           end)
          (m_exported s)).

Fixpoint list_loop (items : list (Z * sale)) : SM unit :=
  match items with
  | [] => sret tt
  | (i, r) :: rest => (show (SVenta i r) ;; list_loop rest)%menu
  end.

Definition list_sales : SM unit :=
  (sales <- the_sales ;;
   match sales with
   | [] => show SNoHayVentas
   | _ => list_loop (enumerate 1 sales)
   end)%menu.

Section Menu.

Variable py_int : string -> option Z.
Variable py_float : string -> option float.

(** The clock at each turn of the menu. *)
Variable clock : nat -> datetime.

(** Whether a file name denotes the file [ventas.json]. *)
Variable is_data_file : string -> bool.

(** [open(filename, 'w')] and the rows written through it. *)
Definition write_csv (filename : string) (rows : ledger) : SM unit :=
  fun s =>
    (Ok tt, mkSession (m_stdin s) (m_stdout s) (m_sales s)
              (if is_data_file filename then Some (Csv rows) else m_data_file s)
              (m_exported s ++ [(filename, rows)])).

Definition export_csv (filename : string) : SM unit :=
  (sales <- the_sales ;;
   match sales with
   | [] => show SNoHayDatos
   | _ => write_csv filename sales ;; show (SExportado filename)
   end)%menu.

Definition int (s : string) : result Z :=
  match py_int s with
  | Some n => Ok n
  | None => Raise ValueError
  end.

(** Option 2 of the menu. *)
Definition resumen_diario (turn : nat) : SM unit :=
  (s0 <- ask "Fecha (YYYY-MM-DD, dejar vacío = hoy): " ;;
   let s := strip s0 in
   let summary_of_day (d : date) : SM unit :=
     (sales <- the_sales ;;
      r <- slift (daily_summary sales d) ;;
      show (SResumenDiario d (sum_total r) (sum_ganancia r)
              (or_na (tipo_mas_rentable r))) ;;
      match by_type r with
      | [] => sret tt
      | _ => show (SGananciaPorTipo (by_type r))
      end) in
   if String.eqb s "" then summary_of_day (date_of (clock turn))
   else
     match strptime s "%Y-%m-%d" with
     | Ok dt => summary_of_day (date_of dt)
     | Raise ValueError => show SFechaInvalida
     | Raise e => slift (Raise e)
     end)%menu.

(** The year and the week of option 3, from what was typed. *)
Definition year_week (s : string) : result (Z * Z) :=
  if contains "-" s && (len (last (split "-" s) "") =? 2) && (count "-" s =? 1)
  then
    match split "-" s with
    | [y; w] => (do year <- int y; do week <- int w; Ok (year, week))%result
    | _ => Raise ValueError
    end
  else
    (do dt <- strptime s "%Y-%m-%d";
     let '(year, week, _) := isocalendar dt in Ok (year, week))%result.

(** Option 3 of the menu. *)
Definition resumen_semanal : SM unit :=
  (s0 <- ask "Ingrese año y semana (YYYY-WW) o una fecha (YYYY-MM-DD): " ;;
   let s := strip s0 in
   r <- sattempt
          (yw <- slift (year_week s) ;;
           sales <- the_sales ;;
           r <- slift (weekly_summary sales (fst yw) (snd yw)) ;;
           show (SResumenSemanal (fst yw) (snd yw) (sum_total r) (sum_ganancia r)
                   (or_na (tipo_mas_rentable r))) ;;
           match by_type r with
           | [] => sret tt
           | _ => show (SGananciaPorTipo (by_type r))
           end) ;;
   match r with
   | Ok _ => sret tt
   | Raise e => show (SEntradaInvalida e)
   end)%menu.

(** One turn of the [while True] loop; [true] is the [break]. *)
Definition turn_of_menu (turn : nat) : SM bool :=
  (show SMenu ;;
   o0 <- ask "> " ;;
   let o := strip o0 in
   if String.eqb o "1" then
     call (add_sale py_int py_float (clock turn)) ;; sret false
   else if String.eqb o "2" then resumen_diario turn ;; sret false
   else if String.eqb o "3" then resumen_semanal ;; sret false
   else if String.eqb o "4" then list_sales ;; sret false
   else if String.eqb o "5" then
     fn0 <- ask "Nombre de archivo (ENTER para ventas_export.csv): " ;;
     let fn := if String.eqb (strip fn0) "" then "ventas_export.csv" else strip fn0 in
     export_csv fn ;; sret false
   else if String.eqb o "6" then call demo_data ;; sret false
   else if String.eqb o "0" then show SSaliendo ;; sret true
   else show SOpcionInvalida ;; sret false)%menu.

(** The loop, for at most [fuel] turns; [None] when they do not suffice. *)
Fixpoint main_loop (fuel turn : nat) (s : session)
    : option (result unit * session) :=
  match fuel with
  | O => None
  | S fuel' =>
      match turn_of_menu turn s with
      | (Ok true, s') => Some (Ok tt, s')
      | (Ok false, s') => main_loop fuel' (S turn) s'
      | (Raise e, s') => Some (Raise e, s')
      end
  end.

(** [load_data()] on the contents of the file: a table written by
    [export_csv] is not JSON, and [json.load] raises a [ValueError]. *)
Definition load_file (s : session) : result ledger :=
  match m_data_file s with
  | None => Ok []
  | Some (Json stored) => Ok stored
  | Some (Csv _) => Raise ValueError
  end.

Definition main (fuel : nat) (s : session) : option (result unit * session) :=
  match load_file s with
  | Ok stored =>
      main_loop fuel 0
        (mkSession (m_stdin s) (m_stdout s) stored (m_data_file s) (m_exported s))
  | Raise e => Some (Raise e, s)
  end.

End Menu.

(** ** Definitions for the properties of the menu *)

(** The data file holds the ledger in memory: as the list written by
    [save_data], or as the table of an export directed at the file. *)
Definition file_follows (s : session) : Prop :=
  match m_data_file s with
  | None => m_sales s = []
  | Some (Json stored) => stored = m_sales s
  | Some (Csv rows) => rows = m_sales s /\ rows <> []
  end.

(** What a step of a run keeps: lines are only consumed, what is printed
    and the ledger only grow, exports are only added. *)
Definition extends (s s' : session) : Prop :=
  (exists used, m_stdin s = used ++ m_stdin s')
  /\ (exists more, m_stdout s' = m_stdout s ++ more)
  /\ (exists added, m_sales s' = m_sales s ++ added)
  /\ (exists files, m_exported s' = m_exported s ++ files).

(** An action of the menu that keeps to [extends] and [file_follows]. *)
Definition keeps {A : Type} (m : SM A) : Prop :=
  forall s, extends s (snd (m s))
            /\ (file_follows s -> file_follows (snd (m s))).

(** A test on characters that the hyphen does not pass. *)
Definition not_dash (f : ascii -> bool) : Prop :=
  forall c, f c = true -> Ascii.eqb c "-" = false.

(** A field that reads no hyphen. *)
Definition dashless (p : parser Z) : Prop :=
  forall s v r, In (v, r) (p s) -> count "-" s = count "-" r.

Ltac ascii_cases :=
  intros c; destruct c as [[] [] [] [] [] [] [] []]; vm_compute; congruence.

(** An action of the menu that only reads and prints: the ledger, the data
    file and the exports are left as they are. *)
Definition reads_only {A : Type} (m : SM A) : Prop :=
  forall s, m_sales (snd (m s)) = m_sales s
            /\ m_data_file (snd (m s)) = m_data_file s
            /\ m_exported (snd (m s)) = m_exported s.

(** The examples of the menu: the file name compared as it is written, the
    clock at noon at every turn, a session at its start, and a ledger with a
    timestamp that does not parse. *)
Definition named_ventas_json (name : string) : bool :=
  String.eqb name "ventas.json".

Definition at_noon (turn : nat) : datetime := noon.

Definition session0 (lines : list string) (l : ledger) (f : option content)
    : session :=
  mkSession lines [] l f [].

Definition hand_edited : ledger :=
  [mkSale "ayer" "hombre" "negro" 1 (of_Z 40) (of_Z 35) (of_Z 40) (of_Z 35)
     (of_Z 5) false].

(** * Properties *)

(** ** Conversion of integers to floats *)

Lemma digits2_size (p : positive) : digits2_pos p = Pos.size p.
Proof. induction p; simpl; congruence. Qed.

Lemma Zdigits2_lt (p : positive) : Zpos p < 2 ^ Zpos (digits2_pos p).
Proof.
  rewrite digits2_size. pose proof (Pos.size_gt p) as H.
  change 2 with (Zpos 2). rewrite <- Pos2Z.inj_pow. exact H.
Qed.

Lemma Zdigits2_bound (p : positive) (d : Z) :
  0 <= d -> Zpos p < 2 ^ d -> Zpos (digits2_pos p) <= d.
Proof.
  intros Hd H. rewrite digits2_size.
  pose proof (Pos.size_le p) as Hle.
  assert (H2 : 2 ^ Zpos (Pos.size p) <= 2 * Zpos p).
  { change 2 with (Zpos 2) at 1. rewrite <- Pos2Z.inj_pow. exact Hle. }
  assert (H3 : 2 ^ Zpos (Pos.size p) < 2 ^ (d + 1)).
  { rewrite Z.pow_add_r by lia. lia. }
  apply Z.pow_lt_mono_r_iff in H3; lia.
Qed.

Lemma shr_1_m (mrs : shr_record) :
  0 <= shr_m mrs ->
  0 <= shr_m (shr_1 mrs) /\ shr_m (shr_1 mrs) = shr_m mrs / 2.
Proof.
  destruct mrs as [m r s]. simpl. intros H.
  destruct m as [| [p | p |] | p]; simpl; try (split; [lia | reflexivity]); try lia.
  - split; [lia |]. rewrite Pos2Z.inj_xI. apply Z.div_unique with 1; lia.
  - split; [lia |]. rewrite Pos2Z.inj_xO. apply Z.div_unique with 0; lia.
Qed.

Lemma iter_shr_m (k : positive) :
  forall mrs, 0 <= shr_m mrs ->
    0 <= shr_m (iter_pos shr_1 k mrs)
    /\ shr_m (iter_pos shr_1 k mrs) = shr_m mrs / 2 ^ Zpos k.
Proof.
  induction k as [k IH | k IH |]; intros mrs H; simpl iter_pos.
  - destruct (shr_1_m mrs H) as [H1 E1].
    destruct (IH _ H1) as [H2 E2]. destruct (IH _ H2) as [H3 E3].
    split; [exact H3 |]. rewrite E3, E2, E1.
    rewrite !Z.div_div by lia.
    f_equal. rewrite Pos2Z.inj_xI, Z.pow_add_r, Z.pow_mul_r by lia.
    change (2 ^ 2) with 4. change (2 ^ 1) with 2.
    replace (4 ^ Zpos k) with (2 ^ Zpos k * 2 ^ Zpos k).
    + ring.
    + rewrite <- Z.pow_add_r by lia. replace (Zpos k + Zpos k) with (2 * Zpos k) by lia.
      rewrite Z.pow_mul_r by lia. reflexivity.
  - destruct (IH _ H) as [H2 E2]. destruct (IH _ H2) as [H3 E3].
    split; [exact H3 |]. rewrite E3, E2.
    rewrite !Z.div_div by lia.
    f_equal. rewrite Pos2Z.inj_xO.
    rewrite <- Z.pow_add_r by lia. f_equal. lia.
  - apply shr_1_m. exact H.
Qed.

Lemma shr_record_of_loc_m (m : Z) (l : location) :
  shr_m (shr_record_of_loc m l) = m.
Proof. destruct l as [| []]; reflexivity. Qed.

Lemma shr_spec (mrs : shr_record) (e n : Z) :
  0 <= shr_m mrs ->
  0 <= shr_m (fst (shr mrs e n))
  /\ snd (shr mrs e n) = Z.max e (e + n)
  /\ shr_m (fst (shr mrs e n)) = shr_m mrs / 2 ^ (snd (shr mrs e n) - e).
Proof.
  intros H. destruct n as [| p | p]; simpl.
  - replace (Z.max e (e + 0)) with e by lia.
    rewrite Z.sub_diag, Z.div_1_r. auto.
  - destruct (iter_shr_m p mrs H) as [H1 E1].
    replace (e + Zpos p - e) with (Zpos p) by lia.
    repeat split; [exact H1 | lia | exact E1].
  - rewrite Z.sub_diag, Z.div_1_r. repeat split; [exact H | lia].
Qed.

Lemma round_nearest_even_bounds (m : Z) (l : location) :
  m <= round_nearest_even m l <= m + 1.
Proof.
  unfold round_nearest_even.
  destruct l as [| []]; try lia. destruct (Z.even m); lia.
Qed.

Lemma Zdigits2_le (x d : Z) : 0 <= x -> 0 <= d -> x < 2 ^ d -> Zdigits2 x <= d.
Proof.
  intros Hx Hd H. destruct x as [| p | p]; simpl; [exact Hd | | lia].
  now apply Zdigits2_bound.
Qed.

Lemma fexp_le (x b : Z) : x <= b + 53 -> -1074 <= b -> fexp prec emax x <= b.
Proof. unfold fexp, emin, prec, emax. lia. Qed.

(** Rounding a positive mantissa below [2^(1023 - e)] never overflows. *)
Lemma binary_round_aux_finite (s : bool) (m e : Z) (l : location) :
  0 < m -> m < 2 ^ (1023 - e) -> e <= 970 ->
  forall s', binary_round_aux prec emax s m e l <> S754_infinity s'.
Proof.
  intros Hm Hb He s'. unfold binary_round_aux, shr_fexp.
  pose proof (shr_spec (shr_record_of_loc m l) e
                (fexp prec emax (Zdigits2 m + e) - e)) as S1.
  rewrite shr_record_of_loc_m in S1. specialize (S1 (Z.lt_le_incl _ _ Hm)).
  destruct (shr (shr_record_of_loc m l) e (fexp prec emax (Zdigits2 m + e) - e))
    as [mrs' e'].
  simpl in S1. destruct S1 as (P1 & E1 & M1).
  assert (Hd : Zdigits2 m <= 1023 - e) by (apply Zdigits2_le; lia).
  assert (Hf : fexp prec emax (Zdigits2 m + e) <= 970) by (apply fexp_le; lia).
  assert (He' : e <= e' <= 970) by lia.
  pose proof (round_nearest_even_bounds (shr_m mrs') (loc_of_shr_record mrs')) as R.
  set (m1 := round_nearest_even (shr_m mrs') (loc_of_shr_record mrs')) in *.
  assert (Hm1 : m1 < 2 ^ (1024 - e')).
  { assert (shr_m mrs' < 2 ^ (1023 - e')).
    { rewrite M1. apply Z.div_lt_upper_bound; [apply Z.pow_pos_nonneg; lia |].
      rewrite <- Z.pow_add_r by lia.
      replace (e' - e + (1023 - e')) with (1023 - e) by lia. exact Hb. }
    replace (1024 - e') with (1023 - e' + 1) by lia.
    rewrite Z.pow_add_r by lia. change (2 ^ 1) with 2.
    assert (0 < 2 ^ (1023 - e')) by (apply Z.pow_pos_nonneg; lia). lia. }
  pose proof (shr_spec (shr_record_of_loc m1 loc_Exact) e'
                (fexp prec emax (Zdigits2 m1 + e') - e')) as S2.
  rewrite shr_record_of_loc_m in S2.
  assert (P1' : 0 <= m1) by lia. specialize (S2 P1').
  destruct (shr (shr_record_of_loc m1 loc_Exact) e'
              (fexp prec emax (Zdigits2 m1 + e') - e')) as [mrs'' e''].
  simpl in S2. destruct S2 as (P2 & E2 & M2).
  assert (Hd1 : Zdigits2 m1 <= 1024 - e') by (apply Zdigits2_le; lia).
  assert (Hf1 : fexp prec emax (Zdigits2 m1 + e') <= 971) by (apply fexp_le; lia).
  assert (He'' : e'' <= 971) by lia.
  destruct (shr_m mrs''); try discriminate.
  replace (e'' <=? emax - prec) with true; [discriminate |].
  symmetry. apply Z.leb_le. unfold emax, prec. lia.
Qed.

Lemma iter_xO (p d : positive) :
  Zpos (Pos.iter xO p d) = Zpos p * 2 ^ Zpos d.
Proof.
  induction d as [| d IH] using Pos.peano_ind.
  - simpl. lia.
  - rewrite Pos.iter_succ, Pos2Z.inj_xO, IH, Pos2Z.inj_succ, Z.pow_succ_r by lia.
    ring.
Qed.

Lemma binary_round_finite (s : bool) (p : positive) :
  Zpos p < 2 ^ 1023 ->
  forall s', binary_round prec emax s p 0 <> S754_infinity s'.
Proof.
  intros H s'. unfold binary_round, shl_align.
  destruct (fexp prec emax (Zpos (digits2_pos p) + 0) - 0) as [| d | d] eqn:E.
  - apply binary_round_aux_finite; [lia | exact H | lia].
  - apply binary_round_aux_finite; [lia | exact H | lia].
  - assert (Ee : fexp prec emax (Zpos (digits2_pos p) + 0) = Zneg d) by lia.
    rewrite Ee. apply binary_round_aux_finite; [lia | | lia].
    rewrite iter_xO. replace (1023 - Zneg d) with (1023 + Zpos d) by lia.
    rewrite Z.pow_add_r by lia.
    apply Z.mul_lt_mono_pos_r; [apply Z.pow_pos_nonneg; lia | exact H].
Qed.

(** An integer below [2^1023] in absolute value converts to a float. *)
Lemma float_of_int_total (n : Z) :
  Z.abs n < 2 ^ 1023 -> float_of_int n = Ok (of_Z n).
Proof.
  intros H. unfold float_of_int.
  destruct (of_Z n) as [s | s | | s m e] eqn:E; try reflexivity.
  exfalso. unfold of_Z, binary_normalize in E.
  destruct n as [| p | p]; [discriminate | |];
    apply (binary_round_finite _ p) in E; try exact E; lia.
Qed.

(** ** The derived fields *)

Lemma cost_of_valid (t : string) :
  In t VALID_TYPES ->
  exists c, dict_get COSTS t = Some c
    /\ ((t = "hombre" /\ c = of_Z 35) \/ (t = "mujer" /\ c = of_Z 30)
        \/ (t = "niño" /\ c = of_Z 22)).
Proof.
  simpl. intros [H | [H | [H | []]]]; subst t.
  - exists (of_Z 35). split; [reflexivity | auto].
  - exists (of_Z 30). split; [reflexivity | auto].
  - exists (of_Z 22). split; [reflexivity | auto].
Qed.

Lemma compute_fields_eq (t : string) (c : float) (n : Z) (q p : float) :
  dict_get COSTS t = Some c ->
  float_of_int n = Ok q ->
  compute_fields t n p =
    Ok (mkFields c (round2 (fmul q p)) (round2 (fmul q c))
          (round2 (fsub (fmul q p) (fmul q c))) (flt p c)).
Proof.
  intros Hc Hq. unfold compute_fields, cost_of, int_mul.
  rewrite Hc. simpl. rewrite Hq. reflexivity.
Qed.

(** C1 (as stated) fails.  For one "hombre" sold at 1.005 the code returns
    the profit -33.99, the rounding of the unrounded difference 1.005 - 35.0,
    while the stored total 1.0 and investment 35.0 give round(1.0 - 35.0, 2)
    = -34.0; and for the quantity 2^1024 no fields are returned at all
    (the conversion of the quantity raises OverflowError). *)
Lemma C1_rounding_order_counterexample :
  (exists f, compute_fields "hombre" 1 (dec 1005 3) = Ok f
     /\ f_total f = of_Z 1
     /\ f_inversion f = of_Z 35
     /\ f_ganancia f = dec (-3399) 2
     /\ spec_profit (f_total f) (f_inversion f) = of_Z (-34)
     /\ f_ganancia f <> spec_profit (f_total f) (f_inversion f))
  /\ compute_fields "hombre" (2 ^ 1024) (of_Z 1) = Raise OverflowError.
Proof.
  split.
  - eexists. split; [vm_compute; reflexivity |].
    repeat split; try (vm_compute; reflexivity).
    vm_compute. discriminate.
  - vm_compute. reflexivity.
Qed.

(** C1 (amended): for a category of the table, a positive quantity that
    converts to a float [q] (as every quantity below 2^1023 does, see
    [float_of_int_total]) and a non-negative price, [compute_fields]
    returns the fixed cost of the category (35.0, 30.0 or 22.0), the total
    round(q * price, 2), the investment round(q * cost, 2) and the profit
    round(q * price - q * cost, 2): the difference of the two unrounded
    products, rounded once. *)
Theorem C1_compute_fields_derived (t : string) (n : Z) (q p : float) :
  In t VALID_TYPES ->
  0 < n ->
  float_of_int n = Ok q ->
  fle zero p = true ->
  exists c,
    ((t = "hombre" /\ c = of_Z 35) \/ (t = "mujer" /\ c = of_Z 30)
     \/ (t = "niño" /\ c = of_Z 22))
    /\ compute_fields t n p =
         Ok (mkFields c (round2 (fmul q p)) (round2 (fmul q c))
               (round2 (fsub (fmul q p) (fmul q c))) (flt p c)).
Proof.
  intros Ht _ Hq _.
  destruct (cost_of_valid t Ht) as (c & Hc & Hcases).
  exists c. split; [exact Hcases |].
  now apply compute_fields_eq.
Qed.

Lemma C1_compute_fields_derived_witness :
  exists c,
    (("hombre" = "hombre" /\ c = of_Z 35) \/ ("hombre" = "mujer" /\ c = of_Z 30)
     \/ ("hombre" = "niño" /\ c = of_Z 22))
    /\ compute_fields "hombre" 3 (of_Z 40) =
         Ok (mkFields c (round2 (fmul (of_Z 3) (of_Z 40)))
               (round2 (fmul (of_Z 3) c))
               (round2 (fsub (fmul (of_Z 3) (of_Z 40)) (fmul (of_Z 3) c)))
               (flt (of_Z 40) c)).
Proof.
  apply (C1_compute_fields_derived "hombre" 3 (of_Z 3) (of_Z 40)).
  - simpl. auto.
  - lia.
  - vm_compute. reflexivity.
  - vm_compute. reflexivity.
Defined.

(** ** Order facts on floats *)

Lemma pos_cont_cmp (m n : positive) :
  Pos.compare_cont Eq m n = (Zpos m ?= Zpos n).
Proof. reflexivity. Qed.




Lemma fgt_irrefl (v : float) : fgt v v = false.
Proof.
  unfold fgt, SFltb.
  destruct v as [s | s | | s m e]; simpl; try reflexivity;
    destruct s; try reflexivity; rewrite pos_cont_cmp, !Z.compare_refl; reflexivity.
Qed.

(** ** The dictionary of profits and its maximum *)


Lemma dict_add_keys (d : list (string * float)) (k : string) (v : float) :
  map fst (dict_add d k v) =
    if in_keys k (map fst d) then map fst d else map fst d ++ [k].
Proof.
  unfold in_keys. induction d as [| [k0 x] d IH]; simpl.
  - reflexivity.
  - rewrite (String.eqb_sym k k0).
    destruct (String.eqb k0 k); simpl.
    + reflexivity.
    + rewrite IH. destruct (existsb (String.eqb k) (map fst d)); reflexivity.
Qed.

Lemma in_keys_In (k : string) (ks : list string) :
  in_keys k ks = true <-> In k ks.
Proof.
  unfold in_keys. rewrite existsb_exists. split.
  - intros (x & Hx & E). apply String.eqb_eq in E. now subst.
  - intros H. exists k. split; [exact H | apply String.eqb_refl].
Qed.







(** ** The ISO calendar *)

Lemma year_length (y : Z) :
  days_before_year (y + 1)
  = days_before_year y + (if is_leap y then 366 else 365).
Proof.
  unfold days_before_year, is_leap.
  replace (y + 1 - 1) with y by lia.
  destruct (y mod 4 =? 0) eqn:E4; destruct (y mod 100 =? 0) eqn:E100;
    destruct (y mod 400 =? 0) eqn:E400; simpl;
    rewrite ?Z.eqb_eq, ?Z.eqb_neq in *;
    Z.to_euclidean_division_equations; lia.
Qed.

Lemma isoweek1monday_spec (y : Z) :
  (isoweek1monday y + 6) mod 7 = 0
  /\ days_before_year y - 2 <= isoweek1monday y <= days_before_year y + 4.
Proof.
  unfold isoweek1monday, ymd2ord, days_before_month. simpl.
  set (F := days_before_year y + 0 + 1).
  destruct (3 <? (F + 6) mod 7) eqn:E;
    rewrite ?Z.ltb_lt, ?Z.ltb_ge in E;
    Z.to_euclidean_division_equations; lia.
Qed.

Lemma ymd2ord_in_year (y m d : Z) :
  valid_date y m d = true ->
  days_before_year y + 1 <= ymd2ord y m d <= days_before_year (y + 1).
Proof.
  unfold valid_date. rewrite !andb_true_iff, !Z.leb_le.
  intros [[[[[_ _] Hm1] Hm2] Hd1] Hd2].
  rewrite year_length. unfold ymd2ord, days_before_month, days_in_month in *.
  assert (Hm : m = 1 \/ m = 2 \/ m = 3 \/ m = 4 \/ m = 5 \/ m = 6 \/ m = 7
               \/ m = 8 \/ m = 9 \/ m = 10 \/ m = 11 \/ m = 12) by lia.
  repeat destruct Hm as [Hm | Hm]; subst m; simpl in *;
    destruct (is_leap y); simpl in *; lia.
Qed.

(** The ISO calendar of a valid date: the weekday counts from Monday = 1;
    the Thursday of the date's week lies in the calendar year given as ISO
    year; the week number is the rank of that Thursday among the Thursdays
    of that year. *)
Lemma isocalendar_iso8601 (dt : datetime) :
  valid_date (year dt) (month dt) (day dt) = true ->
  let ord := ymd2ord (year dt) (month dt) (day dt) in
  let thursday := ord - (ord + 6) mod 7 + 3 in
  snd (isocalendar dt) = (ord + 6) mod 7 + 1
  /\ days_before_year (iso_year dt) + 1 <= thursday
       <= days_before_year (iso_year dt + 1)
  /\ iso_week dt = (thursday - (days_before_year (iso_year dt) + 1)) / 7 + 1.
Proof.
  intros Hv. cbv zeta.
  pose proof (ymd2ord_in_year _ _ _ Hv) as Hord.
  set (ord := ymd2ord (year dt) (month dt) (day dt)) in *.
  unfold iso_year, iso_week, isocalendar. fold ord.
  pose proof (isoweek1monday_spec (year dt)) as [M0 B0].
  pose proof (isoweek1monday_spec (year dt - 1)) as [Mp Bp].
  pose proof (isoweek1monday_spec (year dt + 1)) as [Mn Bn].
  pose proof (year_length (year dt)) as L0.
  pose proof (year_length (year dt - 1)) as Lp.
  pose proof (year_length (year dt + 1)) as Ln.
  replace (year dt - 1 + 1) with (year dt) in * by lia.
  set (W0 := isoweek1monday (year dt)) in *.
  set (Wp := isoweek1monday (year dt - 1)) in *.
  set (Wn := isoweek1monday (year dt + 1)) in *.
  set (D0 := days_before_year (year dt)) in *.
  set (Dp := days_before_year (year dt - 1)) in *.
  set (Dn := days_before_year (year dt + 1)) in *.
  set (Dnn := days_before_year (year dt + 1 + 1)) in *.
  assert (365 <= Dn - D0 <= 366) by (destruct (is_leap (year dt)); lia).
  assert (365 <= D0 - Dp <= 366) by (destruct (is_leap (year dt - 1)); lia).
  assert (365 <= Dnn - Dn <= 366) by (destruct (is_leap (year dt + 1)); lia).
  clear L0 Lp Ln.
  destruct ((ord - W0) / 7 <? 0) eqn:E1.
  - rewrite Z.ltb_lt in E1. cbn [fst snd].
    replace (year dt - 1 + 1) with (year dt) by lia. fold D0 Dp.
    Z.to_euclidean_division_equations; lia.
  - rewrite Z.ltb_ge in E1.
    destruct ((52 <=? (ord - W0) / 7) && (Wn <=? ord)) eqn:E2.
    + rewrite andb_true_iff, !Z.leb_le in E2. cbn [fst snd]. fold Dn Dnn.
      Z.to_euclidean_division_equations; lia.
    + rewrite andb_false_iff, !Z.leb_gt in E2. cbn [fst snd]. fold D0 Dn.
      Z.to_euclidean_division_equations; lia.
Qed.

(** ** The loop of the summaries *)

(** On a ledger whose records all carry a timestamp the loop never raises,
    and accumulates exactly the selected records, in ledger order. *)
Lemma summary_loop_fold (selected : datetime -> bool) (sales : ledger) :
  Forall timed sales ->
  forall a,
    summary_loop selected sales a
    = Ok (fold_left add_to (filter (selects selected) sales) a).
Proof.
  induction 1 as [| s rest [d Hd] _ IH]; intros a; simpl.
  - reflexivity.
  - unfold selects. rewrite Hd. simpl.
    destruct (selected d); simpl; apply IH.
Qed.

Lemma total_fold (rs : list sale) :
  forall a,
    total_vendido (fold_left add_to rs a)
    = fold_left fadd (map total rs) (total_vendido a).
Proof.
  induction rs as [| s rs IH]; intros a; simpl; [reflexivity |].
  rewrite IH. reflexivity.
Qed.

Lemma ganancia_fold (rs : list sale) :
  forall a,
    ganancia_acum (fold_left add_to rs a)
    = fold_left fadd (map ganancia rs) (ganancia_acum a).
Proof.
  induction rs as [| s rs IH]; intros a; simpl; [reflexivity |].
  rewrite IH. reflexivity.
Qed.




Lemma daily_summary_eq (sales : ledger) (dt : date) :
  Forall timed sales ->
  daily_summary sales dt = Ok (summary_of (on_day dt sales)).
Proof.
  intros H. unfold daily_summary, summary_of, on_day.
  now rewrite (summary_loop_fold _ _ H).
Qed.

Lemma same_week_iso (year week : Z) (d : datetime) :
  same_week year week d = (iso_year d =? year) && (iso_week d =? week).
Proof.
  unfold same_week, iso_year, iso_week.
  destruct (isocalendar d) as [[y w] wd]. reflexivity.
Qed.

Lemma weekly_summary_eq (sales : ledger) (year week : Z) :
  Forall timed sales ->
  weekly_summary sales year week
  = Ok (summary_of (filter (in_iso_week year week) sales)).
Proof.
  intros H. unfold weekly_summary, summary_of.
  rewrite (summary_loop_fold _ _ H). simpl.
  do 3 f_equal. apply filter_ext. intros s.
  unfold selects, in_iso_week.
  destruct (sale_time s); [apply same_week_iso | reflexivity].
Qed.

Lemma summarize_eq (w : window) (sales : ledger) :
  Forall timed sales ->
  summarize w sales = Ok (summary_of (filter (selects (in_window w)) sales)).
Proof.
  intros H. destruct w as [dt | year week]; simpl.
  - now apply daily_summary_eq.
  - unfold weekly_summary, summary_of.
    now rewrite (summary_loop_fold _ _ H).
Qed.

Lemma demo_sales_timed : Forall timed demo_sales.
Proof.
  repeat constructor; eexists; vm_compute; reflexivity.
Qed.

Lemma round2_zero : round2 zero = zero.
Proof. reflexivity. Qed.

Lemma date_eqb_eq (a b : date) : date_eqb a b = true <-> a = b.
Proof.
  destruct a as [y m d], b as [y' m' d']. unfold date_eqb. simpl.
  rewrite !andb_true_iff, !Z.eqb_eq. split.
  - intros [[-> ->] ->]. reflexivity.
  - intros H. inversion H. auto.
Qed.

(** ** The summaries *)



(** The scenario of the specification: on 2025-12-29 the example data give a
    total of 176.0, a profit of 11.0 and "hombre" as best category. *)
Example daily_summary_demo :
  daily_summary demo_sales (mkDate 2025 12 29)
  = Ok (mkSummary (of_Z 176) (of_Z 11) (Some "hombre")
          [("hombre", of_Z 15); ("mujer", of_Z (-4))]).
Proof. vm_compute. reflexivity. Qed.

(** C8.  For a day as for an ISO week: on a ledger none of whose records
    falls in the window, and so on the empty ledger, the summary is
    returned, not an error, with total 0.0, profit 0.0, no best category
    and an empty dictionary. *)
Theorem C8_empty_window (w : window) (sales : ledger) :
  Forall timed sales ->
  chosen w sales = [] ->
  summarize w sales = Ok empty_summary /\ summarize w [] = Ok empty_summary.
Proof.
  intros H Hnone. split.
  - rewrite (summarize_eq w sales H). fold (chosen w sales).
    rewrite Hnone. reflexivity.
  - destruct w; reflexivity.
Qed.

Lemma C8_empty_window_witness :
  summarize (Day (mkDate 2024 1 1)) demo_sales = Ok empty_summary
  /\ summarize (Day (mkDate 2024 1 1)) [] = Ok empty_summary.
Proof.
  apply (C8_empty_window (Day (mkDate 2024 1 1)) demo_sales).
  - repeat constructor; eexists; vm_compute; reflexivity.
  - vm_compute. reflexivity.
Defined.



(** In the first ISO week of 2026 the example data hold two sales of
    "hombre" (15.0 and -5.0) and one of "mujer" (-4.0). *)
Example weekly_summary_demo :
  weekly_summary demo_sales 2026 1
  = Ok (mkSummary (of_Z 206) (of_Z 6) (Some "hombre")
          [("hombre", of_Z 10); ("mujer", of_Z (-4))]).
Proof. vm_compute. reflexivity. Qed.




(** ** The price alert and the preconditions of [compute_fields] *)

Lemma compute_fields_total (t : string) (n : Z) (p : float) :
  in_keys t VALID_TYPES = true ->
  Z.abs n < 2 ^ 1023 ->
  exists f, compute_fields t n p = Ok f.
Proof.
  intros Ht Hn. apply in_keys_In in Ht.
  destruct (cost_of_valid t Ht) as (c & Hc & _).
  eexists. apply (compute_fields_eq t c n (of_Z n) p Hc).
  now apply float_of_int_total.
Qed.

(** C7.  For a category of the table, a positive quantity and a
    non-negative price: whenever the fields are derived, the alert is true
    exactly when the price compares strictly below the cost of the category,
    and it is false when the two are equal; and the fields are derived as
    soon as the quantity converts to a float, which every quantity below
    2^1023 does. *)
Theorem C7_price_alert (t : string) (c : float) (n : Z) (p : float) :
  dict_get COSTS t = Some c ->
  0 < n ->
  fle zero p = true ->
  (forall f, compute_fields t n p = Ok f ->
     (f_alert f = true <-> SFcompare p c = Some Lt)
     /\ (SFcompare p c = Some Eq -> f_alert f = false))
  /\ (forall q, float_of_int n = Ok q -> exists f, compute_fields t n p = Ok f)
  /\ (n < 2 ^ 1023 -> exists f, compute_fields t n p = Ok f).
Proof.
  intros Hc Hn _. split; [| split].
  - intros f Hf.
    destruct (float_of_int n) as [q | e] eqn:Hq.
    + rewrite (compute_fields_eq t c n q p Hc Hq) in Hf.
      inversion Hf; subst f; simpl. unfold flt, SFltb.
      destruct (SFcompare p c) as [[ | | ] | ]; split; try split;
        intros; try reflexivity; try discriminate.
    + unfold compute_fields, cost_of, int_mul in Hf.
      rewrite Hc in Hf. simpl in Hf. rewrite Hq in Hf. discriminate.
  - intros q Hq. eexists. apply (compute_fields_eq t c n q p Hc Hq).
  - intros Hb. eexists. apply (compute_fields_eq t c n (of_Z n) p Hc).
    apply float_of_int_total. lia.
Qed.

Lemma C7_price_alert_witness :
  (forall f, compute_fields "mujer" 2 (of_Z 30) = Ok f ->
     (f_alert f = true <-> SFcompare (of_Z 30) (of_Z 30) = Some Lt)
     /\ (SFcompare (of_Z 30) (of_Z 30) = Some Eq -> f_alert f = false))
  /\ (forall q, float_of_int 2 = Ok q ->
        exists f, compute_fields "mujer" 2 (of_Z 30) = Ok f)
  /\ (2 < 2 ^ 1023 -> exists f, compute_fields "mujer" 2 (of_Z 30) = Ok f).
Proof.
  apply (C7_price_alert "mujer" (of_Z 30) 2 (of_Z 30)).
  - reflexivity.
  - lia.
  - vm_compute. reflexivity.
Defined.

(** A price equal to the cost raises no alert; a price just below it does. *)
Example alert_at_cost :
  compute_fields "mujer" 2 (of_Z 30)
    = Ok (mkFields (of_Z 30) (of_Z 60) (of_Z 60) zero false)
  /\ compute_fields "mujer" 2 (dec 2999 2)
    = Ok (mkFields (of_Z 30) (dec 5998 2) (of_Z 60) (dec (-2) 2) true).
Proof. split; vm_compute; reflexivity. Qed.

Lemma in_keys_dict_get (t : string) :
  in_keys t VALID_TYPES = false <-> dict_get COSTS t = None.
Proof.
  unfold in_keys, VALID_TYPES, COSTS. cbn [map fst existsb dict_get].
  rewrite !(String.eqb_sym t).
  destruct (String.eqb "hombre" t), (String.eqb "mujer" t),
    (String.eqb "niño" t); simpl; split; congruence.
Qed.

(** C9 (as stated) fails: [compute_fields] returns derived values for a
    negative quantity, for the quantity zero and for a negative price. *)
Lemma C9_no_rejection_counterexample :
  compute_fields "hombre" (-3) (of_Z 40)
    = Ok (mkFields (of_Z 35) (of_Z (-120)) (of_Z (-105)) (of_Z (-15)) false)
  /\ compute_fields "hombre" 0 (of_Z 40)
    = Ok (mkFields (of_Z 35) zero zero zero false)
  /\ compute_fields "hombre" 3 (of_Z (-40))
    = Ok (mkFields (of_Z 35) (of_Z (-120)) (of_Z 105) (of_Z (-225)) true).
Proof. repeat split; vm_compute; reflexivity. Qed.

(** C9 (amended).  [compute_fields] rejects a category that is not in the
    table, with KeyError; for a category of the table it checks neither the
    sign of the quantity nor that of the price: it returns the derived
    values whenever the quantity converts to a float, as every quantity
    below 2^1023 in absolute value does, and raises OverflowError
    otherwise. *)
Theorem C9_compute_fields_rejects (t : string) (n : Z) (p : float) :
  (in_keys t VALID_TYPES = false -> compute_fields t n p = Raise KeyError)
  /\ (in_keys t VALID_TYPES = true ->
      (exists q f, float_of_int n = Ok q /\ compute_fields t n p = Ok f)
      \/ (float_of_int n = Raise OverflowError
          /\ compute_fields t n p = Raise OverflowError))
  /\ (in_keys t VALID_TYPES = true -> Z.abs n < 2 ^ 1023 ->
      exists f, compute_fields t n p = Ok f).
Proof.
  split; [| split]; [| | apply compute_fields_total].
  - intros H. apply in_keys_dict_get in H.
    unfold compute_fields, cost_of. now rewrite H.
  - intros H. destruct (dict_get COSTS t) as [c |] eqn:Hc.
    + destruct (float_of_int n) as [q | e] eqn:Hq.
      * left. exists q. eexists. split; [reflexivity |].
        apply (compute_fields_eq t c n q p Hc Hq).
      * right. unfold compute_fields, cost_of, int_mul.
        rewrite Hc. simpl. rewrite Hq. simpl.
        unfold float_of_int in Hq.
        destruct (of_Z n); inversion Hq; subst; split; reflexivity.
    + apply in_keys_dict_get in Hc. congruence.
Qed.

Lemma C9_compute_fields_rejects_witness :
  (in_keys "abuelo" VALID_TYPES = false ->
     compute_fields "abuelo" (-3) (of_Z (-40)) = Raise KeyError)
  /\ (in_keys "abuelo" VALID_TYPES = true ->
      (exists q f, float_of_int (-3) = Ok q
         /\ compute_fields "abuelo" (-3) (of_Z (-40)) = Ok f)
      \/ (float_of_int (-3) = Raise OverflowError
          /\ compute_fields "abuelo" (-3) (of_Z (-40)) = Raise OverflowError))
  /\ (in_keys "abuelo" VALID_TYPES = true -> Z.abs (-3) < 2 ^ 1023 ->
      exists f, compute_fields "abuelo" (-3) (of_Z (-40)) = Ok f).
Proof.
  apply (C9_compute_fields_rejects "abuelo" (-3) (of_Z (-40))).
Defined.

(** ** Date parsing *)

Lemma strptime_raises (s fmt : string) (e : exn) :
  strptime s fmt = Raise e -> e = ValueError.
Proof.
  unfold strptime.
  destruct (matches (tokenize fmt) found_default s) as [| [f [| c r]] l];
    try (intros H; inversion H; reflexivity).
  destruct (valid_datetime f); intros H; inversion H; reflexivity.
Qed.




(** ** Timestamps written and read back *)

Lemma digit_char_mod (n : Z) : digit_char (n mod 10) = digit_char n.
Proof. unfold digit_char. now rewrite Z.mod_mod by lia. Qed.

Lemma digit_val_char (a : Z) : 0 <= a <= 9 -> digit_val (digit_char a) = a.
Proof. intros Ha. digit_split a Ha; reflexivity. Qed.

Lemma is_digit_char (a : Z) : 0 <= a <= 9 -> is_digit (digit_char a) = true.
Proof. intros Ha. digit_split a Ha; reflexivity. Qed.

Lemma is_space_char (a : Z) : 0 <= a <= 9 -> is_space (digit_char a) = false.
Proof. intros Ha. digit_split a Ha; reflexivity. Qed.

Lemma field_m_digits :
  forall a, 0 <= a <= 9 -> forall b, 0 <= b <= 9 ->
  1 <= 10 * a + b <= 12 ->
  forall r, hd_error (field_m (two_digits a b r)) = Some (10 * a + b, r).
Proof. by_digits. Qed.

Lemma field_d_digits :
  forall a, 0 <= a <= 9 -> forall b, 0 <= b <= 9 ->
  1 <= 10 * a + b <= 31 ->
  forall r, hd_error (field_d (two_digits a b r)) = Some (10 * a + b, r).
Proof. by_digits. Qed.

Lemma field_H_digits :
  forall a, 0 <= a <= 9 -> forall b, 0 <= b <= 9 ->
  0 <= 10 * a + b <= 23 ->
  forall r, hd_error (field_H (two_digits a b r)) = Some (10 * a + b, r).
Proof. by_digits. Qed.

Lemma field_M_digits :
  forall a, 0 <= a <= 9 -> forall b, 0 <= b <= 9 ->
  0 <= 10 * a + b <= 59 ->
  forall r, hd_error (field_M (two_digits a b r)) = Some (10 * a + b, r).
Proof. by_digits. Qed.

Lemma field_S_digits :
  forall a, 0 <= a <= 9 -> forall b, 0 <= b <= 9 ->
  0 <= 10 * a + b <= 59 ->
  forall r, hd_error (field_S (two_digits a b r)) = Some (10 * a + b, r).
Proof. by_digits. Qed.


Lemma digit_val_any (a : Z) : digit_val (digit_char a) = a mod 10.
Proof.
  rewrite <- digit_char_mod. apply digit_val_char.
  pose proof (Z.mod_pos_bound a 10). lia.
Qed.

Lemma is_digit_any (a : Z) : is_digit (digit_char a) = true.
Proof.
  rewrite <- digit_char_mod. apply is_digit_char.
  pose proof (Z.mod_pos_bound a 10). lia.
Qed.

Lemma is_space_any (a : Z) : is_space (digit_char a) = false.
Proof.
  rewrite <- digit_char_mod. apply is_space_char.
  pose proof (Z.mod_pos_bound a 10). lia.
Qed.

Lemma pad2_two_digits (n : Z) (r : string) :
  (pad2 n ++ r)%string = two_digits ((n / 10) mod 10) (n mod 10) r.
Proof. unfold pad2, two_digits. simpl. now rewrite !digit_char_mod. Qed.

Lemma two_digits_value (n : Z) :
  0 <= n <= 99 -> 10 * ((n / 10) mod 10) + n mod 10 = n.
Proof. intros H. rewrite (Z.mod_small (n / 10)); [| split; [apply Z.div_pos; lia | apply Z.div_lt_upper_bound; lia]]. pose proof (Z.div_mod n 10). lia. Qed.

Lemma field_m_pad2 :
  forall n, 1 <= n <= 12 ->
  forall r : string, hd_error (field_m (pad2 n ++ r)%string) = Some (n, r).
Proof.
  intros n H r. rewrite pad2_two_digits.
  rewrite <- (two_digits_value n) at 3 by lia.
  apply field_m_digits;
    [ pose proof (Z.mod_pos_bound (n / 10) 10); lia
    | pose proof (Z.mod_pos_bound n 10); lia
    | rewrite two_digits_value by lia; exact H ].
Qed.

Lemma field_d_pad2 :
  forall n, 1 <= n <= 31 ->
  forall r : string, hd_error (field_d (pad2 n ++ r)%string) = Some (n, r).
Proof.
  intros n H r. rewrite pad2_two_digits.
  rewrite <- (two_digits_value n) at 3 by lia.
  apply field_d_digits;
    [ pose proof (Z.mod_pos_bound (n / 10) 10); lia
    | pose proof (Z.mod_pos_bound n 10); lia
    | rewrite two_digits_value by lia; exact H ].
Qed.

Lemma field_H_pad2 :
  forall n, 0 <= n <= 23 ->
  forall r : string, hd_error (field_H (pad2 n ++ r)%string) = Some (n, r).
Proof.
  intros n H r. rewrite pad2_two_digits.
  rewrite <- (two_digits_value n) at 3 by lia.
  apply field_H_digits;
    [ pose proof (Z.mod_pos_bound (n / 10) 10); lia
    | pose proof (Z.mod_pos_bound n 10); lia
    | rewrite two_digits_value by lia; exact H ].
Qed.

Lemma field_M_pad2 :
  forall n, 0 <= n <= 59 ->
  forall r : string, hd_error (field_M (pad2 n ++ r)%string) = Some (n, r).
Proof.
  intros n H r. rewrite pad2_two_digits.
  rewrite <- (two_digits_value n) at 3 by lia.
  apply field_M_digits;
    [ pose proof (Z.mod_pos_bound (n / 10) 10); lia
    | pose proof (Z.mod_pos_bound n 10); lia
    | rewrite two_digits_value by lia; exact H ].
Qed.

Lemma field_S_pad2 :
  forall n, 0 <= n <= 59 ->
  forall r : string, hd_error (field_S (pad2 n ++ r)%string) = Some (n, r).
Proof.
  intros n H r. rewrite pad2_two_digits.
  rewrite <- (two_digits_value n) at 3 by lia.
  apply field_S_digits;
    [ pose proof (Z.mod_pos_bound (n / 10) 10); lia
    | pose proof (Z.mod_pos_bound n 10); lia
    | rewrite two_digits_value by lia; exact H ].
Qed.

Lemma field_Y_pad4 (y : Z) (r : string) :
  0 <= y <= 9999 ->
  hd_error (field_Y (pad4 y ++ r)%string) = Some (y, r).
Proof.
  intros H. unfold pad4, pad2, field_Y. cbn [String.append].
  rewrite !is_digit_any, !digit_val_any. cbn [andb hd_error]. do 2 f_equal.
  assert (E2 : y / 100 = y / 10 / 10) by (rewrite Z.div_div by lia; reflexivity).
  assert (E3 : y / 1000 = y / 100 / 10) by (rewrite Z.div_div by lia; reflexivity).
  assert (B3 : 0 <= y / 1000 < 10)
    by (split; [apply Z.div_pos; lia | apply Z.div_lt_upper_bound; lia]).
  rewrite (Z.mod_small (y / 1000)) by lia.
  pose proof (Z.div_mod y 10). pose proof (Z.div_mod (y / 10) 10).
  pose proof (Z.div_mod (y / 100) 10). lia.
Qed.

Lemma hd_flat_map {A B : Type} (k : A -> list B) (l : list A) (x : A) (y : B) :
  hd_error l = Some x -> hd_error (k x) = Some y ->
  hd_error (flat_map k l) = Some y.
Proof.
  destruct l as [| x' l]; simpl; [discriminate |].
  intros H. inversion H; subst. destruct (k x); simpl; [discriminate | auto].
Qed.

Lemma matches_directive (d : ascii) (p : parser Z) (ts : list token)
    (f : datetime) (s r : string) (v : Z) (y : datetime * string) :
  is_char "%" d = false ->
  field_of d = Some p ->
  hd_error (p s) = Some (v, r) ->
  hd_error (matches ts (set_field d v f) r) = Some y ->
  hd_error (matches (TDirective d :: ts) f s) = Some y.
Proof.
  intros Hd Hp Hs Hk. cbn [matches]. rewrite Hd, Hp.
  apply (hd_flat_map _ _ (v, r)); [exact Hs | exact Hk].
Qed.

Lemma matches_literal (c : ascii) (ts : list token) (f : datetime)
    (r : string) (y : datetime * string) :
  hd_error (matches ts f r) = Some y ->
  hd_error (matches (TLiteral c :: ts) f (String c r)) = Some y.
Proof.
  intros H. cbn [matches]. unfold is_char. now rewrite Ascii.eqb_refl.
Qed.

Lemma matches_one_space (c : ascii) (ts : list token) (f : datetime)
    (r : string) (y : datetime * string) :
  is_space c = true ->
  spaces1 r = [] ->
  hd_error (matches ts f r) = Some y ->
  hd_error (matches (TSpaces :: ts) f (String c r)) = Some y.
Proof.
  intros Hc Hr H. cbn [matches spaces1]. rewrite Hc, Hr. simpl.
  now rewrite app_nil_r.
Qed.

Lemma days_in_month_le (y m : Z) : days_in_month y m <= 31.
Proof.
  unfold days_in_month.
  repeat match goal with
  | |- context [match ?x with _ => _ end] => destruct x
  end; lia.
Qed.

(** A valid timestamp written in the stored format is read back as it was,
    to the second. *)
Lemma strptime_strftime (dt : datetime) :
  valid_datetime dt = true ->
  strptime (strftime dt "%Y-%m-%d %H:%M:%S") "%Y-%m-%d %H:%M:%S"
  = Ok (mkDatetime (year dt) (month dt) (day dt) (hour dt) (minute dt)
          (second dt) 0).
Proof.
  intros Hv. pose proof Hv as Hv0. unfold valid_datetime, valid_date, valid_time in Hv0.
  rewrite !andb_true_iff, !Z.leb_le in Hv0.
  destruct Hv0 as [[[[[[[[Hy1 Hy2] Hm1] Hm2] Hd1] Hd2] [[[[[HH1 HH2] HM1] HM2] HS1] HS2]] Hu1] Hu2].
  assert (Hd3 : day dt <= 31).
  { pose proof (days_in_month_le (year dt) (month dt)). lia. }
  unfold strptime.
  assert (Hhd : hd_error (matches (tokenize "%Y-%m-%d %H:%M:%S") found_default
                            (strftime dt "%Y-%m-%d %H:%M:%S"))
                = Some (mkDatetime (year dt) (month dt) (day dt) (hour dt)
                          (minute dt) (second dt) 0, EmptyString)).
  { change (tokenize "%Y-%m-%d %H:%M:%S") with
      [TDirective "Y"; TLiteral "-"; TDirective "m"; TLiteral "-";
       TDirective "d"; TSpaces; TDirective "H"; TLiteral ":"; TDirective "M";
       TLiteral ":"; TDirective "S"].
    change (strftime dt "%Y-%m-%d %H:%M:%S") with
      (pad4 (year dt) ++ String "-" (pad2 (month dt) ++ String "-"
         (pad2 (day dt) ++ String " " (pad2 (hour dt) ++ String ":"
            (pad2 (minute dt) ++ String ":" (pad2 (second dt) ++ ""))))))%string.
    eapply matches_directive;
      [reflexivity | reflexivity | apply field_Y_pad4; lia |].
    apply matches_literal.
    eapply matches_directive;
      [reflexivity | reflexivity | apply field_m_pad2; lia |].
    apply matches_literal.
    eapply matches_directive;
      [reflexivity | reflexivity | apply field_d_pad2; lia |].
    apply matches_one_space; [reflexivity | |].
    { unfold pad2. cbn [String.append spaces1]. now rewrite is_space_any. }
    eapply matches_directive;
      [reflexivity | reflexivity | apply field_H_pad2; lia |].
    apply matches_literal.
    eapply matches_directive;
      [reflexivity | reflexivity | apply field_M_pad2; lia |].
    apply matches_literal.
    eapply matches_directive;
      [reflexivity | reflexivity | apply field_S_pad2; lia |].
    reflexivity. }
  destruct (matches (tokenize "%Y-%m-%d %H:%M:%S") found_default (strftime dt "%Y-%m-%d %H:%M:%S"))
    as [| [f rest] l]; [discriminate |].
  simpl in Hhd. inversion Hhd; subst.
  replace (valid_datetime _) with true; [reflexivity |].
  symmetry. unfold valid_datetime in *. simpl.
  rewrite !andb_true_iff in Hv. rewrite !andb_true_iff.
  destruct Hv as [[[Ha Hb] _] _]. repeat split; auto.
Qed.

Lemma strptime_valid (s fmt : string) (d : datetime) :
  strptime s fmt = Ok d -> valid_datetime d = true.
Proof.
  unfold strptime.
  destruct (matches (tokenize fmt) found_default s) as [| [f [| c r]] l];
    try discriminate.
  destruct (valid_datetime f) eqn:E; [| discriminate].
  intros H. inversion H. subst. exact E.
Qed.

Lemma try_formats_valid (s : string) (fmts : list string) (d : datetime) :
  try_formats s fmts = Ok d -> valid_datetime d = true.
Proof.
  induction fmts as [| fmt rest IH]; simpl; [discriminate |].
  destruct (strptime s fmt) as [d' | e] eqn:E.
  - apply strptime_valid in E.
    destruct (String.eqb fmt "%Y-%m-%d"); intros H; inversion H; subst.
    + unfold valid_datetime in *. simpl.
      rewrite !andb_true_iff in E. destruct E as [[[Ha _] _] _].
      now rewrite Ha.
    + exact E.
  - destruct e; try discriminate. exact IH.
Qed.

Lemma parse_datetime_valid (now : datetime) (s : string) (d : datetime) :
  valid_datetime now = true ->
  parse_datetime now s = Ok d -> valid_datetime d = true.
Proof.
  intros Hnow. unfold parse_datetime.
  destruct (in_keys (lower (strip s)) ["now"; ""]).
  - intros H. inversion H. now subst.
  - apply try_formats_valid.
Qed.

Lemma make_record_timed (dt : datetime) (t c : string) (n : Z) (x : float)
    (fl : fields) :
  valid_datetime dt = true -> timed (make_record dt t c n x fl).
Proof.
  intros H. eexists. unfold sale_time, make_record. simpl datetime_.
  apply (strptime_strftime dt H).
Qed.

(** ** Registration *)

Section AddSaleFacts.

Variable py_int : string -> option Z.
Variable py_float : string -> option float.
Variable now : datetime.

(** A run of [add_sale], whatever is typed and however it ends (also on an
    exception): either the ledger and the file are left as they were, or the
    run succeeded, one record of a known category and a positive quantity
    was appended, and the file holds the new ledger. *)
Lemma add_sale_ledger (w : world) :
  (sales (snd (add_sale py_int py_float now w)) = sales w
   /\ data_file (snd (add_sale py_int py_float now w)) = data_file w)
  \/ (exists r,
        fst (add_sale py_int py_float now w) = Ok tt
        /\ sales (snd (add_sale py_int py_float now w)) = sales w ++ [r]
        /\ data_file (snd (add_sale py_int py_float now w)) = Some (sales w ++ [r])
        /\ In (PVentaRegistrada r) (stdout (snd (add_sale py_int py_float now w)))
        /\ in_keys (tipo r) VALID_TYPES = true
        /\ 0 < cantidad r).
Proof.
  run_add_sale. add_sale_cases; auto.
  all: right; eexists; repeat split; try reflexivity;
    [ rewrite ?in_app_iff; simpl; auto | exact Ht | apply Z.leb_gt in Hn; exact Hn ].
Qed.

(** When the clock gives a valid time, a ledger whose records all carry their
    timestamp stays so after [add_sale]: the summaries read back what
    [add_sale] wrote. *)
Lemma add_sale_keeps_timed (w : world) :
  valid_datetime now = true ->
  Forall timed (sales w) ->
  Forall timed (sales (snd (add_sale py_int py_float now w))).
Proof.
  intros Hnow Hw. run_add_sale. add_sale_cases; auto.
  all: apply Forall_app; split; [exact Hw |]; constructor; [| constructor];
    apply make_record_timed; now apply (parse_datetime_valid now _ _ Hnow Hdate).
Qed.


(** C10.  On valid answers [add_sale] appends one record, whose stored
    price is the price typed rounded to two decimals while its total,
    investment, profit and alert are those derived from the price as typed;
    and there is a valid sale (1000 "hombre" at 1.004) whose stored total,
    1004.0, is not the rounding of the stored quantity times the stored
    price, 1000.0. *)
Theorem C10_stored_price_rounded (w : world) (fecha t c q p : string)
    (rest : list string) (dt : datetime) (n : Z) (x : float) (fl : fields) :
  stdin w = answers fecha t c q p rest ->
  parse_datetime now (strip fecha) = Ok dt ->
  in_keys (lower (strip t)) VALID_TYPES = true ->
  py_int (strip q) = Some n ->
  0 < n ->
  py_float (strip p) = Some x ->
  flt x zero = false ->
  compute_fields (lower (strip t)) n x = Ok fl ->
  (exists w' r,
     add_sale py_int py_float now w = (Ok tt, w')
     /\ r = make_record dt (lower (strip t)) (strip c) n x fl
     /\ sales w' = sales w ++ [r]
     /\ data_file w' = Some (sales w ++ [r])
     /\ cantidad r = n
     /\ precio_unitario r = round2 x
     /\ total r = f_total fl
     /\ inversion_recuperada r = f_inversion fl
     /\ ganancia r = f_ganancia fl
     /\ alerta_precio r = f_alert fl)
  /\ (exists fl' r',
        compute_fields "hombre" 1000 (dec 1004 3) = Ok fl'
        /\ r' = make_record dt "hombre" (strip c) 1000 (dec 1004 3) fl'
        /\ fle zero (dec 1004 3) = true
        /\ precio_unitario r' = of_Z 1
        /\ total r' = of_Z 1004
        /\ int_mul (cantidad r') (precio_unitario r') = Ok (of_Z 1000)
        /\ round2 (of_Z 1000) = of_Z 1000
        /\ total r' <> round2 (of_Z 1000)).
Proof.
  intros Hin Hdate Ht Hq Hn Hp Hx Hfl. unfold answers in Hin. split.
  - run_add_sale. rewrite Hin; step; rewrite Hdate; step; rewrite Ht; step.
    rewrite Hq. apply Z.leb_gt in Hn. rewrite Hn. step.
    rewrite Hp, Hx. step. rewrite Hfl. step.
    destruct (f_alert fl) eqn:Ha; step;
      eexists; eexists; (split; [reflexivity |]);
      repeat split; try reflexivity; simpl; now rewrite Ha.
  - eexists. eexists. split; [vm_compute; reflexivity |].
    split; [reflexivity |].
    repeat split; try (vm_compute; reflexivity).
    vm_compute. discriminate.
Qed.

End AddSaleFacts.


(** A rejected answer, run: the quantity -2 leaves the ledger empty and the
    file absent. *)
Example add_sale_rejected :
  add_sale demo_int demo_float noon
    (world0 (answers "2025-12-29 10:15" " Hombre" "rojo" "-2" "1.004" []))
  = (Ok tt,
     mkWorld ["1.004"]
       [PPrompt prompt_fecha; PPrompt "Tipo (hombre/mujer/niño): ";
        PPrompt "Color: "; PPrompt "Cantidad vendida: "; PCantidadNoPositiva]
       [] None).
Proof. vm_compute. reflexivity. Qed.

Lemma C10_stored_price_rounded_witness :
  (exists w' r,
     add_sale demo_int demo_float noon
       (world0 (answers "now" "hombre" "rojo" "1000" "1.004" [])) = (Ok tt, w')
     /\ r = make_record noon (lower (strip "hombre")) (strip "rojo") 1000 (dec 1004 3)
              (mkFields (of_Z 35) (of_Z 1004) (of_Z 35000) (of_Z (-33996)) true)
     /\ sales w' = sales (world0 (answers "now" "hombre" "rojo" "1000" "1.004" [])) ++ [r]
     /\ data_file w' = Some (sales (world0 (answers "now" "hombre" "rojo" "1000" "1.004" [])) ++ [r])
     /\ cantidad r = 1000
     /\ precio_unitario r = round2 (dec 1004 3)
     /\ total r = f_total (mkFields (of_Z 35) (of_Z 1004) (of_Z 35000) (of_Z (-33996)) true)
     /\ inversion_recuperada r = f_inversion (mkFields (of_Z 35) (of_Z 1004) (of_Z 35000) (of_Z (-33996)) true)
     /\ ganancia r = f_ganancia (mkFields (of_Z 35) (of_Z 1004) (of_Z 35000) (of_Z (-33996)) true)
     /\ alerta_precio r = f_alert (mkFields (of_Z 35) (of_Z 1004) (of_Z 35000) (of_Z (-33996)) true))
  /\ (exists fl' r',
        compute_fields "hombre" 1000 (dec 1004 3) = Ok fl'
        /\ r' = make_record noon "hombre" (strip "rojo") 1000 (dec 1004 3) fl'
        /\ fle zero (dec 1004 3) = true
        /\ precio_unitario r' = of_Z 1
        /\ total r' = of_Z 1004
        /\ int_mul (cantidad r') (precio_unitario r') = Ok (of_Z 1000)
        /\ round2 (of_Z 1000) = of_Z 1000
        /\ total r' <> round2 (of_Z 1000)).
Proof.
  apply (C10_stored_price_rounded demo_int demo_float noon
           (world0 (answers "now" "hombre" "rojo" "1000" "1.004" []))
           "now" "hombre" "rojo" "1000" "1.004" [] noon 1000 (dec 1004 3)
           (mkFields (of_Z 35) (of_Z 1004) (of_Z 35000) (of_Z (-33996)) true)).
  - reflexivity.
  - vm_compute. reflexivity.
  - vm_compute. reflexivity.
  - vm_compute. reflexivity.
  - lia.
  - vm_compute. reflexivity.
  - vm_compute. reflexivity.
  - vm_compute. reflexivity.
Defined.

(** ** Two further properties *)

(** X1.  A record taken by the weekly summary for the pair ([iy], [iw]) has
    the Thursday of its week (weeks running from Monday to Sunday) in the
    calendar year [iy], and that week is the [iw]-th of the year counted by
    its Thursdays: the week numbering of ISO 8601. *)
Theorem X1_weekly_filter_iso8601 (s : sale) (d : datetime) (iy iw : Z) :
  sale_time s = Ok d ->
  in_iso_week iy iw s = true ->
  let ord := ymd2ord (year d) (month d) (day d) in
  let thursday := ord - (ord + 6) mod 7 + 3 in
  days_before_year iy + 1 <= thursday <= days_before_year (iy + 1)
  /\ iw = (thursday - (days_before_year iy + 1)) / 7 + 1.
Proof.
  intros Hd Hin. cbv zeta.
  assert (Hv : valid_date (year d) (month d) (day d) = true).
  { apply strptime_valid in Hd. unfold valid_datetime in Hd.
    rewrite !andb_true_iff in Hd. tauto. }
  unfold in_iso_week in Hin. rewrite Hd in Hin.
  apply andb_true_iff in Hin. rewrite !Z.eqb_eq in Hin.
  destruct Hin as [<- <-].
  destruct (isocalendar_iso8601 d Hv) as (_ & Hyear & Hweek).
  split; [exact Hyear | exact Hweek].
Qed.

Lemma X1_weekly_filter_iso8601_witness :
  days_before_year 2026 + 1 <= ymd2ord 2025 12 29 - (ymd2ord 2025 12 29 + 6) mod 7 + 3
    <= days_before_year (2026 + 1)
  /\ 1 = (ymd2ord 2025 12 29 - (ymd2ord 2025 12 29 + 6) mod 7 + 3
          - (days_before_year 2026 + 1)) / 7 + 1.
Proof.
  apply (X1_weekly_filter_iso8601
           (mkSale "2025-12-29 10:15:00" "hombre" "negro" 3 (of_Z 40) (of_Z 35)
              (of_Z 120) (of_Z 105) (of_Z 15) false)
           (mkDatetime 2025 12 29 10 15 0 0) 2026 1).
  - vm_compute. reflexivity.
  - vm_compute. reflexivity.
Defined.

(** X2.  A run of [add_sale], whatever is typed and however it ends, either
    leaves the ledger and the file as they were or has appended exactly one
    record, of a category of the table and of positive quantity, and written
    the new ledger to the file. *)
Theorem X2_add_sale_appends_or_keeps (py_int : string -> option Z)
    (py_float : string -> option float) (now : datetime) (w : world) :
  (sales (snd (add_sale py_int py_float now w)) = sales w
   /\ data_file (snd (add_sale py_int py_float now w)) = data_file w)
  \/ (exists r,
        fst (add_sale py_int py_float now w) = Ok tt
        /\ sales (snd (add_sale py_int py_float now w)) = sales w ++ [r]
        /\ data_file (snd (add_sale py_int py_float now w)) = Some (sales w ++ [r])
        /\ In (PVentaRegistrada r) (stdout (snd (add_sale py_int py_float now w)))
        /\ in_keys (tipo r) VALID_TYPES = true
        /\ 0 < cantidad r).
Proof. apply add_sale_ledger. Qed.

(** * Further properties of the code

    ** Stored timestamps typed back *)

Lemma stamp_shape (dt : datetime) :
  strftime dt "%Y-%m-%d %H:%M:%S"
  = (pad4 (year dt) ++ String "-" (pad2 (month dt) ++ String "-"
       (pad2 (day dt) ++ String " " (pad2 (hour dt) ++ String ":"
          (pad2 (minute dt) ++ String ":" (pad2 (second dt) ++ ""))))))%string.
Proof. reflexivity. Qed.

Lemma lower_char_digit (a : Z) : lower_char (digit_char a) = digit_char a.
Proof.
  rewrite <- digit_char_mod.
  pose proof (Z.mod_pos_bound a 10) as H.
  assert (Ha : 0 <= a mod 10 <= 9) by lia.
  generalize dependent (a mod 10). intros b _ Hb.
  digit_split b Hb; reflexivity.
Qed.

Lemma rstrip_cons (c : ascii) (r : string) :
  is_space c = false -> exists r', rstrip (String c r) = String c r'.
Proof.
  intros H. simpl. destruct (rstrip r); rewrite ?H; eauto.
Qed.

Lemma stamp_not_now (dt : datetime) :
  in_keys (lower (strip (strftime dt "%Y-%m-%d %H:%M:%S"))) ["now"; ""] = false.
Proof.
  rewrite stamp_shape. unfold pad4 at 1. cbn [String.append].
  unfold strip. cbn [lstrip]. rewrite is_space_any.
  destruct (rstrip_cons (digit_char (year dt / 1000))
              (String (digit_char (year dt / 100)) (pad2 (year dt) ++
                 String "-" (pad2 (month dt) ++ String "-"
                   (pad2 (day dt) ++ String " " (pad2 (hour dt) ++ String ":"
                     (pad2 (minute dt) ++ String ":" (pad2 (second dt) ++ "")))))))%string
              (is_space_any _)) as [r' Hr].
  rewrite Hr. cbn [lower]. rewrite lower_char_digit.
  unfold in_keys. cbn [existsb String.eqb].
  replace (Ascii.eqb (digit_char (year dt / 1000)) "n") with false; [reflexivity |].
  symmetry. rewrite <- digit_char_mod.
  pose proof (Z.mod_pos_bound (year dt / 1000) 10) as H.
  assert (Ha : 0 <= (year dt / 1000) mod 10 <= 9) by lia.
  generalize dependent ((year dt / 1000) mod 10). intros b _ Hb.
  digit_split b Hb; reflexivity.
Qed.

Lemma strptime_minutes_rejects_stamp (dt : datetime) :
  valid_datetime dt = true ->
  strptime (strftime dt "%Y-%m-%d %H:%M:%S") "%Y-%m-%d %H:%M" = Raise ValueError.
Proof.
  intros Hv. pose proof Hv as Hv0.
  unfold valid_datetime, valid_date, valid_time in Hv0.
  rewrite !andb_true_iff, !Z.leb_le in Hv0.
  destruct Hv0 as [[[[[[[[Hy1 Hy2] Hm1] Hm2] Hd1] Hd2] [[[[[HH1 HH2] HM1] HM2] HS1] HS2]] Hu1] Hu2].
  assert (Hd3 : day dt <= 31).
  { pose proof (days_in_month_le (year dt) (month dt)). lia. }
  unfold strptime.
  assert (Hhd : hd_error (matches (tokenize "%Y-%m-%d %H:%M") found_default
                            (strftime dt "%Y-%m-%d %H:%M:%S"))
                = Some (mkDatetime (year dt) (month dt) (day dt) (hour dt)
                          (minute dt) 0 0,
                        String ":" (pad2 (second dt) ++ "")%string)).
  { change (tokenize "%Y-%m-%d %H:%M") with
      [TDirective "Y"; TLiteral "-"; TDirective "m"; TLiteral "-";
       TDirective "d"; TSpaces; TDirective "H"; TLiteral ":"; TDirective "M"].
    rewrite stamp_shape.
    eapply matches_directive;
      [reflexivity | reflexivity | apply field_Y_pad4; lia |].
    apply matches_literal.
    eapply matches_directive;
      [reflexivity | reflexivity | apply field_m_pad2; lia |].
    apply matches_literal.
    eapply matches_directive;
      [reflexivity | reflexivity | apply field_d_pad2; lia |].
    apply matches_one_space; [reflexivity | |].
    { unfold pad2. cbn [String.append spaces1]. now rewrite is_space_any. }
    eapply matches_directive;
      [reflexivity | reflexivity | apply field_H_pad2; lia |].
    apply matches_literal.
    eapply matches_directive;
      [reflexivity | reflexivity | apply field_M_pad2; lia |].
    reflexivity. }
  destruct (matches (tokenize "%Y-%m-%d %H:%M") found_default
              (strftime dt "%Y-%m-%d %H:%M:%S")) as [| [f rest] l];
    [reflexivity |].
  simpl in Hhd. inversion Hhd; subst. reflexivity.
Qed.

(** X3.  A valid time of year 1000 or later, written in the stored format
    (down to the second), is read by [parse_datetime] as that same time: the
    minutes-only format, tried first, fails on the text left over, and the
    format with seconds takes it. *)
Theorem X3_parse_datetime_reads_stamp (now dt : datetime) :
  valid_datetime dt = true ->
  1000 <= year dt ->
  parse_datetime now (strftime dt "%Y-%m-%d %H:%M:%S")
  = Ok (mkDatetime (year dt) (month dt) (day dt) (hour dt) (minute dt)
          (second dt) 0).
Proof.
  intros Hv _. unfold parse_datetime. rewrite stamp_not_now.
  unfold FORMATS. cbn [try_formats].
  rewrite (strptime_minutes_rejects_stamp dt Hv).
  rewrite (strptime_strftime dt Hv). reflexivity.
Qed.

Lemma X3_parse_datetime_reads_stamp_witness :
  parse_datetime noon (strftime (mkDatetime 2025 12 29 10 15 30 250000) "%Y-%m-%d %H:%M:%S")
  = Ok (mkDatetime 2025 12 29 10 15 30 0).
Proof.
  apply (X3_parse_datetime_reads_stamp noon (mkDatetime 2025 12 29 10 15 30 250000)).
  - reflexivity.
  - simpl. lia.
Defined.

(** ** Weeks and days of the summaries *)

Lemma days_before_year_mono (a b : Z) :
  a <= b -> days_before_year a <= days_before_year b.
Proof.
  unfold days_before_year. intros H.
  Z.to_euclidean_division_equations. lia.
Qed.

Lemma year_of_day_unique (a b t : Z) :
  days_before_year a + 1 <= t <= days_before_year (a + 1) ->
  days_before_year b + 1 <= t <= days_before_year (b + 1) ->
  a = b.
Proof.
  intros Ha Hb.
  destruct (Z.lt_trichotomy a b) as [H | [H | H]]; [| exact H |].
  - pose proof (days_before_year_mono (a + 1) b). lia.
  - pose proof (days_before_year_mono (b + 1) a). lia.
Qed.

Lemma same_iso_week_same_monday (d1 d2 : datetime) :
  valid_date (year d1) (month d1) (day d1) = true ->
  valid_date (year d2) (month d2) (day d2) = true ->
  (iso_year d1 = iso_year d2 /\ iso_week d1 = iso_week d2)
  <-> week_monday d1 = week_monday d2.
Proof.
  intros H1 H2.
  destruct (isocalendar_iso8601 d1 H1) as (_ & Y1 & W1).
  destruct (isocalendar_iso8601 d2 H2) as (_ & Y2 & W2).
  unfold week_monday, ordinal.
  set (o1 := ymd2ord (year d1) (month d1) (day d1)) in *.
  set (o2 := ymd2ord (year d2) (month d2) (day d2)) in *.
  split.
  - intros [Ey Ew]. rewrite Ey in *. rewrite Ew in W1.
    set (F := days_before_year (iso_year d2)) in *.
    clearbody F o1 o2. rewrite W2 in W1. clear W2.
    Z.to_euclidean_division_equations. lia.
  - intros E.
    assert (Ey : iso_year d1 = iso_year d2).
    { apply (year_of_day_unique _ _ (o1 - (o1 + 6) mod 7 + 3)); [exact Y1 |].
      rewrite E. exact Y2. }
    split; [exact Ey |]. rewrite W1, W2, Ey, E. reflexivity.
Qed.

Lemma sale_time_valid_date (s : sale) (d : datetime) :
  sale_time s = Ok d -> valid_date (year d) (month d) (day d) = true.
Proof.
  intros H. apply strptime_valid in H. unfold valid_datetime in H.
  rewrite !andb_true_iff in H. tauto.
Qed.

(** X4.  Two records that carry a timestamp are taken by the weekly summary
    of one and the same (year, week) pair exactly when their days fall in
    the same week from Monday to Sunday. *)
Theorem X4_same_week_records (s1 s2 : sale) (d1 d2 : datetime) :
  sale_time s1 = Ok d1 ->
  sale_time s2 = Ok d2 ->
  (exists iy iw, in_iso_week iy iw s1 = true /\ in_iso_week iy iw s2 = true)
  <-> week_monday d1 = week_monday d2.
Proof.
  intros H1 H2.
  pose proof (same_iso_week_same_monday d1 d2 (sale_time_valid_date _ _ H1)
                (sale_time_valid_date _ _ H2)) as Hiff.
  unfold in_iso_week. rewrite H1, H2. split.
  - intros (iy & iw & A & B).
    rewrite andb_true_iff, !Z.eqb_eq in A, B. apply Hiff.
    destruct A as [-> ->], B as [B1 B2]. auto.
  - intros E. apply Hiff in E. destruct E as [Ey Ew].
    exists (iso_year d1), (iso_week d1).
    rewrite Ey, Ew, !Z.eqb_refl. auto.
Qed.

Lemma isocalendar_date_only (d : datetime) :
  isocalendar d
  = isocalendar (mkDatetime (year d) (month d) (day d) 0 0 0 0).
Proof. reflexivity. Qed.

(** X5.  Every record that the daily summary of a day takes is taken by the
    weekly summary of the ISO year and week of that day. *)
Theorem X5_day_within_week (sales : ledger) (dt : date) (s : sale) :
  In s (on_day dt sales) ->
  In s (filter (in_iso_week
                  (iso_year (mkDatetime (d_year dt) (d_month dt) (d_day dt) 0 0 0 0))
                  (iso_week (mkDatetime (d_year dt) (d_month dt) (d_day dt) 0 0 0 0)))
          sales).
Proof.
  unfold on_day. rewrite !filter_In. intros [Hin Hsel]. split; [exact Hin |].
  unfold selects, same_day in Hsel. unfold in_iso_week.
  destruct (sale_time s) as [d | e]; [| discriminate].
  apply date_eqb_eq in Hsel. subst dt. unfold date_of. simpl.
  unfold iso_year, iso_week. rewrite <- isocalendar_date_only.
  now rewrite !Z.eqb_refl.
Qed.

(** X6.  Appending to a ledger a record whose timestamp lies outside the
    window (another day, another ISO week) leaves the summary of the window
    as it was. *)
Theorem X6_summarize_app_outside (w : window) (sales : ledger) (r : sale) (d : datetime) :
  Forall timed sales ->
  sale_time r = Ok d ->
  in_window w d = false ->
  summarize w (sales ++ [r]) = summarize w sales.
Proof.
  intros Hs Hr Hout.
  assert (Hs' : Forall timed (sales ++ [r])).
  { apply Forall_app. split; [exact Hs |]. constructor; [now exists d | constructor]. }
  rewrite (summarize_eq w _ Hs'), (summarize_eq w _ Hs).
  rewrite filter_app. cbn [filter]. unfold selects at 2. rewrite Hr, Hout.
  now rewrite app_nil_r.
Qed.

Lemma X4_same_week_records_witness :
  (exists iy iw,
     in_iso_week iy iw (mkSale "2025-12-29 10:15:00" "hombre" "negro" 3 (of_Z 40)
                          (of_Z 35) (of_Z 120) (of_Z 105) (of_Z 15) false) = true
     /\ in_iso_week iy iw (mkSale "2026-01-04 09:00:00" "mujer" "rojo" 2 (of_Z 28)
                             (of_Z 30) (of_Z 56) (of_Z 60) (of_Z (-4)) true) = true)
  <-> week_monday (mkDatetime 2025 12 29 10 15 0 0)
      = week_monday (mkDatetime 2026 1 4 9 0 0 0).
Proof.
  apply (X4_same_week_records
           (mkSale "2025-12-29 10:15:00" "hombre" "negro" 3 (of_Z 40)
              (of_Z 35) (of_Z 120) (of_Z 105) (of_Z 15) false)
           (mkSale "2026-01-04 09:00:00" "mujer" "rojo" 2 (of_Z 28)
              (of_Z 30) (of_Z 56) (of_Z 60) (of_Z (-4)) true)).
  - vm_compute. reflexivity.
  - vm_compute. reflexivity.
Defined.

Lemma X5_day_within_week_witness :
  In (mkSale "2025-12-29 10:15:00" "hombre" "negro" 3 (of_Z 40)
        (of_Z 35) (of_Z 120) (of_Z 105) (of_Z 15) false)
     (filter (in_iso_week
                (iso_year (mkDatetime 2025 12 29 0 0 0 0))
                (iso_week (mkDatetime 2025 12 29 0 0 0 0)))
        demo_sales).
Proof.
  apply (X5_day_within_week demo_sales (mkDate 2025 12 29)).
  vm_compute. auto.
Defined.

Lemma X6_summarize_app_outside_witness :
  summarize (Day (mkDate 2025 12 29))
    (demo_sales ++ [mkSale "2026-01-04 09:00:00" "mujer" "rojo" 2 (of_Z 28)
                      (of_Z 30) (of_Z 56) (of_Z 60) (of_Z (-4)) true])
  = summarize (Day (mkDate 2025 12 29)) demo_sales.
Proof.
  apply (X6_summarize_app_outside (Day (mkDate 2025 12 29)) demo_sales
           (mkSale "2026-01-04 09:00:00" "mujer" "rojo" 2 (of_Z 28)
              (of_Z 30) (of_Z 56) (of_Z 60) (of_Z (-4)) true)
           (mkDatetime 2026 1 4 9 0 0 0)).
  - repeat constructor; eexists; vm_compute; reflexivity.
  - vm_compute. reflexivity.
  - vm_compute. reflexivity.
Defined.

(** ** The best category and the sale at cost *)

(** [m < v] and [not (m <= x)]: then [not (v <= x)]. *)
Lemma lt_not_le_trans (m v x : float) :
  flt m v = true -> fle m x = false -> fle v x = false.
Proof.
  unfold flt, fle, SFltb, SFleb.
  destruct m as [sm | sm | | sm mm em], v as [sv | sv | | sv mv ev],
    x as [sx | sx | | sx mx ex]; simpl;
    try discriminate; try reflexivity;
    repeat match goal with s : bool |- _ => destruct s end; simpl;
    try discriminate; try reflexivity;
    rewrite ?pos_cont_cmp; intros; cmp_cases.
Qed.

(** [m < v] and [not (x > m)]: then [not (v <= x)]. *)
Lemma lt_not_gt_trans (m v x : float) :
  flt m v = true -> fgt x m = false -> fle v x = false.
Proof.
  unfold flt, fgt, fle, SFltb, SFleb.
  destruct m as [sm | sm | | sm mm em], v as [sv | sv | | sv mv ev],
    x as [sx | sx | | sx mx ex]; simpl;
    try discriminate; try reflexivity;
    repeat match goal with s : bool |- _ => destruct s end; simpl;
    try discriminate; try reflexivity;
    rewrite ?pos_cont_cmp; intros; cmp_cases.
Qed.

Lemma lt_not_ge (m v : float) : flt m v = true -> fle v m = false.
Proof.
  unfold flt, fle, SFltb, SFleb.
  destruct m as [sm | sm | | sm mm em], v as [sv | sv | | sv mv ev]; simpl;
    try discriminate; try reflexivity;
    repeat match goal with s : bool |- _ => destruct s end; simpl;
    try discriminate; try reflexivity;
    rewrite ?pos_cont_cmp; intros; cmp_cases.
Qed.

Lemma max_loop_first (rest : list (string * float)) :
  forall (pre mid : list (string * float)) (k : string) (v : float),
    (forall e, In e pre -> fle v (snd e) = false) ->
    (forall e, In e mid -> fgt (snd e) v = false) ->
    exists l1 v' l2,
      pre ++ (k, v) :: mid ++ rest = l1 ++ (max_loop rest k v, v') :: l2
      /\ (forall e, In e l1 -> fle v' (snd e) = false)
      /\ (forall e, In e l2 -> fgt (snd e) v' = false).
Proof.
  induction rest as [| [k1 v1] rest IH]; intros pre mid k v Hpre Hmid; simpl.
  - exists pre, v, mid. rewrite app_nil_r. auto.
  - destruct (fgt v1 v) eqn:E.
    + destruct (IH (pre ++ (k, v) :: mid) [] k1 v1) as (l1 & v' & l2 & Heq & H1 & H2).
      * intros e He. apply in_app_or in He. destruct He as [He | [He | He]].
        -- apply (lt_not_le_trans v); [exact E | now apply Hpre].
        -- subst e. simpl. now apply lt_not_ge.
        -- apply (lt_not_gt_trans v); [exact E | now apply Hmid].
      * intros e [].
      * exists l1, v', l2. split; [| auto].
        rewrite <- Heq. simpl. rewrite <- app_assoc. reflexivity.
    + destruct (IH pre (mid ++ [(k1, v1)]) k v) as (l1 & v' & l2 & Heq & H1 & H2).
      * exact Hpre.
      * intros e He. apply in_app_or in He. destruct He as [He | [He | []]].
        -- now apply Hmid.
        -- subst e. exact E.
      * exists l1, v', l2. split; [| auto].
        rewrite <- Heq. rewrite <- app_assoc. reflexivity.
Qed.

(** [max]: the key returned is the first of the dictionary whose value no
    later value exceeds, and that value is not below or equal to any earlier
    one. *)
Lemma max_key_first (d : list (string * float)) (k : string) :
  max_key d = Some k ->
  exists l1 v l2,
    d = l1 ++ (k, v) :: l2
    /\ (forall e, In e l1 -> fle v (snd e) = false)
    /\ (forall e, In e l2 -> fgt (snd e) v = false).
Proof.
  destruct d as [| [k0 v0] rest]; simpl; [discriminate |].
  intros H. inversion H as [Hk].
  destruct (max_loop_first rest [] [] k0 v0) as (l1 & v & l2 & Heq & H1 & H2);
    try (intros e []).
  exists l1, v, l2. simpl in Heq. auto.
Qed.

Lemma fold_keys_order (rs : list sale) :
  forall a,
    map fst (tipo_ganancias (fold_left add_to rs a))
    = fold_left (fun acc k => if in_keys k acc then acc else acc ++ [k])
        (map tipo rs) (map fst (tipo_ganancias a)).
Proof.
  induction rs as [| r rs IH]; intros a; simpl; [reflexivity |].
  rewrite IH. simpl. now rewrite dict_add_keys.
Qed.

(** X7.  The dictionary of a summary lists the categories in the order of
    their first record in the window, and the best category is the first of
    them that no later value exceeds: its value is not below or equal to any
    earlier one, so that among equal profits the category seen first wins. *)
Theorem X7_best_category_first (w : window) (sales : ledger) :
  Forall timed sales ->
  exists s,
    summarize w sales = Ok s
    /\ map fst (by_type s) = first_seen (map tipo (chosen w sales))
    /\ forall k,
         tipo_mas_rentable s = Some k ->
         exists l1 v l2,
           by_type s = l1 ++ (k, v) :: l2
           /\ (forall e, In e l1 -> fle v (snd e) = false)
           /\ (forall e, In e l2 -> fgt (snd e) v = false).
Proof.
  intros H. exists (summary_of (chosen w sales)).
  split; [now apply summarize_eq |].
  unfold summary_of, finish. cbn [by_type tipo_mas_rentable]. split.
  - rewrite fold_keys_order. reflexivity.
  - intros k Hk. now apply max_key_first.
Qed.

Lemma fsub_self (x : float) : is_finite x = true -> fsub x x = zero.
Proof.
  destruct x as [s | s | | s m e]; try discriminate; intros _.
  - destruct s; reflexivity.
  - unfold fsub, SFsub. rewrite Z.sub_diag. reflexivity.
Qed.

Lemma round2_finite (x : float) : is_finite (round2 x) = true -> is_finite x = true.
Proof. destruct x; simpl; auto. Qed.

(** X8.  A sale at a unit price equal to the cost of its category, with a
    total that is a number, has the profit 0.0, raises no alert and has an
    investment equal to its total. *)
Theorem X8_sale_at_cost (t : string) (c : float) (n : Z) (f : fields) :
  dict_get COSTS t = Some c ->
  compute_fields t n c = Ok f ->
  is_finite (f_total f) = true ->
  f_ganancia f = zero /\ f_alert f = false /\ f_inversion f = f_total f.
Proof.
  intros Hc Hf Hfin.
  destruct (float_of_int n) as [q | e] eqn:Hq.
  - rewrite (compute_fields_eq t c n q c Hc Hq) in Hf.
    inversion Hf; subst f; clear Hf. simpl in *.
    apply round2_finite in Hfin. rewrite (fsub_self _ Hfin).
    repeat split. apply fgt_irrefl.
  - unfold compute_fields, cost_of, int_mul in Hf.
    rewrite Hc in Hf. simpl in Hf. rewrite Hq in Hf. discriminate.
Qed.

Lemma X7_best_category_first_witness :
  exists s,
    summarize (Week 2026 1) demo_sales = Ok s
    /\ map fst (by_type s) = first_seen (map tipo (chosen (Week 2026 1) demo_sales))
    /\ forall k,
         tipo_mas_rentable s = Some k ->
         exists l1 v l2,
           by_type s = l1 ++ (k, v) :: l2
           /\ (forall e, In e l1 -> fle v (snd e) = false)
           /\ (forall e, In e l2 -> fgt (snd e) v = false).
Proof.
  apply (X7_best_category_first (Week 2026 1) demo_sales).
  repeat constructor; eexists; vm_compute; reflexivity.
Defined.

Lemma X8_sale_at_cost_witness :
  f_ganancia (mkFields (of_Z 30) (of_Z 60) (of_Z 60) zero false) = zero
  /\ f_alert (mkFields (of_Z 30) (of_Z 60) (of_Z 60) zero false) = false
  /\ f_inversion (mkFields (of_Z 30) (of_Z 60) (of_Z 60) zero false)
     = f_total (mkFields (of_Z 30) (of_Z 60) (of_Z 60) zero false).
Proof.
  apply (X8_sale_at_cost "mujer" (of_Z 30) 2
           (mkFields (of_Z 30) (of_Z 60) (of_Z 60) zero false)).
  - reflexivity.
  - vm_compute. reflexivity.
  - reflexivity.
Defined.

(** ** Registration: errors and odd answers *)

Lemma binary_round_aux_sign (s : bool) (m e : Z) (l : location) :
  flt (binary_round_aux prec emax false m e l) zero = false.
Proof.
  unfold binary_round_aux.
  destruct (shr_fexp prec emax m e l) as [mrs' e'].
  destruct (shr_fexp prec emax _ e' loc_Exact) as [mrs'' e''].
  destruct (shr_m mrs''); try reflexivity.
  destruct (e'' <=? emax - prec); reflexivity.
Qed.

Lemma round2_not_negative (x : float) :
  flt x zero = false -> flt (round2 x) zero = false.
Proof.
  destruct x as [s | s | | s m e]; simpl; auto.
  destruct s; [discriminate |]. intros _.
  destruct (hundredths m e); try reflexivity.
  unfold of_ratio.
  destruct (SFdiv_core_binary prec emax (Zpos p) 0 100 0) as [[q e'] l].
  apply (binary_round_aux_sign false).
Qed.

Lemma compute_fields_cost (t : string) (n : Z) (x : float) (fl : fields) :
  compute_fields t n x = Ok fl -> dict_get COSTS t = Some (f_costo_unit fl).
Proof.
  unfold compute_fields, cost_of.
  destruct (dict_get COSTS t) as [c |]; [| discriminate]. simpl.
  destruct (int_mul n x); [| discriminate]. simpl.
  destruct (int_mul n c); [| discriminate]. simpl.
  intros H. inversion H. reflexivity.
Qed.

Section WellFormed.

Variable py_int : string -> option Z.
Variable py_float : string -> option float.
Variable now : datetime.

Lemma add_sale_keeps_well_formed (w : world) :
  Forall well_formed (sales w) ->
  Forall well_formed (sales (snd (add_sale py_int py_float now w))).
Proof.
  intros Hw. run_add_sale.
  repeat (step; match goal with
    | |- context [match ?l with [] => _ | _ :: _ => _ end] => destruct l
    | |- context [match parse_datetime ?a ?b with _ => _ end] =>
        destruct (parse_datetime a b) eqn:Hdate
    | |- context [negb (in_keys ?a ?b)] => destruct (in_keys a b) eqn:Ht
    | |- context [match ?f (strip ?a) with Some _ => _ | None => _ end] =>
        destruct (f (strip a))
    | |- context [if ?n <=? 0 then _ else _] => destruct (n <=? 0) eqn:Hn
    | |- context [if flt ?x zero then _ else _] => destruct (flt x zero) eqn:Hx
    | |- context [match compute_fields ?a ?b ?c with _ => _ end] =>
        destruct (compute_fields a b c) eqn:Hfl
    | |- context [if f_alert ?f then _ else _] => destruct (f_alert f)
    end); step; auto.
  all: apply Forall_app; split; [exact Hw |]; constructor; [| constructor];
    unfold well_formed, make_record; simpl;
    repeat split;
    [ exact Ht | apply Z.leb_gt in Hn; exact Hn
    | now apply round2_not_negative | now apply (compute_fields_cost _ _ _ _ Hfl) ].
Qed.

End WellFormed.

Lemma compute_fields_raises (t : string) (n : Z) (x : float) (e : exn) :
  in_keys t VALID_TYPES = true ->
  compute_fields t n x = Raise e ->
  e = OverflowError /\ float_of_int n = Raise OverflowError.
Proof.
  intros Ht. apply in_keys_In in Ht.
  destruct (cost_of_valid t Ht) as (c & Hc & _).
  unfold compute_fields, cost_of, int_mul. rewrite Hc. simpl.
  unfold float_of_int.
  destruct (of_Z n); simpl; intros H; inversion H; auto.
Qed.

(** X9.  The only exceptions that leave [add_sale] are [EOFError], when the
    input ends after a date was accepted and before the five answers were
    read, and [OverflowError], when all five answers were read and the
    quantity is too large for a float; no [ValueError] and no [KeyError]
    ever leaves it.  In both cases the ledger and the file are as before. *)
Theorem X9_add_sale_escapes (py_int : string -> option Z)
    (py_float : string -> option float) (now : datetime) (w : world) (e : exn) :
  fst (add_sale py_int py_float now w) = Raise e ->
  ((e = EOFError
    /\ exists fecha rest dt,
         stdin w = fecha :: rest
         /\ parse_datetime now (strip fecha) = Ok dt
         /\ (List.length rest < 4)%nat)
   \/ (e = OverflowError
       /\ exists fecha t c q p rest n,
            stdin w = answers fecha t c q p rest
            /\ py_int (strip q) = Some n
            /\ float_of_int n = Raise OverflowError))
  /\ sales (snd (add_sale py_int py_float now w)) = sales w
  /\ data_file (snd (add_sale py_int py_float now w)) = data_file w.
Proof.
  run_add_sale.
  repeat (step; match goal with
    | |- context [match ?l with [] => _ | _ :: _ => _ end] => destruct l
    | |- context [match parse_datetime ?a ?b with _ => _ end] =>
        destruct (parse_datetime a b) eqn:Hdate
    | |- context [negb (in_keys ?a ?b)] => destruct (in_keys a b) eqn:Ht
    | |- context [match ?f (strip ?a) with Some _ => _ | None => _ end] =>
        destruct (f (strip a)) eqn:?
    | |- context [if ?n <=? 0 then _ else _] => destruct (n <=? 0) eqn:Hn
    | |- context [if flt ?x zero then _ else _] => destruct (flt x zero) eqn:Hx
    | |- context [match compute_fields ?a ?b ?c with _ => _ end] =>
        destruct (compute_fields a b c) eqn:Hfl
    | |- context [if f_alert ?f then _ else _] => destruct (f_alert f)
    end); step; try discriminate; intros He; inversion He; subst.
  1-4: split; [| split; reflexivity]; left; split; [reflexivity |];
    do 3 eexists; split; [reflexivity |]; split; [eassumption | simpl; lia].
  destruct (compute_fields_raises _ _ _ _ Ht Hfl) as [-> Hq].
  split; [| split; reflexivity]. right. split; [reflexivity |].
  do 7 eexists. split; [reflexivity |]. split; eassumption.
Qed.

Lemma X9_add_sale_escapes_witness :
  ((EOFError = EOFError
    /\ exists fecha rest dt,
         stdin (world0 ["2025-12-29"; "hombre"]) = fecha :: rest
         /\ parse_datetime noon (strip fecha) = Ok dt
         /\ (List.length rest < 4)%nat)
   \/ (EOFError = OverflowError
       /\ exists fecha t c q p rest n,
            stdin (world0 ["2025-12-29"; "hombre"]) = answers fecha t c q p rest
            /\ edge_int (strip q) = Some n
            /\ float_of_int n = Raise OverflowError))
  /\ sales (snd (add_sale edge_int edge_float noon (world0 ["2025-12-29"; "hombre"])))
     = sales (world0 ["2025-12-29"; "hombre"])
  /\ data_file (snd (add_sale edge_int edge_float noon (world0 ["2025-12-29"; "hombre"])))
     = data_file (world0 ["2025-12-29"; "hombre"]).
Proof.
  apply (X9_add_sale_escapes edge_int edge_float noon
           (world0 ["2025-12-29"; "hombre"]) EOFError).
  vm_compute. reflexivity.
Defined.

(** X10.  When the input is already at its end, [add_sale] does not raise:
    the [EOFError] of the first prompt is caught with the errors of the date
    and printed, and the ledger and the file are as before. *)
Theorem X10_add_sale_no_input (py_int : string -> option Z)
    (py_float : string -> option float) (now : datetime) (w : world) :
  stdin w = [] ->
  add_sale py_int py_float now w
  = (Ok tt, mkWorld [] (stdout w ++ [PPrompt prompt_fecha; PError EOFError])
              (sales w) (data_file w)).
Proof.
  intros H. run_add_sale. rewrite H. step. rewrite <- app_assoc. reflexivity.
Qed.

Lemma X10_add_sale_no_input_witness :
  add_sale edge_int edge_float noon (world0 [])
  = (Ok tt, mkWorld [] (stdout (world0 []) ++ [PPrompt prompt_fecha; PError EOFError])
              (sales (world0 [])) (data_file (world0 []))).
Proof.
  apply (X10_add_sale_no_input edge_int edge_float noon (world0 [])).
  reflexivity.
Defined.

(** X11.  A quantity too large for a float passes the checks of [add_sale]
    (it is a positive integer) and then stops it: with a valid date and
    category and a price that is read and not negative, [add_sale] raises
    [OverflowError] after its five prompts, printing nothing else, and the
    ledger and the file are as before. *)
Theorem X11_add_sale_overflow (py_int : string -> option Z)
    (py_float : string -> option float) (now : datetime) (w : world)
    (fecha t c q p : string) (rest : list string) (dt : datetime) (n : Z)
    (x : float) :
  stdin w = answers fecha t c q p rest ->
  parse_datetime now (strip fecha) = Ok dt ->
  in_keys (lower (strip t)) VALID_TYPES = true ->
  py_int (strip q) = Some n ->
  0 < n ->
  float_of_int n = Raise OverflowError ->
  py_float (strip p) = Some x ->
  flt x zero = false ->
  exists prompts,
    add_sale py_int py_float now w
    = (Raise OverflowError,
       mkWorld rest (stdout w ++ prompts) (sales w) (data_file w))
    /\ forallb is_prompt prompts = true
    /\ List.length prompts = 5%nat.
Proof.
  intros Hin Hdate Ht Hq Hn Hov Hp Hx. unfold answers in Hin.
  run_add_sale. rewrite Hin; step; rewrite Hdate; step; rewrite Ht; step.
  rewrite Hq. apply Z.leb_gt in Hn. rewrite Hn. step.
  rewrite Hp, Hx. step.
  assert (Hfl : compute_fields (lower (strip t)) n x = Raise OverflowError).
  { unfold compute_fields, cost_of, int_mul.
    apply in_keys_In in Ht. destruct (cost_of_valid _ Ht) as (c0 & Hc & _).
    rewrite Hc. simpl. rewrite Hov. reflexivity. }
  rewrite Hfl. step.
  eexists. rewrite <- !app_assoc. split; [reflexivity |]. split; reflexivity.
Qed.

Lemma X11_add_sale_overflow_witness :
  exists prompts,
    add_sale edge_int edge_float noon
      (world0 (answers "2025-12-29" "hombre" "rojo" huge_text "40" []))
    = (Raise OverflowError,
       mkWorld [] (stdout (world0 (answers "2025-12-29" "hombre" "rojo" huge_text "40" []))
                   ++ prompts)
         (sales (world0 (answers "2025-12-29" "hombre" "rojo" huge_text "40" [])))
         (data_file (world0 (answers "2025-12-29" "hombre" "rojo" huge_text "40" []))))
    /\ forallb is_prompt prompts = true
    /\ List.length prompts = 5%nat.
Proof.
  apply (X11_add_sale_overflow edge_int edge_float noon
           (world0 (answers "2025-12-29" "hombre" "rojo" huge_text "40" []))
           "2025-12-29" "hombre" "rojo" huge_text "40" []
           (mkDatetime 2025 12 29 0 0 0 0) (10 ^ 309) (of_Z 40)).
  - reflexivity.
  - vm_compute. reflexivity.
  - vm_compute. reflexivity.
  - vm_compute. reflexivity.
  - vm_compute. reflexivity.
  - vm_compute. reflexivity.
  - vm_compute. reflexivity.
  - vm_compute. reflexivity.
Defined.

Lemma fmul_nan (x : float) : fmul x S754_nan = S754_nan.
Proof. destruct x; reflexivity. Qed.

Lemma fsub_nan_l (x : float) : fsub S754_nan x = S754_nan.
Proof. destruct x; reflexivity. Qed.

Lemma fadd_nan (x : float) : fadd x S754_nan = S754_nan.
Proof. destruct x; reflexivity. Qed.

Lemma flt_nan_l (x : float) : flt S754_nan x = false.
Proof. destruct x; reflexivity. Qed.

Lemma fold_from_nan (xs : list float) : fold_left fadd xs S754_nan = S754_nan.
Proof. induction xs as [| x xs IH]; [reflexivity | exact IH]. Qed.

Lemma fold_with_nan (xs : list float) :
  In S754_nan xs -> forall a, fold_left fadd xs a = S754_nan.
Proof.
  induction xs as [| x xs IH]; intros H a; [destruct H |].
  destruct H as [H | H]; simpl.
  - subst x. rewrite fadd_nan. apply fold_from_nan.
  - now apply IH.
Qed.

(** X12.  A price that [float] reads as NaN is not refused: it is not below
    0, so with a valid date, category and quantity [add_sale] registers the
    sale.  The record it appends and writes to the file has NaN as price,
    total and profit, and no alert is raised: the last message is the
    record. *)
Theorem X12_add_sale_nan_price (py_int : string -> option Z)
    (py_float : string -> option float) (now : datetime) (w : world)
    (fecha t c q p : string) (rest : list string) (dt : datetime) (n : Z)
    (qf : float) :
  stdin w = answers fecha t c q p rest ->
  parse_datetime now (strip fecha) = Ok dt ->
  in_keys (lower (strip t)) VALID_TYPES = true ->
  py_int (strip q) = Some n ->
  0 < n ->
  float_of_int n = Ok qf ->
  py_float (strip p) = Some S754_nan ->
  exists w' r prompts,
    add_sale py_int py_float now w = (Ok tt, w')
    /\ sales w' = sales w ++ [r]
    /\ data_file w' = Some (sales w ++ [r])
    /\ stdout w' = stdout w ++ prompts ++ [PVentaRegistrada r]
    /\ forallb is_prompt prompts = true
    /\ precio_unitario r = S754_nan
    /\ total r = S754_nan
    /\ ganancia r = S754_nan
    /\ alerta_precio r = false.
Proof.
  intros Hin Hdate Ht Hq Hn Hqf Hp. unfold answers in Hin.
  pose proof Ht as Ht'. apply in_keys_In in Ht'.
  destruct (cost_of_valid _ Ht') as (c0 & Hc & _).
  pose proof (compute_fields_eq _ c0 n qf S754_nan Hc Hqf) as Hfl.
  rewrite fmul_nan, fsub_nan_l, flt_nan_l in Hfl.
  change (round2 S754_nan) with S754_nan in Hfl.
  set (inv := round2 (fmul qf c0)) in Hfl.
  run_add_sale. rewrite Hin; step; rewrite Hdate; step; rewrite Ht; step.
  rewrite Hq. apply Z.leb_gt in Hn. rewrite Hn. step.
  rewrite Hp, flt_nan_l. step. rewrite Hfl. cbn [f_alert]. step.
  eexists.
  exists (make_record dt (lower (strip t)) (strip c) n S754_nan
            (mkFields c0 S754_nan inv S754_nan false)).
  exists [PPrompt prompt_fecha; PPrompt "Tipo (hombre/mujer/niño): ";
          PPrompt "Color: "; PPrompt "Cantidad vendida: ";
          PPrompt "Precio de venta unitario (Bs): "].
  split; [reflexivity |]. step. rewrite <- !app_assoc.
  split; [reflexivity |]. split; [reflexivity |].
  split; [reflexivity |]. split; [reflexivity |].
  unfold make_record.
  cbn [precio_unitario total ganancia alerta_precio f_total f_ganancia f_alert].
  repeat split.
Qed.

Lemma X12_add_sale_nan_price_witness :
  exists w' r prompts,
    add_sale edge_int edge_float noon
      (world0 (answers "2025-12-29" "hombre" "rojo" "2" "nan" [])) = (Ok tt, w')
    /\ sales w' = sales (world0 (answers "2025-12-29" "hombre" "rojo" "2" "nan" [])) ++ [r]
    /\ data_file w'
       = Some (sales (world0 (answers "2025-12-29" "hombre" "rojo" "2" "nan" [])) ++ [r])
    /\ stdout w'
       = stdout (world0 (answers "2025-12-29" "hombre" "rojo" "2" "nan" []))
         ++ prompts ++ [PVentaRegistrada r]
    /\ forallb is_prompt prompts = true
    /\ precio_unitario r = S754_nan
    /\ total r = S754_nan
    /\ ganancia r = S754_nan
    /\ alerta_precio r = false.
Proof.
  apply (X12_add_sale_nan_price edge_int edge_float noon
           (world0 (answers "2025-12-29" "hombre" "rojo" "2" "nan" []))
           "2025-12-29" "hombre" "rojo" "2" "nan" []
           (mkDatetime 2025 12 29 0 0 0 0) 2 (of_Z 2)).
  - reflexivity.
  - vm_compute. reflexivity.
  - vm_compute. reflexivity.
  - vm_compute. reflexivity.
  - lia.
  - vm_compute. reflexivity.
  - vm_compute. reflexivity.
Defined.

(** X13.  One record with NaN as total (or as profit) among those a summary
    takes makes the total (the accumulated profit) of that summary NaN,
    whatever the other records hold. *)
Theorem X13_nan_in_summary (w : window) (sales : ledger) (r : sale) :
  Forall timed sales ->
  In r (chosen w sales) ->
  exists s,
    summarize w sales = Ok s
    /\ (total r = S754_nan -> sum_total s = S754_nan)
    /\ (ganancia r = S754_nan -> sum_ganancia s = S754_nan).
Proof.
  intros Hs Hr. exists (summary_of (chosen w sales)).
  split; [now apply summarize_eq |].
  unfold summary_of, finish. cbn [sum_total sum_ganancia].
  rewrite total_fold, ganancia_fold.
  split; intros E.
  - rewrite fold_with_nan; [reflexivity |].
    rewrite <- E. now apply in_map.
  - rewrite fold_with_nan; [reflexivity |].
    rewrite <- E. now apply in_map.
Qed.

Lemma X13_nan_in_summary_witness :
  exists s,
    summarize (Day (mkDate 2025 12 29)) (demo_sales ++ [nan_record]) = Ok s
    /\ (total nan_record = S754_nan -> sum_total s = S754_nan)
    /\ (ganancia nan_record = S754_nan -> sum_ganancia s = S754_nan).
Proof.
  apply (X13_nan_in_summary (Day (mkDate 2025 12 29)) (demo_sales ++ [nan_record])).
  - repeat constructor; eexists; vm_compute; reflexivity.
  - vm_compute. auto 10.
Defined.

Lemma summary_loop_raises (selected : datetime -> bool) (sales : ledger) :
  Exists (fun s => sale_time s = Raise ValueError) sales ->
  forall a, summary_loop selected sales a = Raise ValueError.
Proof.
  induction sales as [| s rest IH]; intros H a; [inversion H |].
  cbn [summary_loop]. destruct (sale_time s) as [d | e] eqn:E; simpl.
  - apply IH. inversion H as [? ? H0 | ? ? H0]; subst; [congruence | exact H0].
  - now rewrite (strptime_raises _ _ _ E).
Qed.

Lemma not_timed (sales : ledger) :
  Forall timed sales \/ Exists (fun s => sale_time s = Raise ValueError) sales.
Proof.
  induction sales as [| s rest [IH | IH]].
  - left. constructor.
  - destruct (sale_time s) as [d | e] eqn:E.
    + left. constructor; [now exists d | exact IH].
    + right. left. now rewrite (strptime_raises _ _ _ E) in E.
  - right. now right.
Qed.

(** X14.  The summaries read the timestamp of every record of the ledger,
    not only of those in the window.  A summary that raises raises
    [ValueError], some record of the ledger then carries a timestamp that
    does not parse, and the summary of every other window raises as well;
    and a record, anywhere in the ledger, whose timestamp is ASCII text that
    does not parse makes every summary raise [ValueError]. *)
Theorem X14_summarize_raises (w : window) (sales : ledger) :
  (forall e, summarize w sales = Raise e ->
     e = ValueError
     /\ Exists (fun s => sale_time s = Raise ValueError) sales
     /\ forall w', summarize w' sales = Raise e)
  /\ (Exists (fun s => isascii (datetime_ s) = true
                       /\ sale_time s = Raise ValueError) sales ->
      summarize w sales = Raise ValueError).
Proof.
  assert (Hr : forall w0, Exists (fun s => sale_time s = Raise ValueError) sales ->
                 summarize w0 sales = Raise ValueError).
  { intros w0 H. destruct w0; simpl; unfold daily_summary, weekly_summary;
      now rewrite (summary_loop_raises _ _ H). }
  assert (Hn : forall w0 e, summarize w0 sales = Raise e ->
                 Exists (fun s => sale_time s = Raise ValueError) sales).
  { intros w0 e H. destruct (not_timed sales) as [Ht | Hx]; [| exact Hx].
    rewrite (summarize_eq w0 _ Ht) in H. discriminate. }
  split.
  - intros e H. pose proof (Hn w e H) as Hx. pose proof (Hr w Hx) as H'.
    assert (e = ValueError) by congruence. subst e.
    split; [reflexivity |]. split; [exact Hx |]. intros w'. now apply Hr.
  - intros H. apply Hr. apply Exists_exists in H. apply Exists_exists.
    destruct H as (r & Hin & _ & Hs). now exists r.
Qed.

Lemma iso_week_range (d : datetime) :
  valid_date (year d) (month d) (day d) = true ->
  1 <= iso_week d <= 53.
Proof.
  intros Hv. destruct (isocalendar_iso8601 d Hv) as (_ & Hy & Hw).
  cbv zeta in Hy, Hw.
  pose proof (year_length (iso_year d)) as L.
  set (ord := ymd2ord (year d) (month d) (day d)) in *.
  set (D0 := days_before_year (iso_year d)) in *.
  set (D1 := days_before_year (iso_year d + 1)) in *.
  assert (D1 - D0 <= 366) by (destruct (is_leap (iso_year d)); lia).
  rewrite Hw. clear Hw L.
  Z.to_euclidean_division_equations; lia.
Qed.

(** X15.  The week number asked of [weekly_summary] is not checked: for a
    week below 1 or above 53 no record is taken, and on a ledger whose
    records carry their timestamp the summary returned is the empty one. *)
Theorem X15_week_out_of_range (sales : ledger) (y wk : Z) :
  Forall timed sales ->
  wk < 1 \/ 53 < wk ->
  weekly_summary sales y wk = Ok empty_summary
  /\ filter (in_iso_week y wk) sales = [].
Proof.
  intros Hs Hw.
  assert (He : filter (in_iso_week y wk) sales = []).
  { induction Hs as [| s rest [d Hd] _ IH]; [reflexivity |].
    cbn [filter]. unfold in_iso_week at 1. rewrite Hd.
    pose proof (iso_week_range d (sale_time_valid_date _ _ Hd)) as R.
    replace (iso_week d =? wk) with false by (symmetry; apply Z.eqb_neq; lia).
    rewrite andb_false_r. exact IH. }
  split; [| exact He].
  rewrite (weekly_summary_eq _ _ _ Hs), He. reflexivity.
Qed.

Lemma X15_week_out_of_range_witness :
  weekly_summary demo_sales 2025 54 = Ok empty_summary
  /\ filter (in_iso_week 2025 54) demo_sales = [].
Proof.
  apply (X15_week_out_of_range demo_sales 2025 54).
  - repeat constructor; eexists; vm_compute; reflexivity.
  - lia.
Defined.

(** X16.  A sale registered for a date is found by the summaries: after a
    successful [add_sale] with a valid clock, the new record carries the
    timestamp read, to the second; it is the last of the records that the
    daily summary of its day takes and the last of those that the weekly
    summary of its ISO year and week takes, and on a ledger whose records
    carry their timestamp the daily summary is that of the records taken
    before, followed by the new one. *)
Theorem X16_registered_sale_summarized (py_int : string -> option Z)
    (py_float : string -> option float) (now : datetime) (w : world)
    (fecha t c q p : string) (rest : list string) (dt : datetime) (n : Z)
    (x : float) (fl : fields) :
  valid_datetime now = true ->
  stdin w = answers fecha t c q p rest ->
  parse_datetime now (strip fecha) = Ok dt ->
  1000 <= year dt ->
  in_keys (lower (strip t)) VALID_TYPES = true ->
  py_int (strip q) = Some n ->
  0 < n ->
  py_float (strip p) = Some x ->
  flt x zero = false ->
  compute_fields (lower (strip t)) n x = Ok fl ->
  Forall timed (sales w) ->
  exists w' r,
    add_sale py_int py_float now w = (Ok tt, w')
    /\ sales w' = sales w ++ [r]
    /\ sale_time r = Ok (to_seconds dt)
    /\ on_day (date_of dt) (sales w') = on_day (date_of dt) (sales w) ++ [r]
    /\ filter (in_iso_week (iso_year dt) (iso_week dt)) (sales w')
       = filter (in_iso_week (iso_year dt) (iso_week dt)) (sales w) ++ [r]
    /\ daily_summary (sales w') (date_of dt)
       = Ok (summary_of (on_day (date_of dt) (sales w) ++ [r])).
Proof.
  intros Hnow Hin Hdate _ Ht Hq Hn Hp Hx Hfl Hs. unfold answers in Hin.
  pose proof (parse_datetime_valid now _ _ Hnow Hdate) as Hv.
  set (r := make_record dt (lower (strip t)) (strip c) n x fl).
  assert (Hr : sale_time r = Ok (to_seconds dt)).
  { unfold sale_time, r, make_record. cbn [datetime_].
    apply (strptime_strftime dt Hv). }
  assert (Hrun : exists w', add_sale py_int py_float now w = (Ok tt, w')
                            /\ sales w' = sales w ++ [r]).
  { run_add_sale. rewrite Hin; step; rewrite Hdate; step; rewrite Ht; step.
    rewrite Hq. apply Z.leb_gt in Hn. rewrite Hn. step.
    rewrite Hp, Hx. step. rewrite Hfl. step.
    destruct (f_alert fl); step; eexists; split; reflexivity. }
  destruct Hrun as (w' & Hw' & Hsales).
  exists w', r. split; [exact Hw' |]. split; [exact Hsales |].
  split; [exact Hr |]. rewrite Hsales.
  assert (Hday : on_day (date_of dt) (sales w ++ [r])
                 = on_day (date_of dt) (sales w) ++ [r]).
  { unfold on_day. rewrite filter_app. cbn [filter].
    unfold selects at 2. rewrite Hr. unfold same_day, to_seconds, date_of.
    cbn [year month day]. unfold date_eqb. cbn [d_year d_month d_day].
    now rewrite !Z.eqb_refl. }
  split; [exact Hday |]. split.
  - rewrite filter_app. cbn [filter]. unfold in_iso_week at 2. rewrite Hr.
    unfold iso_year, iso_week.
    rewrite (isocalendar_date_only (to_seconds dt)), (isocalendar_date_only dt).
    cbn [to_seconds year month day]. now rewrite !Z.eqb_refl.
  - rewrite daily_summary_eq, Hday; [reflexivity |].
    apply Forall_app. split; [exact Hs |].
    constructor; [now exists (to_seconds dt) | constructor].
Qed.

Lemma X16_registered_sale_summarized_witness :
  exists w' r,
    add_sale edge_int edge_float noon
      (mkWorld (answers "2025-12-29 18:00" "mujer" "rojo" "2" "40" []) [] demo_sales None)
    = (Ok tt, w')
    /\ sales w'
       = sales (mkWorld (answers "2025-12-29 18:00" "mujer" "rojo" "2" "40" []) []
                  demo_sales None) ++ [r]
    /\ sale_time r = Ok (to_seconds (mkDatetime 2025 12 29 18 0 0 0))
    /\ on_day (date_of (mkDatetime 2025 12 29 18 0 0 0)) (sales w')
       = on_day (date_of (mkDatetime 2025 12 29 18 0 0 0))
           (sales (mkWorld (answers "2025-12-29 18:00" "mujer" "rojo" "2" "40" []) []
                     demo_sales None)) ++ [r]
    /\ filter (in_iso_week (iso_year (mkDatetime 2025 12 29 18 0 0 0))
                 (iso_week (mkDatetime 2025 12 29 18 0 0 0))) (sales w')
       = filter (in_iso_week (iso_year (mkDatetime 2025 12 29 18 0 0 0))
                   (iso_week (mkDatetime 2025 12 29 18 0 0 0)))
           (sales (mkWorld (answers "2025-12-29 18:00" "mujer" "rojo" "2" "40" []) []
                     demo_sales None)) ++ [r]
    /\ daily_summary (sales w') (date_of (mkDatetime 2025 12 29 18 0 0 0))
       = Ok (summary_of
               (on_day (date_of (mkDatetime 2025 12 29 18 0 0 0))
                  (sales (mkWorld (answers "2025-12-29 18:00" "mujer" "rojo" "2" "40" [])
                            [] demo_sales None)) ++ [r])).
Proof.
  apply (X16_registered_sale_summarized edge_int edge_float noon
           (mkWorld (answers "2025-12-29 18:00" "mujer" "rojo" "2" "40" []) []
              demo_sales None)
           "2025-12-29 18:00" "mujer" "rojo" "2" "40" []
           (mkDatetime 2025 12 29 18 0 0 0) 2 (of_Z 40)
           (mkFields (of_Z 30) (of_Z 80) (of_Z 60) (of_Z 20) false)).
  - vm_compute. reflexivity.
  - reflexivity.
  - vm_compute. reflexivity.
  - simpl. lia.
  - vm_compute. reflexivity.
  - vm_compute. reflexivity.
  - lia.
  - vm_compute. reflexivity.
  - vm_compute. reflexivity.
  - vm_compute. reflexivity.
  - repeat constructor; eexists; vm_compute; reflexivity.
Defined.

Lemma demo_sales_well_formed : Forall well_formed demo_sales.
Proof.
  repeat constructor; vm_compute; try reflexivity; discriminate.
Qed.

(** What [demo_data] does, whatever the ledger: it appends the four example
    records, writes the file and prints its message. *)
Lemma demo_data_run (w : world) :
  demo_data w
  = (Ok tt, mkWorld (stdin w) (stdout w ++ [PDatosEjemplo])
              (sales w ++ demo_sales) (Some (sales w ++ demo_sales))).
Proof.
  unfold demo_data, bind, save_data, print. cbn [demo_loop ejemplo].
  unfold bind, lift, append.
  replace (compute_fields "hombre" 3 (of_Z 40))
    with (Ok (mkFields (of_Z 35) (of_Z 120) (of_Z 105) (of_Z 15) false))
    by (vm_compute; reflexivity).
  replace (compute_fields "mujer" 2 (of_Z 28))
    with (Ok (mkFields (of_Z 30) (of_Z 56) (of_Z 60) (of_Z (-4)) true))
    by (vm_compute; reflexivity).
  replace (compute_fields "niño" 4 (of_Z 25))
    with (Ok (mkFields (of_Z 22) (of_Z 100) (of_Z 88) (of_Z 12) false))
    by (vm_compute; reflexivity).
  replace (compute_fields "hombre" 1 (of_Z 30))
    with (Ok (mkFields (of_Z 35) (of_Z 30) (of_Z 35) (of_Z (-5)) true))
    by (vm_compute; reflexivity).
  cbn [stdin stdout sales data_file ret f_costo_unit f_total f_inversion
       f_ganancia f_alert].
  rewrite <- !app_assoc. reflexivity.
Qed.

(** X17.  Every record appended by [add_sale] or [demo_data] has a category
    of the table with the cost of that category, a positive quantity and a
    stored price that is not negative: a ledger of such records stays one
    through both. *)
Theorem X17_ledger_stays_well_formed (py_int : string -> option Z)
    (py_float : string -> option float) (now : datetime) (w : world) :
  Forall well_formed (sales w) ->
  Forall well_formed (sales (snd (add_sale py_int py_float now w)))
  /\ Forall well_formed (sales (snd (demo_data w))).
Proof.
  intros H. split; [now apply add_sale_keeps_well_formed |].
  rewrite demo_data_run. cbn [snd sales].
  apply Forall_app. split; [exact H | apply demo_sales_well_formed].
Qed.

Lemma X17_ledger_stays_well_formed_witness :
  Forall well_formed
    (sales (snd (add_sale edge_int edge_float noon
                   (mkWorld (answers "now" "mujer" "rojo" "2" "40" []) []
                      demo_sales None))))
  /\ Forall well_formed
       (sales (snd (demo_data (mkWorld (answers "now" "mujer" "rojo" "2" "40" []) []
                                 demo_sales None)))).
Proof.
  apply (X17_ledger_stays_well_formed edge_int edge_float noon
           (mkWorld (answers "now" "mujer" "rojo" "2" "40" []) [] demo_sales None)).
  apply demo_sales_well_formed.
Defined.

(** X18.  [demo_data] never fails and does not look at the ledger it is
    given: each run appends the same four records, in the order of the
    example, writes the whole ledger to the file and prints one message; run
    twice, the ledger holds the four records twice. *)
Theorem X18_demo_data_appends (w : world) :
  demo_data w
  = (Ok tt, mkWorld (stdin w) (stdout w ++ [PDatosEjemplo])
              (sales w ++ demo_sales) (Some (sales w ++ demo_sales)))
  /\ List.length demo_sales = 4%nat
  /\ map datetime_ demo_sales
     = ["2025-12-29 10:15:00"; "2025-12-29 12:30:00"; "2025-12-28 09:00:00";
        "2025-12-30 14:00:00"]
  /\ sales (snd (demo_data (snd (demo_data w))))
     = sales w ++ demo_sales ++ demo_sales.
Proof.
  split; [apply demo_data_run |]. split; [reflexivity |].
  split; [reflexivity |].
  rewrite !demo_data_run. cbn [snd sales]. now rewrite <- app_assoc.
Qed.

Lemma synced_iff (w : world) :
  synced w
  <-> data_file w = Some (sales w) \/ (data_file w = None /\ sales w = []).
Proof.
  unfold synced, load_data. destruct (data_file w) as [l |]; simpl; split.
  - intros H. left. inversion H. reflexivity.
  - intros [H | [H _]]; [inversion H; reflexivity | discriminate].
  - intros H. right. inversion H. split; reflexivity.
  - intros [H | [_ H]]; [discriminate | now rewrite H].
Qed.

(** X19.  Write-through: when the ledger in memory is the one [load_data]
    reads from the file (as it is when the program starts, with the list
    that [load_data] returned), it is still so after [add_sale], however
    that ends, and after [demo_data]; and after a run of [add_sale] that
    changed the ledger the file exists and holds the whole ledger. *)
Theorem X19_file_follows_ledger (py_int : string -> option Z)
    (py_float : string -> option float) (now : datetime) (w : world) :
  synced w ->
  synced (snd (add_sale py_int py_float now w))
  /\ synced (snd (demo_data w))
  /\ (sales (snd (add_sale py_int py_float now w)) <> sales w ->
      data_file (snd (add_sale py_int py_float now w))
      = Some (sales (snd (add_sale py_int py_float now w))))
  /\ (forall l, fst (load_data w) = Ok l ->
        synced (mkWorld (stdin w) (stdout w) l (data_file w))).
Proof.
  intros H. apply synced_iff in H.
  split; [| split; [| split]].
  - apply synced_iff.
    destruct (add_sale_ledger py_int py_float now w)
      as [[Es Ef] | (r & _ & Es & Ef & _)].
    + rewrite Es, Ef. exact H.
    + rewrite Es, Ef. now left.
  - apply synced_iff. rewrite demo_data_run. now left.
  - intros Hne.
    destruct (add_sale_ledger py_int py_float now w)
      as [[Es Ef] | (r & _ & Es & Ef & _)]; [contradiction |].
    now rewrite Es, Ef.
  - intros l Hl. unfold synced, load_data in *. cbn [data_file sales].
    destruct (data_file w); exact Hl.
Qed.

Lemma X19_file_follows_ledger_witness :
  synced (snd (add_sale edge_int edge_float noon
                 (world0 (answers "now" "mujer" "rojo" "2" "40" []))))
  /\ synced (snd (demo_data (world0 (answers "now" "mujer" "rojo" "2" "40" []))))
  /\ (sales (snd (add_sale edge_int edge_float noon
                    (world0 (answers "now" "mujer" "rojo" "2" "40" []))))
      <> sales (world0 (answers "now" "mujer" "rojo" "2" "40" [])) ->
      data_file (snd (add_sale edge_int edge_float noon
                        (world0 (answers "now" "mujer" "rojo" "2" "40" []))))
      = Some (sales (snd (add_sale edge_int edge_float noon
                            (world0 (answers "now" "mujer" "rojo" "2" "40" []))))))
  /\ (forall l, fst (load_data (world0 (answers "now" "mujer" "rojo" "2" "40" []))) = Ok l ->
        synced (mkWorld (stdin (world0 (answers "now" "mujer" "rojo" "2" "40" [])))
                  (stdout (world0 (answers "now" "mujer" "rojo" "2" "40" []))) l
                  (data_file (world0 (answers "now" "mujer" "rojo" "2" "40" []))))).
Proof.
  apply (X19_file_follows_ledger edge_int edge_float noon
           (world0 (answers "now" "mujer" "rojo" "2" "40" []))).
  reflexivity.
Defined.

(** ** The menu *)

Lemma extends_intro (s s' : session) (used : list string) (more : list shown)
    (added : ledger) (files : list (string * ledger)) :
  m_stdin s = used ++ m_stdin s' ->
  m_stdout s' = m_stdout s ++ more ->
  m_sales s' = m_sales s ++ added ->
  m_exported s' = m_exported s ++ files ->
  extends s s'.
Proof.
  intros A B C D. unfold extends.
  split; [now exists used |]. split; [now exists more |].
  split; [now exists added | now exists files].
Qed.

Lemma extends_refl (s : session) : extends s s.
Proof.
  repeat split; [exists [] | exists [] | exists [] | exists []];
    now rewrite ?app_nil_r.
Qed.

Lemma extends_trans (a b c : session) :
  extends a b -> extends b c -> extends a c.
Proof.
  intros ((u1 & U1) & (o1 & O1) & (l1 & L1) & (f1 & F1))
         ((u2 & U2) & (o2 & O2) & (l2 & L2) & (f2 & F2)).
  repeat split.
  - exists (u1 ++ u2). now rewrite U1, U2, app_assoc.
  - exists (o1 ++ o2). now rewrite O2, O1, app_assoc.
  - exists (l1 ++ l2). now rewrite L2, L1, app_assoc.
  - exists (f1 ++ f2). now rewrite F2, F1, app_assoc.
Qed.

Section AddSaleInput.

Variable py_int : string -> option Z.
Variable py_float : string -> option float.
Variable now : datetime.

Lemma add_sale_stdin (w : world) :
  exists used, stdin w = used ++ stdin (snd (add_sale py_int py_float now w)).
Proof.
  run_add_sale. add_sale_cases.
  all: try (exists []; reflexivity).
  all: try (eexists [_]; reflexivity).
  all: try (eexists [_; _]; reflexivity).
  all: try (eexists [_; _; _]; reflexivity).
  all: try (eexists [_; _; _; _]; reflexivity).
  all: try (eexists [_; _; _; _; _]; reflexivity).
Qed.

End AddSaleInput.

Lemma keeps_sret {A : Type} (a : A) : keeps (sret a).
Proof. intros s. split; [apply extends_refl | auto]. Qed.

Lemma keeps_slift {A : Type} (r : result A) : keeps (slift r).
Proof. intros s. split; [apply extends_refl | auto]. Qed.

Lemma keeps_the_sales : keeps the_sales.
Proof. intros s. split; [apply extends_refl | auto]. Qed.

Lemma keeps_show (x : shown) : keeps (show x).
Proof.
  intros s. split; [| auto].
  repeat split; cbn; [exists [] | exists [x] | exists [] | exists []];
    now rewrite ?app_nil_r.
Qed.

Lemma keeps_ask (prompt : string) : keeps (ask prompt).
Proof.
  intros s. unfold ask. destruct s as [inp out l f ex]. cbn.
  destruct inp as [| line rest]; cbn; (split; [| auto]); repeat split; cbn.
  - now exists [].
  - now exists [SAsk prompt].
  - exists []. now rewrite app_nil_r.
  - exists []. now rewrite app_nil_r.
  - now exists [line].
  - now exists [SAsk prompt].
  - exists []. now rewrite app_nil_r.
  - exists []. now rewrite app_nil_r.
Qed.

Lemma keeps_bind {A B : Type} (m : SM A) (k : A -> SM B) :
  keeps m -> (forall a, keeps (k a)) -> keeps (sbind m k).
Proof.
  intros Hm Hk s. unfold sbind. specialize (Hm s).
  destruct (m s) as [[a | e] s1]; cbn in *; [| exact Hm].
  specialize (Hk a s1). destruct Hm as [E1 F1], Hk as [E2 F2].
  split; [now apply (extends_trans _ s1) | auto].
Qed.

Lemma keeps_attempt {A : Type} (m : SM A) : keeps m -> keeps (sattempt m).
Proof.
  intros Hm s. unfold sattempt. specialize (Hm s).
  destruct (m s) as [r s1]. exact Hm.
Qed.

Lemma keeps_call (m : M unit) :
  (forall w, exists used, stdin w = used ++ stdin (snd (m w))) ->
  (forall w, (sales (snd (m w)) = sales w /\ data_file (snd (m w)) = data_file w)
             \/ (exists added, sales (snd (m w)) = sales w ++ added
                               /\ data_file (snd (m w)) = Some (sales w ++ added))) ->
  keeps (call m).
Proof.
  intros Hin Hled s. unfold call.
  specialize (Hin (mkWorld (m_stdin s) [] (m_sales s) None)).
  specialize (Hled (mkWorld (m_stdin s) [] (m_sales s) None)).
  destruct (m (mkWorld (m_stdin s) [] (m_sales s) None)) as [r w]. cbn in *.
  destruct Hin as [used Hin].
  assert (Hs : exists added, sales w = m_sales s ++ added).
  { destruct Hled as [[E _] | (added & E & _)];
      [exists []; now rewrite app_nil_r | now exists added]. }
  split.
  - repeat split; cbn.
    + now exists used.
    + now exists (map SFrom (stdout w)).
    + exact Hs.
    + exists []. now rewrite app_nil_r.
  - unfold file_follows. cbn.
    destruct Hled as [[E F] | (added & E & F)]; rewrite F, E; auto.
Qed.

Lemma keeps_list_loop (items : list (Z * sale)) : keeps (list_loop items).
Proof.
  induction items as [| [i r] rest IH]; cbn [list_loop].
  - apply keeps_sret.
  - apply keeps_bind; [apply keeps_show | intros _; exact IH].
Qed.

Create HintDb menu discriminated.

#[local] Hint Extern 0 (keeps (sret _)) => apply keeps_sret : menu.
#[local] Hint Extern 0 (keeps (show _)) => apply keeps_show : menu.
#[local] Hint Extern 0 (keeps (ask _)) => apply keeps_ask : menu.
#[local] Hint Extern 0 (keeps (slift _)) => apply keeps_slift : menu.
#[local] Hint Extern 0 (keeps the_sales) => apply keeps_the_sales : menu.
#[local] Hint Extern 0 (keeps (list_loop _)) => apply keeps_list_loop : menu.
#[local] Hint Extern 0 (keeps (sattempt _)) => apply keeps_attempt : menu.
#[local] Hint Extern 0 (keeps (sbind _ _)) => apply keeps_bind; [| intros ?] : menu.
#[local] Hint Extern 0 (keeps (if ?b then _ else _)) => destruct b eqn:? : menu.
#[local] Hint Extern 0 (keeps (match ?x with _ => _ end)) => destruct x : menu.

Lemma keeps_list_sales : keeps list_sales.
Proof. unfold list_sales. auto 20 with nocore menu. Qed.

Section MenuFacts.

Variable py_int : string -> option Z.
Variable py_float : string -> option float.
Variable clock : nat -> datetime.
Variable is_data_file : string -> bool.

Lemma keeps_add_sale (now : datetime) : keeps (call (add_sale py_int py_float now)).
Proof.
  apply keeps_call.
  - apply add_sale_stdin.
  - intros w.
    destruct (add_sale_ledger py_int py_float now w)
      as [H | (r & _ & Es & Ef & _)]; [now left | right].
    now exists [r].
Qed.

Lemma keeps_demo_data : keeps (call demo_data).
Proof.
  apply keeps_call; intros w; rewrite demo_data_run;
    cbn [snd stdin sales data_file].
  - now exists [].
  - right. now exists demo_sales.
Qed.

Lemma keeps_export_csv (filename : string) :
  keeps (export_csv is_data_file filename).
Proof.
  intros [inp out l f ex]. unfold export_csv, sbind, the_sales, write_csv, show.
  cbn [m_sales m_stdin m_stdout m_data_file m_exported snd].
  destruct l as [| r rest]; cbn [m_sales m_stdin m_stdout m_data_file m_exported snd].
  - split; [| auto]. apply (extends_intro _ _ [] [SNoHayDatos] [] []);
      cbn [m_sales m_stdin m_stdout m_data_file m_exported];
      rewrite ?app_nil_r; reflexivity.
  - split.
    + apply (extends_intro _ _ [] [SExportado filename] [] [(filename, r :: rest)]);
        cbn [m_sales m_stdin m_stdout m_data_file m_exported];
        rewrite ?app_nil_r; reflexivity.
    + unfold file_follows. cbn [m_sales m_data_file].
      destruct (is_data_file filename); [| auto].
      intros _. split; [reflexivity | discriminate].
Qed.

Lemma keeps_resumen_diario (turn : nat) : keeps (resumen_diario clock turn).
Proof. unfold resumen_diario. auto 30 with nocore menu. Qed.

Lemma keeps_resumen_semanal : keeps (resumen_semanal py_int).
Proof. unfold resumen_semanal. auto 30 with nocore menu. Qed.

End MenuFacts.

#[local] Hint Extern 0 (keeps list_sales) => apply keeps_list_sales : menu.
#[local] Hint Extern 0 (keeps (call (add_sale _ _ _))) => apply keeps_add_sale : menu.
#[local] Hint Extern 0 (keeps (call demo_data)) => apply keeps_demo_data : menu.
#[local] Hint Extern 0 (keeps (export_csv _ _)) => apply keeps_export_csv : menu.
#[local] Hint Extern 0 (keeps (resumen_diario _ _)) => apply keeps_resumen_diario : menu.
#[local] Hint Extern 0 (keeps (resumen_semanal _)) => apply keeps_resumen_semanal : menu.

Lemma ask_then_shorter {B : Type} (prompt : string) (k : string -> SM B)
    (s : session) (b : B) :
  (forall a, keeps (k a)) ->
  fst (sbind (ask prompt) k s) = Ok b ->
  (List.length (m_stdin (snd (sbind (ask prompt) k s))) < List.length (m_stdin s))%nat.
Proof.
  intros Hk. unfold sbind, ask. destruct (m_stdin s) as [| line rest] eqn:E;
    [discriminate |]. intros _.
  match goal with |- context [k line ?s1] =>
    destruct (Hk line s1) as [((used & U) & _) _]; cbn [m_stdin] in U end.
  rewrite U at 2. cbn [List.length]. rewrite length_app. lia.
Qed.

Lemma never_true {A : Type} (m : SM A) (s : session) :
  fst (sbind m (fun _ => sret false) s) <> Ok true.
Proof.
  unfold sbind, sret. destruct (m s) as [[a | e] s']; cbn; discriminate.
Qed.

Lemma never_true_bind {A : Type} (m : SM A) (k : A -> SM bool) :
  (forall a s, fst (k a s) <> Ok true) ->
  forall s, fst (sbind m k s) <> Ok true.
Proof.
  intros Hk s. unfold sbind. destruct (m s) as [[a | e] s1]; cbn;
    [apply Hk | discriminate].
Qed.

Section TurnFacts.

Variable py_int : string -> option Z.
Variable py_float : string -> option float.
Variable clock : nat -> datetime.
Variable is_data_file : string -> bool.

Lemma keeps_turn (turn : nat) :
  keeps (turn_of_menu py_int py_float clock is_data_file turn).
Proof. unfold turn_of_menu. auto 30 with nocore menu. Qed.

Lemma turn_shorter (turn : nat) (s : session) (b : bool) :
  fst (turn_of_menu py_int py_float clock is_data_file turn s) = Ok b ->
  (List.length (m_stdin (snd (turn_of_menu py_int py_float clock is_data_file turn s)))
   < List.length (m_stdin s))%nat.
Proof.
  unfold turn_of_menu. unfold sbind at 1. cbn [show].
  intros H. apply ask_then_shorter in H; [exact H |].
  intros a. auto 30 with nocore menu.
Qed.

Lemma turn_break (turn : nat) (s s' : session) :
  turn_of_menu py_int py_float clock is_data_file turn s = (Ok true, s') ->
  exists line rest,
    m_stdin s = line :: rest
    /\ strip line = "0"
    /\ s' = mkSession rest (m_stdout s ++ [SMenu; SAsk "> "; SSaliendo]) (m_sales s)
              (m_data_file s) (m_exported s).
Proof.
  unfold turn_of_menu. unfold sbind at 1. cbn [show]. unfold sbind at 1.
  unfold ask. cbn [m_stdin m_stdout m_sales m_data_file m_exported].
  destruct (m_stdin s) as [| line rest]; [discriminate |].
  repeat match goal with
    | |- context [if String.eqb ?a ?b then _ else _] =>
        destruct (String.eqb a b) eqn:?
    end;
    try (intros H; exfalso; apply (f_equal fst) in H; cbn [fst] in H; revert H;
         first [apply never_true | apply never_true_bind; intros; apply never_true]).
  unfold sbind, show, sret. cbn [m_stdin m_stdout m_sales m_data_file m_exported].
  intros H. inversion H. exists line, rest. split; [reflexivity |].
  split; [now apply String.eqb_eq |]. now rewrite <- !app_assoc.
Qed.

Lemma loop_ends (fuel : nat) :
  forall turn s,
    (List.length (m_stdin s) < fuel)%nat ->
    exists r s', main_loop py_int py_float clock is_data_file fuel turn s = Some (r, s').
Proof.
  induction fuel as [| fuel IH]; intros turn s Hlen; [lia |].
  cbn [main_loop].
  pose proof (turn_shorter turn s) as Hs.
  destruct (turn_of_menu py_int py_float clock is_data_file turn s)
    as [[[|] | e] s1]; cbn [fst snd] in Hs.
  - now exists (Ok tt), s1.
  - apply IH. specialize (Hs false eq_refl). lia.
  - now exists (Raise e), s1.
Qed.

Lemma loop_more_fuel (fuel : nat) :
  forall turn s x,
    main_loop py_int py_float clock is_data_file fuel turn s = Some x ->
    forall extra,
      main_loop py_int py_float clock is_data_file (fuel + extra) turn s = Some x.
Proof.
  induction fuel as [| fuel IH]; intros turn s x H extra; [discriminate |].
  cbn [main_loop Nat.add] in *.
  destruct (turn_of_menu py_int py_float clock is_data_file turn s)
    as [[[|] | e] s1]; try exact H.
  now apply IH.
Qed.

Lemma loop_keeps (fuel : nat) :
  forall turn s r s',
    main_loop py_int py_float clock is_data_file fuel turn s = Some (r, s') ->
    extends s s'
    /\ (file_follows s -> file_follows s')
    /\ (r = Ok tt ->
        (exists out, m_stdout s' = out ++ [SSaliendo])
        /\ exists line, In line (m_stdin s) /\ strip line = "0").
Proof.
  induction fuel as [| fuel IH]; intros turn s r s' H; [discriminate |].
  cbn [main_loop] in H.
  destruct (keeps_turn turn s) as [E F].
  pose proof (turn_break turn s) as B.
  destruct (turn_of_menu py_int py_float clock is_data_file turn s)
    as [[[|] | e] s1]; cbn [fst snd] in *.
  - inversion H; subst. split; [exact E |]. split; [exact F |]. intros _.
    destruct (B s' eq_refl) as (line & rest & Hin & H0 & Hs').
    split.
    + exists (m_stdout s ++ [SMenu; SAsk "> "]). rewrite Hs'. cbn [m_stdout].
      now rewrite <- app_assoc.
    + exists line. rewrite Hin. split; [now left | exact H0].
  - destruct (IH _ _ _ _ H) as (E' & F' & K).
    split; [now apply (extends_trans _ s1) |]. split; [auto |].
    intros Hr. destruct (K Hr) as [Hout (line & Hin & H0)].
    split; [exact Hout |]. exists line. split; [| exact H0].
    destruct E as ((used & U) & _). rewrite U. apply in_or_app. now right.
  - inversion H; subst. split; [exact E |]. split; [exact F |]. discriminate.
Qed.

End TurnFacts.

Lemma not_dash_digit : not_dash is_digit.
Proof. ascii_cases. Qed.

Lemma not_dash_range (lo hi : ascii) :
  in_range lo hi "-" = false -> not_dash (in_range lo hi).
Proof.
  intros H c Hc. destruct (Ascii.eqb c "-") eqn:E; [| reflexivity].
  apply Ascii.eqb_eq in E. subst c. congruence.
Qed.

Lemma not_dash_char (a : ascii) : Ascii.eqb a "-" = false -> not_dash (is_char a).
Proof.
  intros H c Hc. unfold is_char in Hc. apply Ascii.eqb_eq in Hc. now subst c.
Qed.

Lemma dashless_one (f : ascii -> bool) : not_dash f -> dashless (one f).
Proof.
  intros Hf s v r. unfold one. destruct s as [| c s']; [intros [] |].
  destruct (f c) eqn:E; [| intros []]. intros [H | []]. inversion H; subst.
  cbn [count]. now rewrite (Hf _ E).
Qed.

Lemma dashless_two (f g : ascii -> bool) :
  not_dash f -> not_dash g -> dashless (two f g).
Proof.
  intros Hf Hg s v r. unfold two. destruct s as [| c [| c' s']]; try (intros []).
  destruct (f c) eqn:E; [| intros []]. destruct (g c') eqn:E'; [| intros []].
  intros [H | []]. inversion H; subst.
  cbn [count]. now rewrite (Hf _ E), (Hg _ E').
Qed.

Lemma dashless_alt (p q : parser Z) : dashless p -> dashless q -> dashless (alt p q).
Proof.
  intros Hp Hq s v r H. unfold alt in H. apply in_app_or in H.
  destruct H; [now apply (Hp s v) | now apply (Hq s v)].
Qed.

Lemma dashless_Y : dashless field_Y.
Proof.
  intros s v r. unfold field_Y.
  destruct s as [| a [| b [| c [| d s']]]]; try (intros []).
  destruct (is_digit a) eqn:Ea; [| intros []].
  destruct (is_digit b) eqn:Eb; [| intros []].
  destruct (is_digit c) eqn:Ec; [| intros []].
  destruct (is_digit d) eqn:Ed; [| intros []].
  intros [H | []]. inversion H; subst. cbn [count].
  now rewrite (not_dash_digit _ Ea), (not_dash_digit _ Eb), (not_dash_digit _ Ec),
    (not_dash_digit _ Ed).
Qed.

Lemma dashless_m : dashless field_m.
Proof.
  unfold field_m.
  repeat first [ apply dashless_alt | apply dashless_two | apply dashless_one
               | apply not_dash_digit | apply not_dash_range; reflexivity
               | apply not_dash_char; reflexivity ].
Qed.

Lemma dashless_d : dashless field_d.
Proof.
  unfold field_d.
  repeat first [ apply dashless_alt | apply dashless_two | apply dashless_one
               | apply not_dash_digit | apply not_dash_range; reflexivity
               | apply not_dash_char; reflexivity ].
  intros s v r. destruct s as [| c s']; [intros [] |].
  destruct (is_char " " c) eqn:E; [| intros []]. intros H.
  apply (dashless_one (in_range "1" "9")) in H; [| apply not_dash_range; reflexivity].
  cbn [count]. rewrite (not_dash_char " " eq_refl c E). exact H.
Qed.

(** A text read as a date in the form [%Y-%m-%d] has two hyphens. *)
Lemma strptime_two_dashes (s : string) (dt : datetime) :
  strptime s "%Y-%m-%d" = Ok dt -> count "-" s = 2.
Proof.
  unfold strptime.
  destruct (matches (tokenize "%Y-%m-%d") found_default s) as [| [f r] l] eqn:E;
    [discriminate |].
  destruct r; [| discriminate]. intros _.
  assert (H : In (f, EmptyString) (matches (tokenize "%Y-%m-%d") found_default s))
    by (rewrite E; now left).
  clear E. change (tokenize "%Y-%m-%d")
    with [TDirective "Y"; TLiteral "-"; TDirective "m"; TLiteral "-"; TDirective "d"] in H.
  cbn [matches] in H.
  change (is_char "%" "Y") with false in H. change (is_char "%" "m") with false in H.
  change (is_char "%" "d") with false in H.
  change (field_of "Y") with (Some field_Y) in H.
  change (field_of "m") with (Some field_m) in H.
  change (field_of "d") with (Some field_d) in H.
  cbv iota in H.
  apply in_flat_map in H. destruct H as ([v1 r1] & H1 & H). cbn [fst snd] in H.
  apply dashless_Y in H1. rewrite H1. clear H1.
  destruct r1 as [| c1 r1]; [destruct H |].
  destruct (is_char (lower_char "-") (lower_char c1)) eqn:E1; [| destruct H].
  assert (D1 : Ascii.eqb c1 "-" = true).
  { revert E1. clear. destruct c1 as [[] [] [] [] [] [] [] []]; vm_compute; congruence. }
  apply in_flat_map in H. destruct H as ([v2 r2] & H2 & H). cbn [fst snd] in H.
  apply dashless_m in H2. cbn [count]. rewrite D1, H2. clear H2.
  destruct r2 as [| c2 r2]; [destruct H |].
  destruct (is_char (lower_char "-") (lower_char c2)) eqn:E2; [| destruct H].
  assert (D2 : Ascii.eqb c2 "-" = true).
  { revert E2. clear. destruct c2 as [[] [] [] [] [] [] [] []]; vm_compute; congruence. }
  apply in_flat_map in H. destruct H as ([v3 r3] & H3 & H). cbn [fst snd] in H.
  apply dashless_d in H3. cbn [count]. rewrite D2, H3.
  destruct H as [H | []]. inversion H; subst. reflexivity.
Qed.

Lemma count_no_dash (s : string) : contains "-" s = false -> count "-" s = 0.
Proof.
  induction s as [| c s IH]; cbn [contains count]; [reflexivity |].
  destruct (Ascii.eqb c "-"); [discriminate |]. cbn [orb]. intros H.
  now rewrite (IH H).
Qed.

Lemma split_no_dash (s : string) : contains "-" s = false -> split "-" s = [s].
Proof.
  induction s as [| c s IH]; cbn [contains split]; [reflexivity |].
  destruct (Ascii.eqb c "-"); [discriminate |]. cbn [orb]. intros H.
  now rewrite (IH H).
Qed.

Lemma one_dash (y w : string) :
  contains "-" y = false -> contains "-" w = false ->
  contains "-" (y ++ String "-" w) = true
  /\ count "-" (y ++ String "-" w) = 1
  /\ split "-" (y ++ String "-" w) = [y; w].
Proof.
  intros Hy Hw. induction y as [| c y IH].
  - cbn [String.append contains count split]. change (Ascii.eqb "-" "-") with true.
    cbn [orb]. rewrite (count_no_dash _ Hw), (split_no_dash _ Hw). auto.
  - cbn [contains] in Hy. cbn [String.append contains count split].
    destruct (Ascii.eqb c "-"); [discriminate |]. cbn [orb] in *.
    destruct (IH Hy) as (A & B & C). rewrite A, B, C. auto.
Qed.

Section YearWeek.

Variable py_int : string -> option Z.

Lemma year_week_date (s : string) (dt : datetime) :
  strptime s "%Y-%m-%d" = Ok dt ->
  year_week py_int s = Ok (iso_year dt, iso_week dt).
Proof.
  intros H. unfold year_week. rewrite (strptime_two_dashes _ _ H).
  change (2 =? 1) with false. rewrite andb_false_r. rewrite H.
  cbn [rbind]. unfold iso_year, iso_week.
  destruct (isocalendar dt) as [[y w] wd]. reflexivity.
Qed.

Lemma year_week_not_date (s : string) :
  count "-" s <> 2 ->
  (do dt <- strptime s "%Y-%m-%d";
   let '(year, week, _) := isocalendar dt in Ok (year, week))%result
  = Raise ValueError.
Proof.
  intros H. destruct (strptime s "%Y-%m-%d") as [dt | e] eqn:E.
  - apply strptime_two_dashes in E. contradiction.
  - now rewrite (strptime_raises _ _ _ E).
Qed.

(** X25.  What option 3 of the menu takes as a week.  A text with a single
    hyphen is a year and a week only when exactly two characters follow the
    hyphen: both parts are then read by [int], and the text is refused when
    either is not an integer; with one or three characters after the hyphen
    (2026-1) it is refused.  A text that reads as a date YYYY-MM-DD stands
    for the ISO year and week of that date, and a text without a hyphen is
    refused.  A refusal is a [ValueError]. *)
Theorem X25_year_week_entry (s : string) :
  (forall y w,
     s = (y ++ "-" ++ w)%string ->
     contains "-" y = false ->
     contains "-" w = false ->
     year_week py_int s
     = if len w =? 2 then
         match py_int y, py_int w with
         | Some year, Some week => Ok (year, week)
         | _, _ => Raise ValueError
         end
       else Raise ValueError)
  /\ (forall dt,
        strptime s "%Y-%m-%d" = Ok dt ->
        year_week py_int s = Ok (iso_year dt, iso_week dt))
  /\ (contains "-" s = false -> year_week py_int s = Raise ValueError).
Proof.
  split; [| split].
  - intros y w -> Hy Hw. destruct (one_dash y w Hy Hw) as (A & B & C).
    unfold year_week.
    change (y ++ "-" ++ w)%string with (y ++ String "-" w)%string.
    rewrite A, B, C. cbn [last andb].
    change (1 =? 1) with true. rewrite andb_true_r.
    destruct (len w =? 2).
    + unfold int. destruct (py_int y); [| reflexivity].
      destruct (py_int w); reflexivity.
    + apply year_week_not_date. rewrite B. lia.
  - apply year_week_date.
  - intros H. unfold year_week. rewrite H. cbn [andb].
    apply year_week_not_date. rewrite (count_no_dash _ H). lia.
Qed.

End YearWeek.

Lemma reads_sret {A : Type} (a : A) : reads_only (sret a).
Proof. intros s. auto. Qed.

Lemma reads_slift {A : Type} (r : result A) : reads_only (slift r).
Proof. intros s. auto. Qed.

Lemma reads_the_sales : reads_only the_sales.
Proof. intros s. auto. Qed.

Lemma reads_show (x : shown) : reads_only (show x).
Proof. intros s. auto. Qed.

Lemma reads_ask (prompt : string) : reads_only (ask prompt).
Proof. intros s. unfold ask. destruct (m_stdin s); auto. Qed.

Lemma reads_bind {A B : Type} (m : SM A) (k : A -> SM B) :
  reads_only m -> (forall a, reads_only (k a)) -> reads_only (sbind m k).
Proof.
  intros Hm Hk s. unfold sbind. specialize (Hm s).
  destruct (m s) as [[a | e] s1]; cbn [snd] in *; [| exact Hm].
  destruct (Hk a s1) as (A1 & A2 & A3), Hm as (B1 & B2 & B3).
  repeat split; congruence.
Qed.

Lemma reads_attempt {A : Type} (m : SM A) : reads_only m -> reads_only (sattempt m).
Proof.
  intros Hm s. unfold sattempt. specialize (Hm s).
  destruct (m s) as [r s1]. exact Hm.
Qed.

Lemma reads_list_loop (items : list (Z * sale)) : reads_only (list_loop items).
Proof.
  induction items as [| [i r] rest IH]; cbn [list_loop].
  - apply reads_sret.
  - apply reads_bind; [apply reads_show | intros _; exact IH].
Qed.

#[local] Hint Extern 0 (reads_only (sret _)) => apply reads_sret : menu.
#[local] Hint Extern 0 (reads_only (show _)) => apply reads_show : menu.
#[local] Hint Extern 0 (reads_only (ask _)) => apply reads_ask : menu.
#[local] Hint Extern 0 (reads_only (slift _)) => apply reads_slift : menu.
#[local] Hint Extern 0 (reads_only the_sales) => apply reads_the_sales : menu.
#[local] Hint Extern 0 (reads_only (list_loop _)) => apply reads_list_loop : menu.
#[local] Hint Extern 0 (reads_only (sattempt _)) => apply reads_attempt : menu.
#[local] Hint Extern 0 (reads_only (sbind _ _)) => apply reads_bind; [| intros ?] : menu.
#[local] Hint Extern 0 (reads_only (if ?b then _ else _)) => destruct b eqn:? : menu.
#[local] Hint Extern 0 (reads_only (match ?x with _ => _ end)) => destruct x : menu.

Section MainFacts.

Variable py_int : string -> option Z.
Variable py_float : string -> option float.
Variable clock : nat -> datetime.
Variable is_data_file : string -> bool.

(** The turn of the menu after the choice [o] was read. *)
Lemma turn_read (turn : nat) (s : session) (o : string) (rest : list string) :
  m_stdin s = o :: rest ->
  String.eqb (strip o) "1" = false ->
  String.eqb (strip o) "5" = false ->
  String.eqb (strip o) "6" = false ->
  m_sales (snd (turn_of_menu py_int py_float clock is_data_file turn s))
  = m_sales s
  /\ m_data_file (snd (turn_of_menu py_int py_float clock is_data_file turn s))
     = m_data_file s
  /\ m_exported (snd (turn_of_menu py_int py_float clock is_data_file turn s))
     = m_exported s.
Proof.
  intros Hin H1 H5 H6.
  destruct (turn_of_menu py_int py_float clock is_data_file turn s) as [r s'] eqn:E.
  cbn [snd]. revert E.
  unfold turn_of_menu. unfold sbind at 1. cbn [show]. unfold sbind at 1.
  unfold ask at 1. cbn [m_stdin m_stdout m_sales m_data_file m_exported].
  rewrite Hin, H1, H5, H6.
  repeat match goal with
    | |- context [if String.eqb ?a ?b then _ else _] =>
        destruct (String.eqb a b) eqn:?
    end;
    intros E;
    match type of E with
    | ?m ?st = _ =>
        assert (R : reads_only m)
          by (unfold resumen_diario, resumen_semanal, list_sales;
              auto 30 with nocore menu);
        destruct (R st) as (A & B & C); rewrite E in A, B, C; auto
    end.
Qed.

(** X20.  [main] stops, whatever is typed: with one turn more than there
    are lines to read the loop has ended, with the same outcome for any
    larger number of turns.  When the lines typed are ASCII text, it ends
    without an exception only through option 0: some line read is then 0 (up
    to white space around it) and the last message is the farewell;
    otherwise it ends on an exception, as it does when the input runs out. *)
Theorem X20_main_stops (s : session) :
  exists r s',
    main py_int py_float clock is_data_file (S (List.length (m_stdin s))) s
    = Some (r, s')
    /\ (forall extra,
          main py_int py_float clock is_data_file
            (S (List.length (m_stdin s)) + extra) s
          = Some (r, s'))
    /\ (Forall (fun line => isascii line = true) (m_stdin s) ->
        r = Ok tt ->
        (exists out, m_stdout s' = out ++ [SSaliendo])
        /\ exists line, In line (m_stdin s) /\ strip line = "0").
Proof.
  unfold main. destruct (load_file s) as [stored | e].
  - set (s0 := mkSession (m_stdin s) (m_stdout s) stored (m_data_file s) (m_exported s)).
    destruct (loop_ends py_int py_float clock is_data_file
                (S (List.length (m_stdin s))) 0 s0) as (r & s' & H);
      [cbn [s0 m_stdin]; lia |].
    exists r, s'. split; [exact H |]. split.
    + intros extra.
      apply (loop_more_fuel py_int py_float clock is_data_file _ _ _ _ H).
    + destruct (loop_keeps py_int py_float clock is_data_file _ _ _ _ _ H)
        as (_ & _ & K). intros _. exact K.
  - exists (Raise e), s. split; [reflexivity |]. split; [reflexivity |].
    intros _. discriminate.
Qed.

(** X21.  Through a whole run of [main], however it ends: the ledger in
    memory is the list loaded at the start followed by the records added,
    none is removed or changed; what was printed and the exports made are
    only added to; and the data file holds the ledger in memory, as the list
    written by [save_data] or as the table of an export directed at it.
    When the file cannot be loaded [main] raises at once and nothing is
    changed. *)
Theorem X21_main_keeps_ledger (fuel : nat) (s s' : session) (r : result unit) :
  main py_int py_float clock is_data_file fuel s = Some (r, s') ->
  match load_file s with
  | Ok stored =>
      (exists added, m_sales s' = stored ++ added)
      /\ (exists more, m_stdout s' = m_stdout s ++ more)
      /\ (exists files, m_exported s' = m_exported s ++ files)
      /\ file_follows s'
  | Raise e => r = Raise ValueError /\ s' = s
  end.
Proof.
  unfold main. unfold load_file at 1 2.
  destruct (m_data_file s) as [[stored | rows] |] eqn:F.
  - intros H.
    destruct (loop_keeps py_int py_float clock is_data_file _ _ _ _ _ H)
      as (E & K & _).
    destruct E as (_ & (o & O) & (a & A) & (f & Fx)).
    cbn [m_sales m_stdout m_exported] in *.
    split; [now exists a |]. split; [now exists o |]. split; [now exists f |].
    apply K. unfold file_follows. cbn [m_data_file m_sales]. reflexivity.
  - intros H. inversion H. auto.
  - intros H.
    destruct (loop_keeps py_int py_float clock is_data_file _ _ _ _ _ H)
      as (E & K & _).
    destruct E as (_ & (o & O) & (a & A) & (f & Fx)).
    cbn [m_sales m_stdout m_exported] in *.
    split; [now exists a |]. split; [now exists o |]. split; [now exists f |].
    apply K. unfold file_follows. cbn [m_data_file m_sales]. reflexivity.
Qed.

(** X24.  Options 2, 3 and 4, and a choice that is not an option, only read
    and print: when the choice typed is ASCII text and is not 1, 5 or 6 (up
    to white space around it), the ledger, the data file and the exports
    are as before, however the turn ends. *)
Theorem X24_options_read_only (turn : nat) (s : session) (o : string)
    (rest : list string) :
  m_stdin s = o :: rest ->
  isascii o = true ->
  strip o <> "1" ->
  strip o <> "5" ->
  strip o <> "6" ->
  m_sales (snd (turn_of_menu py_int py_float clock is_data_file turn s))
  = m_sales s
  /\ m_data_file (snd (turn_of_menu py_int py_float clock is_data_file turn s))
     = m_data_file s
  /\ m_exported (snd (turn_of_menu py_int py_float clock is_data_file turn s))
     = m_exported s.
Proof.
  intros Hin _ H1 H5 H6. apply (turn_read turn s o rest Hin);
    now apply String.eqb_neq.
Qed.

End MainFacts.

Section MenuRuns.

Variable py_int : string -> option Z.
Variable py_float : string -> option float.
Variable clock : nat -> datetime.
Variable is_data_file : string -> bool.

(** X22.  A ledger with a record whose timestamp is ASCII text that does
    not parse (a file edited by hand) stops the program at option 2 and not
    at option 3: after a date was typed, the daily summary raises
    [ValueError] out of [main], while the weekly summary for the same entry
    prints the error as an invalid entry and the menu goes on. *)
Theorem X22_unreadable_record (fuel turn : nat) (s : session) (o d : string)
    (rest : list string) (dt : datetime) :
  Exists (fun r => isascii (datetime_ r) = true
                   /\ sale_time r = Raise ValueError) (m_sales s) ->
  m_stdin s = o :: d :: rest ->
  strptime (strip d) "%Y-%m-%d" = Ok dt ->
  (strip o = "2" ->
   main_loop py_int py_float clock is_data_file (S fuel) turn s
   = Some (Raise ValueError,
           mkSession rest
             (m_stdout s ++ [SMenu; SAsk "> ";
                             SAsk "Fecha (YYYY-MM-DD, dejar vacío = hoy): "])
             (m_sales s) (m_data_file s) (m_exported s)))
  /\ (strip o = "3" ->
      main_loop py_int py_float clock is_data_file (S fuel) turn s
      = main_loop py_int py_float clock is_data_file fuel (S turn)
          (mkSession rest
             (m_stdout s ++ [SMenu; SAsk "> ";
                             SAsk "Ingrese año y semana (YYYY-WW) o una fecha (YYYY-MM-DD): ";
                             SEntradaInvalida ValueError])
             (m_sales s) (m_data_file s) (m_exported s))).
Proof.
  intros Hbad0 Hin Hd.
  assert (Hbad : Exists (fun r => sale_time r = Raise ValueError) (m_sales s)).
  { apply Exists_exists in Hbad0. apply Exists_exists.
    destruct Hbad0 as (r & Hr & _ & Hs). now exists r. }
  assert (Hne : String.eqb (strip d) "" = false).
  { apply String.eqb_neq. intros E. rewrite E in Hd. discriminate. }
  split; intros Ho; cbn [main_loop]; unfold turn_of_menu;
    unfold sbind at 1; cbn [show]; unfold sbind at 1; unfold ask at 1;
    cbn [m_stdin m_stdout m_sales m_data_file m_exported];
    rewrite Hin, Ho; cbn [String.eqb Ascii.eqb Bool.eqb andb].
  - unfold sbind at 1. unfold resumen_diario. unfold sbind at 1. unfold ask.
    cbn [m_stdin m_stdout m_sales m_data_file m_exported].
    rewrite Hne, Hd. unfold sbind at 1. unfold the_sales at 1.
    cbn [m_stdin m_stdout m_sales m_data_file m_exported].
    unfold sbind at 1. unfold slift at 1.
    unfold daily_summary. rewrite (summary_loop_raises _ _ Hbad). cbn [rbind].
    now rewrite <- !app_assoc.
  - unfold sbind at 1. unfold resumen_semanal. unfold sbind at 1. unfold ask.
    cbn [m_stdin m_stdout m_sales m_data_file m_exported].
    unfold sbind at 1. unfold sattempt. unfold sbind at 1. unfold slift at 1.
    rewrite (year_week_date py_int _ _ Hd).
    unfold sbind at 1. unfold the_sales at 1.
    cbn [m_stdin m_stdout m_sales m_data_file m_exported fst snd].
    unfold sbind at 1. unfold slift at 1.
    unfold weekly_summary. rewrite (summary_loop_raises _ _ Hbad). cbn [rbind].
    unfold show, sret. cbn [m_stdin m_stdout m_sales m_data_file m_exported].
    now rewrite <- !app_assoc.
Qed.

(** X23.  An export directed at the data file overwrites it: with a ledger
    that is not empty, option 5 with a name of [ventas.json] leaves the
    ledger in memory as it is and the file holding the exported table;
    started again on that file, [main] raises [ValueError] before it prints
    anything, whatever is typed. *)
Theorem X23_export_over_data_file (turn : nat) (s : session) (o fn : string)
    (rest : list string) :
  m_stdin s = o :: fn :: rest ->
  strip o = "5" ->
  strip fn <> "" ->
  is_data_file (strip fn) = true ->
  m_sales s <> [] ->
  exists s',
    turn_of_menu py_int py_float clock is_data_file turn s = (Ok false, s')
    /\ m_sales s' = m_sales s
    /\ m_data_file s' = Some (Csv (m_sales s))
    /\ m_exported s' = m_exported s ++ [(strip fn, m_sales s)]
    /\ forall fuel lines,
         main py_int py_float clock is_data_file fuel
           (mkSession lines [] [] (m_data_file s') [])
         = Some (Raise ValueError, mkSession lines [] [] (m_data_file s') []).
Proof.
  intros Hin Ho Hfn Hdf Hs. apply String.eqb_neq in Hfn.
  unfold turn_of_menu. unfold sbind at 1. cbn [show]. unfold sbind at 1.
  unfold ask at 1. cbn [m_stdin m_stdout m_sales m_data_file m_exported].
  rewrite Hin, Ho. cbn [String.eqb Ascii.eqb Bool.eqb andb].
  unfold sbind at 1. unfold ask.
  cbn [m_stdin m_stdout m_sales m_data_file m_exported].
  rewrite Hfn. unfold sbind at 1. unfold export_csv. unfold sbind at 1.
  unfold the_sales. cbn [m_stdin m_stdout m_sales m_data_file m_exported].
  destruct (m_sales s) as [| r l] eqn:E; [contradiction |].
  unfold sbind, write_csv, show, sret.
  cbn [m_stdin m_stdout m_sales m_data_file m_exported]. rewrite Hdf.
  eexists. split; [reflexivity |].
  cbn [m_stdin m_stdout m_sales m_data_file m_exported].
  repeat split; try reflexivity; exact E.
Qed.

End MenuRuns.

Lemma X21_main_keeps_ledger_witness :
  exists r s',
    main edge_int edge_float at_noon named_ventas_json 4
      (session0 ["6"; "4"; "0"] [] None) = Some (r, s')
    /\ match load_file (session0 ["6"; "4"; "0"] [] None) with
       | Ok stored =>
           (exists added, m_sales s' = stored ++ added)
           /\ (exists more,
                 m_stdout s' = m_stdout (session0 ["6"; "4"; "0"] [] None) ++ more)
           /\ (exists files,
                 m_exported s' = m_exported (session0 ["6"; "4"; "0"] [] None) ++ files)
           /\ file_follows s'
       | Raise e => r = Raise ValueError /\ s' = session0 ["6"; "4"; "0"] [] None
       end.
Proof.
  eexists. eexists. split; [vm_compute; reflexivity |].
  apply (X21_main_keeps_ledger edge_int edge_float at_noon named_ventas_json 4
           (session0 ["6"; "4"; "0"] [] None)).
  vm_compute. reflexivity.
Defined.

Lemma X22_unreadable_record_witness :
  (strip "2" = "2" ->
   main_loop edge_int edge_float at_noon named_ventas_json 1 0
     (session0 ["2"; "2025-12-29"] hand_edited (Some (Json hand_edited)))
   = Some (Raise ValueError,
           mkSession []
             (m_stdout (session0 ["2"; "2025-12-29"] hand_edited (Some (Json hand_edited)))
              ++ [SMenu; SAsk "> "; SAsk "Fecha (YYYY-MM-DD, dejar vacío = hoy): "])
             (m_sales (session0 ["2"; "2025-12-29"] hand_edited (Some (Json hand_edited))))
             (m_data_file (session0 ["2"; "2025-12-29"] hand_edited (Some (Json hand_edited))))
             (m_exported (session0 ["2"; "2025-12-29"] hand_edited (Some (Json hand_edited))))))
  /\ (strip "2" = "3" ->
      main_loop edge_int edge_float at_noon named_ventas_json 1 0
        (session0 ["2"; "2025-12-29"] hand_edited (Some (Json hand_edited)))
      = main_loop edge_int edge_float at_noon named_ventas_json 0 1
          (mkSession []
             (m_stdout (session0 ["2"; "2025-12-29"] hand_edited (Some (Json hand_edited)))
              ++ [SMenu; SAsk "> ";
                  SAsk "Ingrese año y semana (YYYY-WW) o una fecha (YYYY-MM-DD): ";
                  SEntradaInvalida ValueError])
             (m_sales (session0 ["2"; "2025-12-29"] hand_edited (Some (Json hand_edited))))
             (m_data_file (session0 ["2"; "2025-12-29"] hand_edited (Some (Json hand_edited))))
             (m_exported (session0 ["2"; "2025-12-29"] hand_edited (Some (Json hand_edited)))))).
Proof.
  apply (X22_unreadable_record edge_int edge_float at_noon named_ventas_json 0 0
           (session0 ["2"; "2025-12-29"] hand_edited (Some (Json hand_edited)))
           "2" "2025-12-29" [] (mkDatetime 2025 12 29 0 0 0 0)).
  - left. split; vm_compute; reflexivity.
  - reflexivity.
  - vm_compute. reflexivity.
Defined.

Lemma X23_export_over_data_file_witness :
  exists s',
    turn_of_menu edge_int edge_float at_noon named_ventas_json 0
      (session0 ["5"; " ventas.json"] demo_sales (Some (Json demo_sales)))
    = (Ok false, s')
    /\ m_sales s'
       = m_sales (session0 ["5"; " ventas.json"] demo_sales (Some (Json demo_sales)))
    /\ m_data_file s'
       = Some (Csv (m_sales (session0 ["5"; " ventas.json"] demo_sales
                               (Some (Json demo_sales)))))
    /\ m_exported s'
       = m_exported (session0 ["5"; " ventas.json"] demo_sales (Some (Json demo_sales)))
         ++ [(strip " ventas.json",
              m_sales (session0 ["5"; " ventas.json"] demo_sales (Some (Json demo_sales))))]
    /\ forall fuel lines,
         main edge_int edge_float at_noon named_ventas_json fuel
           (mkSession lines [] [] (m_data_file s') [])
         = Some (Raise ValueError, mkSession lines [] [] (m_data_file s') []).
Proof.
  apply (X23_export_over_data_file edge_int edge_float at_noon named_ventas_json 0
           (session0 ["5"; " ventas.json"] demo_sales (Some (Json demo_sales)))
           "5" " ventas.json" []).
  - reflexivity.
  - vm_compute. reflexivity.
  - vm_compute. discriminate.
  - vm_compute. reflexivity.
  - vm_compute. discriminate.
Defined.

Lemma X24_options_read_only_witness :
  m_sales (snd (turn_of_menu edge_int edge_float at_noon named_ventas_json 0
                  (session0 ["3"; "2026-01"] demo_sales (Some (Json demo_sales)))))
  = m_sales (session0 ["3"; "2026-01"] demo_sales (Some (Json demo_sales)))
  /\ m_data_file (snd (turn_of_menu edge_int edge_float at_noon named_ventas_json 0
                         (session0 ["3"; "2026-01"] demo_sales (Some (Json demo_sales)))))
     = m_data_file (session0 ["3"; "2026-01"] demo_sales (Some (Json demo_sales)))
  /\ m_exported (snd (turn_of_menu edge_int edge_float at_noon named_ventas_json 0
                        (session0 ["3"; "2026-01"] demo_sales (Some (Json demo_sales)))))
     = m_exported (session0 ["3"; "2026-01"] demo_sales (Some (Json demo_sales))).
Proof.
  apply (X24_options_read_only edge_int edge_float at_noon named_ventas_json 0
           (session0 ["3"; "2026-01"] demo_sales (Some (Json demo_sales)))
           "3" ["2026-01"]).
  - reflexivity.
  - reflexivity.
  - vm_compute. discriminate.
  - vm_compute. discriminate.
  - vm_compute. discriminate.
Defined.

(** ** The list of sales *)

Lemma list_loop_run (items : list (Z * sale)) :
  forall s,
    list_loop items s
    = (Ok tt, mkSession (m_stdin s)
                (m_stdout s ++ map (fun ir => SVenta (fst ir) (snd ir)) items)
                (m_sales s) (m_data_file s) (m_exported s)).
Proof.
  induction items as [| [i r] rest IH]; intros s; cbn [list_loop map].
  - unfold sret. rewrite app_nil_r. now destruct s.
  - unfold sbind, show. rewrite IH.
    cbn [m_stdin m_stdout m_sales m_data_file m_exported fst snd].
    now rewrite <- app_assoc.
Qed.

Lemma enumerate_nth {A : Type} (items : list A) :
  forall start k x,
    nth_error items k = Some x ->
    nth_error (enumerate start items) k = Some (start + Z.of_nat k, x).
Proof.
  induction items as [| y rest IH]; intros start k x H; [now destruct k |].
  destruct k as [| k]; cbn [nth_error enumerate] in *.
  - inversion H. now rewrite Z.add_0_r.
  - rewrite (IH (start + 1) k x H). f_equal. f_equal. lia.
Qed.

Lemma enumerate_length {A : Type} (items : list A) :
  forall start, List.length (enumerate start items) = List.length items.
Proof.
  induction items as [| y rest IH]; intros start; cbn [enumerate List.length];
    [reflexivity | now rewrite IH].
Qed.

(** X26.  [list_sales] changes nothing and never fails.  For an empty
    ledger it prints one message; otherwise it prints one line for each
    record, in the order of the ledger, the record at position [k] (from 0)
    on line [k] with the number [k + 1]. *)
Theorem X26_list_sales_lines (s : session) :
  exists lines,
    list_sales s
    = (Ok tt, mkSession (m_stdin s) (m_stdout s ++ lines) (m_sales s)
                (m_data_file s) (m_exported s))
    /\ (m_sales s = [] -> lines = [SNoHayVentas])
    /\ (m_sales s <> [] ->
        List.length lines = List.length (m_sales s)
        /\ forall k r,
             nth_error (m_sales s) k = Some r ->
             nth_error lines k = Some (SVenta (Z.of_nat k + 1) r)).
Proof.
  unfold list_sales, sbind, the_sales.
  destruct (m_sales s) as [| r0 rest] eqn:E.
  - exists [SNoHayVentas]. unfold show. rewrite E.
    split; [reflexivity |]. split; [reflexivity | contradiction].
  - rewrite list_loop_run. rewrite E. eexists. split; [reflexivity |].
    split; [discriminate |]. intros _. split.
    + now rewrite length_map, enumerate_length.
    + intros k r H. rewrite nth_error_map.
      rewrite (enumerate_nth _ 1 k r H). cbn [option_map fst snd].
      f_equal. f_equal. lia.
Qed.
